(** * textgrid-tools: the [TextGrid] class of [textgrid.py]

    A shallow embedding of [src/textgrid-tools/textgrid.py] and the
    properties of its parser, its serializer and its extension dispatch.

    Conventions of the embedding.
    - A Python [str] is a [string]; a character is a code point below 256.
      The character classes of [re] ([\s], [\d], [\w], [.]) and the line
      boundaries of [str.splitlines] are those of CPython on that range.
    - A Python [int] is a [Z] (unbounded).  [int()] refuses a text of
      more than 4300 digits, the default of
      [sys.get_int_max_str_digits()] in CPython 3.11, which the class
      does not change.
    - The list of line 105 has as many entries as the file asks for;
      whether it can be built depends on the machine.  [Machine] stands
      for the machine of the run: [capacity] is the largest number of
      entries it has the memory for.  The other allocations of the class
      grow with the text read, which is in memory already, and are taken
      to succeed.
    - A Python [float] is an IEEE 754 binary64 number, [spec_float] at
      precision 53 and maximal exponent 1024.
    - [None] is the [None] of an [option].
    - A raised exception is the [Raise] of a [result]; the message of the
      exception is kept, since the three [ValueError]s of the class are
      told apart by it. *)

From Stdlib Require Import ZArith NArith List Bool Ascii String Lia.
From Stdlib Require Import DecimalString DecimalPos.
From Stdlib Require Import Floats.SpecFloat.
Import ListNotations.

Open Scope string_scope.
Open Scope Z_scope.

(** ** Exceptions *)

Inductive exn : Type :=
| ValueError (msg : string)
| TypeError (msg : string)
| OSError (msg : string)
| OverflowError (msg : string)
| MemoryError.

Inductive result (A : Type) : Type :=
| Ok (a : A)
| Raise (e : exn).
Arguments Ok {A} a.
Arguments Raise {A} e.

Definition bind {A B : Type} (m : result A) (k : A -> result B) : result B :=
  match m with
  | Ok a => k a
  | Raise e => Raise e
  end.

Notation "x <- m ;; k" := (bind m (fun x => k))
  (at level 61, m at next level, right associativity).

(** ** Characters and character classes *)

Definition code (c : ascii) : N := N_of_ascii c.

Definition LF : ascii := ascii_of_N 10.
Definition CR : ascii := ascii_of_N 13.
Definition TAB : ascii := ascii_of_N 9.
Definition QUOTE : ascii := ascii_of_N 34.

Definition nl : string := String LF EmptyString.
Definition tab : string := String TAB EmptyString.
Definition quote : string := String QUOTE EmptyString.

(** [\s]: the characters [str.isspace] accepts. *)
Definition is_space (c : ascii) : bool :=
  let n := code c in
  ((9 <=? n) && (n <=? 13) || (28 <=? n) && (n <=? 32)
   || (n =? 133) || (n =? 160))%N.

(** [\d]: the decimal digits. *)
Definition is_digit (c : ascii) : bool :=
  let n := code c in ((48 <=? n) && (n <=? 57))%N.

(** [\w]: the alphanumeric characters and the underscore. *)
Definition is_word (c : ascii) : bool :=
  let n := code c in
  (is_digit c
   || (65 <=? n) && (n <=? 90) || (n =? 95) || (97 <=? n) && (n <=? 122)
   || (n =? 170) || (n =? 178) || (n =? 179) || (n =? 181) || (n =? 185)
   || (n =? 186) || (188 <=? n) && (n <=? 190)
   || (192 <=? n) && (n <=? 214) || (216 <=? n) && (n <=? 246)
   || (248 <=? n))%N.

(** [.]: anything but a newline. *)
Definition is_dot (c : ascii) : bool := negb (code c =? 10)%N.

(** The line boundaries of [str.splitlines]. *)
Definition is_linebreak (c : ascii) : bool :=
  let n := code c in
  ((10 <=? n) && (n <=? 13) || (28 <=? n) && (n <=? 30) || (n =? 133))%N.

(** ** The fragment of [re] the parser uses

    Every pattern of [_parse_textgrid] is a sequence of single characters
    and character classes, some under a greedy star or plus, with one
    capturing group.  [re.match] anchors the pattern at the start of the
    line and does not ask it to reach the end. *)

Inductive atom : Type :=
| Lit (c : ascii)
| Space
| Digit
| Word
| Dot.

Definition accepts (a : atom) (c : ascii) : bool :=
  match a with
  | Lit d => Ascii.eqb d c
  | Space => is_space c
  | Digit => is_digit c
  | Word => is_word c
  | Dot => is_dot c
  end.

Inductive tok : Type :=
| One (a : atom)
| Star (a : atom)
| Plus (a : atom)
| GOpen
| GClose.

Definition regex : Type := list tok.

(** [keep g c r]: the character [c] was consumed; it belongs to the
    captured text when the group is open. *)
Definition keep (g : bool) (c : ascii) (r : option string) : option string :=
  match r with
  | Some s => Some (if g then String c s else s)
  | None => None
  end.

(** Greedy repetition with backtracking: take one more character when the
    rest of the pattern can still match after it, otherwise stop here. *)
Fixpoint star (a : atom) (g : bool) (k : string -> option string)
    (s : string) : option string :=
  match s with
  | String c s' =>
      if accepts a c then
        match keep g c (star a g k s') with
        | Some r => Some r
        | None => k s
        end
      else k s
  | EmptyString => k s
  end.

(** [run r g s]: match [r] at the start of [s]; [g] tells whether the
    group is open.  The result is the text of the group. *)
Fixpoint run (r : regex) (g : bool) (s : string) : option string :=
  match r with
  | [] => Some EmptyString
  | GOpen :: r' => run r' true s
  | GClose :: r' => run r' false s
  | One a :: r' =>
      match s with
      | String c s' => if accepts a c then keep g c (run r' g s') else None
      | EmptyString => None
      end
  | Star a :: r' => star a g (run r' g) s
  | Plus a :: r' =>
      match s with
      | String c s' =>
          if accepts a c then keep g c (star a g (run r' g) s') else None
      | EmptyString => None
      end
  end.

(** [re.match(pattern, line)] followed by [match.group(1)]. *)
Definition re_match (r : regex) (line : string) : option string :=
  run r false line.

Fixpoint lit (s : string) : regex :=
  match s with
  | EmptyString => []
  | String c s' => One (Lit c) :: lit s'
  end.

Definition ws : regex := [One Space].
Definition group (r : regex) : regex := (GOpen :: r ++ [GClose])%list.
Definition cat (rs : list regex) : regex := List.concat rs.

(** The twelve patterns, in the order the loop tries them, each with its
    source line and the pattern of that line spelt token by token. *)

(** Line 54:  File \s type \s = \s \" ( \w+ ) \" *)
Definition re_file_type : regex :=
  cat [lit "File"; ws; lit "type"; ws; lit "="; ws; lit quote;
       group [Plus Word]; lit quote].

(** Line 59:  Object \s class \s = \s \" ( \w+ ) \" *)
Definition re_object_class : regex :=
  cat [lit "Object"; ws; lit "class"; ws; lit "="; ws; lit quote;
       group [Plus Word]; lit quote].

(** Line 64:  xmin \s = \s ( \d+ \. \d+ ) *)
Definition re_xmin : regex :=
  cat [lit "xmin"; ws; lit "="; ws;
       group [Plus Digit; One (Lit "."); Plus Digit]].

(** Line 69:  xmax \s = \s ( \d+ \. \d+ ) *)
Definition re_xmax : regex :=
  cat [lit "xmax"; ws; lit "="; ws;
       group [Plus Digit; One (Lit "."); Plus Digit]].

(** Line 74:  tiers\? \s < ( .* ) > *)
Definition re_tiers : regex :=
  cat [lit "tiers?"; ws; lit "<"; group [Star Dot]; lit ">"].

(** Line 79:  size \s = \s ( \d+ ) *)
Definition re_size : regex :=
  cat [lit "size"; ws; lit "="; ws; group [Plus Digit]].

(** Line 86:  \s+ item \s \[ ( \d+ ) ] *)
Definition re_item : regex :=
  cat [[Plus Space]; lit "item"; ws; lit "["; group [Plus Digit]; lit "]"].

(** Line 97:  \s+ name \s = \s \" ( .* ) \" *)
Definition re_name : regex :=
  cat [[Plus Space]; lit "name"; ws; lit "="; ws; lit quote;
       group [Star Dot]; lit quote].

(** Line 102:  \s+ intervals: \s size \s = \s ( \d+ ) *)
Definition re_intervals : regex :=
  cat [[Plus Space]; lit "intervals:"; ws; lit "size"; ws; lit "="; ws;
       group [Plus Digit]].

(** Line 109:  \s+ xmin \s = \s ( \d* \.* \d* ) *)
Definition re_ixmin : regex :=
  cat [[Plus Space]; lit "xmin"; ws; lit "="; ws;
       group [Star Digit; Star (Lit "."); Star Digit]].

(** Line 115:  \s+ xmax \s = \s ( \d* \.* \d* ) *)
Definition re_ixmax : regex :=
  cat [[Plus Space]; lit "xmax"; ws; lit "="; ws;
       group [Star Digit; Star (Lit "."); Star Digit]].

(** Line 121:  \s+ text \s = \s \" ( .* ) \" *)
Definition re_text : regex :=
  cat [[Plus Space]; lit "text"; ws; lit "="; ws; lit quote;
       group [Star Dot]; lit quote].

(** ** Strings *)

Fixpoint take (n : nat) (s : string) : string :=
  match n, s with
  | S n', String c s' => String c (take n' s')
  | _, _ => EmptyString
  end.

Fixpoint drop (n : nat) (s : string) : string :=
  match n, s with
  | S n', String _ s' => drop n' s'
  | _, _ => s
  end.

Fixpoint all_chars (p : ascii -> bool) (s : string) : bool :=
  match s with
  | EmptyString => true
  | String c s' => p c && all_chars p s'
  end.

Fixpoint repeat_char (c : ascii) (n : nat) : string :=
  match n with
  | O => EmptyString
  | S n' => String c (repeat_char c n')
  end.

Definition is_empty (s : string) : bool :=
  match s with
  | EmptyString => true
  | String _ _ => false
  end.

(** [str.rfind] for a one-character needle: the highest index, or -1. *)
Fixpoint rfind (c : ascii) (s : string) : Z :=
  match s with
  | EmptyString => -1
  | String d s' =>
      let r := rfind c s' in
      if 0 <=? r then r + 1 else if Ascii.eqb d c then 0 else -1
  end.

(** [str.splitlines()]: a line ends at a line boundary, CR LF counts as
    one boundary, and a boundary at the very end opens no further line. *)
Fixpoint splitlines (s : string) : list string :=
  match s with
  | EmptyString => []
  | String c s' =>
      if is_linebreak c then
        EmptyString ::
          (if Ascii.eqb c CR then
             match s' with
             | String d s'' => if Ascii.eqb d LF then splitlines s'' else splitlines s'
             | EmptyString => []
             end
           else splitlines s')
      else
        match splitlines s' with
        | [] => [String c EmptyString]
        | l :: ls => String c l :: ls
        end
  end.

(** ** Integers: [int()] and the decimal text of an [int] *)

Definition digit_val (c : ascii) : Z := Z.of_N (code c) - 48.

Fixpoint int_acc (acc : Z) (s : string) : Z :=
  match s with
  | EmptyString => acc
  | String c s' => int_acc (10 * acc + digit_val c) s'
  end.

(** [str(n)] of an [int], as an f-string prints it. *)
Definition str_int (n : Z) : string := NilZero.string_of_int (Z.to_int n).

(** [sys.get_int_max_str_digits()]: [int()] counts the digits of its
    text, leading zeros included, and raises past this number. *)
Definition int_max_str_digits : Z := 4300.

Definition digits_of (s : string) : Z := Z.of_nat (String.length s).

Definition int_too_long (s : string) : exn :=
  ValueError ("Exceeds the limit (" ++ str_int int_max_str_digits
              ++ " digits) for integer string conversion: value has "
              ++ str_int (digits_of s)
              ++ " digits; use sys.set_int_max_str_digits() to increase the limit").

(** [int(s)] for a capture of digits.  The patterns hand [int] nothing
    else; on any other text this model raises. *)
Definition py_int (s : string) : result Z :=
  if negb (is_empty s) && all_chars is_digit s then
    if digits_of s <=? int_max_str_digits then Ok (int_acc 0 s)
    else Raise (int_too_long s)
  else Raise (ValueError ("invalid literal for int() with base 10: '" ++ s ++ "'")).

(** ** Floats: [float()] and the text of a [float] *)

Definition float : Type := spec_float.

Definition prec : Z := 53.
Definition emax : Z := 1024.

(** The binary64 number nearest to [num / den] (ties to even), for
    positive [num] and [den]; infinity past the largest finite number. *)
Definition round_ratio (num den : positive) : float :=
  SFdiv prec emax (S754_finite false num 0) (S754_finite false den 0).

(** The binary64 number nearest to [d * 10 ^ p], for [0 <= d]. *)
Definition round_decimal (d : Z) (p : Z) : float :=
  match d with
  | Zpos n =>
      if 0 <=? p then round_ratio (n * Z.to_pos (10 ^ p)) 1
      else round_ratio n (Z.to_pos (10 ^ (- p)))
  | _ => S754_zero false
  end.

(** The longest prefix of digits, and the rest. *)
Fixpoint span_digits (s : string) : string * string :=
  match s with
  | String c s' =>
      if is_digit c then let (a, b) := span_digits s' in (String c a, b)
      else (EmptyString, s)
  | EmptyString => (EmptyString, EmptyString)
  end.

(** [float(s)] for a capture of digits and dots: digits, at most one dot,
    digits, with a digit somewhere.  The patterns hand [float] nothing
    else; any other text raises here, as the captures that are no numeral
    (the empty one, a lone dot, two dots) do in Python. *)
Definition py_float (s : string) : result float :=
  let bad := Raise (ValueError ("could not convert string to float: '" ++ s ++ "'")) in
  let (ip, rest) := span_digits s in
  match rest with
  | EmptyString =>
      if is_empty ip then bad else Ok (round_decimal (int_acc 0 ip) 0)
  | String c fp =>
      if Ascii.eqb c "." && all_chars is_digit fp
         && negb (is_empty ip && is_empty fp)
      then Ok (round_decimal (int_acc 0 (ip ++ fp)) (- Z.of_nat (String.length fp)))
      else bad
  end.

(** [repr] of a float: the shortest digits that read back as the same
    number, the nearest such when several are as short; scientific
    notation when the decimal point would fall more than 16 places to the
    right of the first digit or more than 3 zeros to its left. *)

Definition str_nat_digits (n : Z) : string :=
  NilZero.string_of_uint (N.to_uint (Z.to_N n)).

Fixpoint strip_zeros (fuel : nat) (d p : Z) : Z * Z :=
  match fuel with
  | O => (d, p)
  | S f => if (d mod 10 =? 0) && negb (d =? 0) then strip_zeros f (d / 10) (p + 1) else (d, p)
  end.

(** [x10k] is the exact value times [10 ^ k]; [nd] its number of digits.
    The candidates with [n] digits are the two neighbours of the value. *)
Definition candidates (x : float) (x10k : Z) (k : Z) (nd : Z) (n : Z)
  : option (Z * Z) :=
  if nd <=? n then Some (x10k, - k)
  else
    let cut := 10 ^ (nd - n) in
    let q := x10k / cut in
    let r := x10k mod cut in
    let p := nd - n - k in
    let lo := if SFeqb (round_decimal q p) x then true else false in
    let hi := if SFeqb (round_decimal (q + 1) p) x then true else false in
    match lo, hi with
    | true, true =>
        match 2 * r ?= cut with
        | Lt => Some (q, p)
        | Gt => Some (q + 1, p)
        | Eq => Some (if Z.even q then q else q + 1, p)
        end
    | true, false => Some (q, p)
    | false, true => Some (q + 1, p)
    | false, false => None
    end.

Fixpoint shortest (x : float) (x10k k nd : Z) (fuel : nat) (n : Z) : Z * Z :=
  match fuel with
  | O => (x10k, - k)
  | S f =>
      match candidates x x10k k nd n with
      | Some dp => dp
      | None => shortest x x10k k nd f (n + 1)
      end
  end.

Definition format_short (d p : Z) : string :=
  let ds := str_nat_digits d in
  let nd := Z.of_nat (String.length ds) in
  let decpt := nd + p in
  if (decpt <=? -4) || (16 <? decpt) then
    let e := decpt - 1 in
    let es := str_nat_digits (Z.abs e) in
    take 1 ds ++ (if 1 <? nd then "." ++ drop 1 ds else EmptyString)
      ++ "e" ++ (if e <? 0 then "-" else "+")
      ++ (if Z.abs e <? 10 then "0" else EmptyString) ++ es
  else if decpt <=? 0 then
    "0." ++ repeat_char "0" (Z.to_nat (- decpt)) ++ ds
  else if nd <=? decpt then
    ds ++ repeat_char "0" (Z.to_nat (decpt - nd)) ++ ".0"
  else
    take (Z.to_nat decpt) ds ++ "." ++ drop (Z.to_nat decpt) ds.

Definition str_float (x : float) : string :=
  match x with
  | S754_nan => "nan"
  | S754_infinity s => if s then "-inf" else "inf"
  | S754_zero s => if s then "-0.0" else "0.0"
  | S754_finite s m e =>
      let k := Z.max 0 (- e) in
      let x10k := Zpos m * 2 ^ (e + k) * 5 ^ k in
      let nd := Z.of_nat (String.length (str_nat_digits x10k)) in
      let (d, p) := shortest (S754_finite false m e) x10k k nd 17 1 in
      let (d', p') := strip_zeros 400 d p in
      (if s then "-" else EmptyString) ++ format_short d' p'
  end.

(** ** [os.path.splitext] (POSIX flavour)

    The extension starts at the last dot of the last path component,
    provided some character other than a dot precedes it there; it
    includes that dot.  Otherwise the extension is empty. *)

(** The [while] loop of [_splitext]: is some character in
    [p[filenameIndex : dotIndex]] not a dot? *)
Fixpoint has_nondot (p : string) (filenameIndex : nat) (len : nat) : bool :=
  match len with
  | O => false
  | S len' =>
      match String.get filenameIndex p with
      | Some c => if Ascii.eqb c "." then has_nondot p (S filenameIndex) len' else true
      | None => true
      end
  end.

Definition splitext (p : string) : string * string :=
  let sepIndex := rfind "/" p in
  let dotIndex := rfind "." p in
  if (sepIndex <? dotIndex)
     && has_nondot p (Z.to_nat (sepIndex + 1)) (Z.to_nat (dotIndex - (sepIndex + 1)))
  then (take (Z.to_nat dotIndex) p, drop (Z.to_nat dotIndex) p)
  else (p, EmptyString).

(** ** The object *)

Record TextGrid : Type := mkTextGrid {
  file_path : string;
  file_type : option string;
  object_class : option string;
  xmin : option float;
  xmax : option float;
  tiers : option string;
  n_tiers : option Z;
  tier_list : list (option string);
  (* self.content, a dict with the four keys below *)
  content_tier : list (option string);
  content_start : list float;
  content_end : list float;
  content_annotation : list string
}.

Definition set_file_type v (o : TextGrid) : TextGrid :=
  mkTextGrid o.(file_path) v o.(object_class) o.(xmin) o.(xmax) o.(tiers)
    o.(n_tiers) o.(tier_list) o.(content_tier) o.(content_start)
    o.(content_end) o.(content_annotation).
Definition set_object_class v (o : TextGrid) : TextGrid :=
  mkTextGrid o.(file_path) o.(file_type) v o.(xmin) o.(xmax) o.(tiers)
    o.(n_tiers) o.(tier_list) o.(content_tier) o.(content_start)
    o.(content_end) o.(content_annotation).
Definition set_xmin v (o : TextGrid) : TextGrid :=
  mkTextGrid o.(file_path) o.(file_type) o.(object_class) v o.(xmax) o.(tiers)
    o.(n_tiers) o.(tier_list) o.(content_tier) o.(content_start)
    o.(content_end) o.(content_annotation).
Definition set_xmax v (o : TextGrid) : TextGrid :=
  mkTextGrid o.(file_path) o.(file_type) o.(object_class) o.(xmin) v o.(tiers)
    o.(n_tiers) o.(tier_list) o.(content_tier) o.(content_start)
    o.(content_end) o.(content_annotation).
Definition set_tiers v (o : TextGrid) : TextGrid :=
  mkTextGrid o.(file_path) o.(file_type) o.(object_class) o.(xmin) o.(xmax) v
    o.(n_tiers) o.(tier_list) o.(content_tier) o.(content_start)
    o.(content_end) o.(content_annotation).
Definition set_n_tiers v (o : TextGrid) : TextGrid :=
  mkTextGrid o.(file_path) o.(file_type) o.(object_class) o.(xmin) o.(xmax)
    o.(tiers) v o.(tier_list) o.(content_tier) o.(content_start)
    o.(content_end) o.(content_annotation).
Definition set_tier_list v (o : TextGrid) : TextGrid :=
  mkTextGrid o.(file_path) o.(file_type) o.(object_class) o.(xmin) o.(xmax)
    o.(tiers) o.(n_tiers) v o.(content_tier) o.(content_start)
    o.(content_end) o.(content_annotation).
Definition set_content_tier v (o : TextGrid) : TextGrid :=
  mkTextGrid o.(file_path) o.(file_type) o.(object_class) o.(xmin) o.(xmax)
    o.(tiers) o.(n_tiers) o.(tier_list) v o.(content_start)
    o.(content_end) o.(content_annotation).
Definition set_content_start v (o : TextGrid) : TextGrid :=
  mkTextGrid o.(file_path) o.(file_type) o.(object_class) o.(xmin) o.(xmax)
    o.(tiers) o.(n_tiers) o.(tier_list) o.(content_tier) v
    o.(content_end) o.(content_annotation).
Definition set_content_end v (o : TextGrid) : TextGrid :=
  mkTextGrid o.(file_path) o.(file_type) o.(object_class) o.(xmin) o.(xmax)
    o.(tiers) o.(n_tiers) o.(tier_list) o.(content_tier) o.(content_start)
    v o.(content_annotation).
Definition set_content_annotation v (o : TextGrid) : TextGrid :=
  mkTextGrid o.(file_path) o.(file_type) o.(object_class) o.(xmin) o.(xmax)
    o.(tiers) o.(n_tiers) o.(tier_list) o.(content_tier) o.(content_start)
    o.(content_end) v.

(** Lines 19-27: the attributes as [__init__] sets them before it reads
    anything. *)
Definition blank (path : string) : TextGrid :=
  mkTextGrid path None None None None None None [] [] [] [] [].

(** ** [_parse_textgrid] *)

(** The machine of the run: the largest number of entries of a list it
    has the memory for. *)
Class Machine : Type := { capacity : Z }.

(** [sys.maxsize] of a 64-bit build: a sequence is repeated at most this
    many times. *)
Definition sys_maxsize : Z := 9223372036854775807.

Definition index_overflow : exn :=
  OverflowError "cannot fit 'int' into an index-sized integer".

Section Program.
Context {M : Machine}.

(** Line 48: the two locals of the loop, next to the object. *)
Record pstate : Type := mkP {
  self : TextGrid;
  tier_header : bool;
  tier_name : option string
}.

Definition upd (f : TextGrid -> TextGrid) (st : pstate) : pstate :=
  mkP (f st.(self)) st.(tier_header) st.(tier_name).

Definition is_none {A : Type} (o : option A) : bool :=
  match o with
  | None => true
  | Some _ => false
  end.

(** Lines 54-56. *)
Definition on_file_type (line : string) (st : pstate) : result pstate :=
  match re_match re_file_type line with
  | Some g => Ok (upd (set_file_type (Some g)) st)
  | None => Ok st
  end.

(** Lines 59-61. *)
Definition on_object_class (line : string) (st : pstate) : result pstate :=
  match re_match re_object_class line with
  | Some g => Ok (upd (set_object_class (Some g)) st)
  | None => Ok st
  end.

(** Lines 64-66. *)
Definition on_xmin (line : string) (st : pstate) : result pstate :=
  match re_match re_xmin line with
  | Some g =>
      if is_none st.(tier_name)
      then x <- py_float g ;; Ok (upd (set_xmin (Some x)) st)
      else Ok st
  | None => Ok st
  end.

(** Lines 69-71. *)
Definition on_xmax (line : string) (st : pstate) : result pstate :=
  match re_match re_xmax line with
  | Some g =>
      if is_none st.(tier_name)
      then x <- py_float g ;; Ok (upd (set_xmax (Some x)) st)
      else Ok st
  | None => Ok st
  end.

(** Lines 74-76. *)
Definition on_tiers (line : string) (st : pstate) : result pstate :=
  match re_match re_tiers line with
  | Some g => Ok (upd (set_tiers (Some g)) st)
  | None => Ok st
  end.

(** Lines 79-81. *)
Definition on_size (line : string) (st : pstate) : result pstate :=
  match re_match re_size line with
  | Some g => n <- py_int g ;; Ok (upd (set_n_tiers (Some n)) st)
  | None => Ok st
  end.

Definition too_many_tiers (n tier_idx : Z) : exn :=
  ValueError ("There are too many tiers, expected " ++ str_int n
              ++ " but got " ++ str_int tier_idx).

Definition int_ge_None : exn :=
  TypeError "'>=' not supported between instances of 'int' and 'NoneType'".

(** Lines 86-94.  Comparing an [int] with [None] raises [TypeError]. *)
Definition on_item (line : string) (st : pstate) : result pstate :=
  match re_match re_item line with
  | Some g =>
      idx <- py_int g ;;
      let tier_idx := idx - 1 in
      match st.(self).(n_tiers) with
      | None => Raise int_ge_None
      | Some n =>
          if n <=? tier_idx then Raise (too_many_tiers n tier_idx)
          else Ok (mkP st.(self) true st.(tier_name))
      end
  | None => Ok st
  end.

(** Lines 97-99. *)
Definition on_name (line : string) (st : pstate) : result pstate :=
  match re_match re_name line with
  | Some g => Ok (mkP st.(self) st.(tier_header) (Some g))
  | None => Ok st
  end.

(** Lines 102-106.  [[tier_name] * n] of line 105: a number of
    repetitions above [sys.maxsize] is an [OverflowError], a list the
    machine has no memory for a [MemoryError]. *)
Definition on_intervals (line : string) (st : pstate) : result pstate :=
  match re_match re_intervals line with
  | Some g =>
      n <- py_int g ;;
      if sys_maxsize <? n then Raise index_overflow
      else if capacity <? n then Raise MemoryError
      else
        let o := st.(self) in
        let o' := set_content_tier
                    (o.(content_tier) ++ repeat st.(tier_name) (Z.to_nat n)) o in
        Ok (mkP o' false st.(tier_name))
  | None => Ok st
  end.

(** Lines 109-112. *)
Definition on_ixmin (line : string) (st : pstate) : result pstate :=
  match re_match re_ixmin line with
  | Some g =>
      if negb st.(tier_header)
      then start <- py_float g ;;
           Ok (upd (fun o => set_content_start (o.(content_start) ++ [start]) o) st)
      else Ok st
  | None => Ok st
  end.

(** Lines 115-118. *)
Definition on_ixmax (line : string) (st : pstate) : result pstate :=
  match re_match re_ixmax line with
  | Some g =>
      if negb st.(tier_header)
      then end_ <- py_float g ;;
           Ok (upd (fun o => set_content_end (o.(content_end) ++ [end_]) o) st)
      else Ok st
  | None => Ok st
  end.

(** Lines 121-124. *)
Definition on_text (line : string) (st : pstate) : result pstate :=
  match re_match re_text line with
  | Some g =>
      if negb st.(tier_header)
      then Ok (upd (fun o => set_content_annotation
                               (o.(content_annotation) ++ [g]) o) st)
      else Ok st
  | None => Ok st
  end.

(** The body of the loop, lines 51-124: every pattern is tried on every
    line, one after the other. *)
Definition parse_line (st : pstate) (line : string) : result pstate :=
  st <- on_file_type line st ;;
  st <- on_object_class line st ;;
  st <- on_xmin line st ;;
  st <- on_xmax line st ;;
  st <- on_tiers line st ;;
  st <- on_size line st ;;
  st <- on_item line st ;;
  st <- on_name line st ;;
  st <- on_intervals line st ;;
  st <- on_ixmin line st ;;
  st <- on_ixmax line st ;;
  on_text line st.

Fixpoint parse_lines (st : pstate) (lines : list string) : result pstate :=
  match lines with
  | [] => Ok st
  | line :: rest => st' <- parse_line st line ;; parse_lines st' rest
  end.

Definition opt_string_dec (a b : option string) : {a = b} + {a <> b}.
Proof. decide equality. apply string_dec. Defined.

(** Lines 48-126 on the text already read.  Line 126 keeps the distinct
    tier labels; a Python [set] has no order to speak of, and nothing
    below depends on the order chosen here. *)
Definition parse_text (text : string) (o : TextGrid) : result TextGrid :=
  st <- parse_lines (mkP o true None) (splitlines text) ;;
  Ok (set_tier_list (nodup opt_string_dec st.(self).(content_tier)) st.(self)).

(** Lines 45-46 read the file: [fs] is the file system, a map from a path
    to the text of the file or to the error of [open]. *)
Definition _parse_textgrid (fs : string -> result string) (o : TextGrid)
  : result TextGrid :=
  text <- fs o.(file_path) ;;
  parse_text text o.

(** ** [_parse_csv], [to_csv]

    The table reader and writer belong to pandas.  [pd] stands for the
    four column selections of lines 138-142 on the frame built from the
    path and the column names; what pandas does there is no part of this
    development. *)

Definition names : Type := string * string * string * string.
Definition columns : Type :=
  list (option string) * list float * list float * list string.

Definition _parse_csv (pd : string -> names -> result columns)
    (nm : names) (o : TextGrid) : result TextGrid :=
  cols <- pd o.(file_path) nm ;;
  let '(t, s, e, a) := cols in
  Ok (set_content_annotation a
        (set_content_end e (set_content_start s (set_content_tier t o)))).

Definition in_list (x : string) (l : list string) : bool :=
  existsb (String.eqb x) l.

Definition unsupported (extension : string) : exn :=
  ValueError ("Unsupported file extension '" ++ extension ++ "'").
Definition invalid_for_csv (extension : string) : exn :=
  ValueError ("Invalid file extension for CSV '" ++ extension ++ "'").
Definition invalid_for_textgrid (extension : string) : exn :=
  ValueError ("Invalid file extension for textgrid '" ++ extension ++ "'").

(** Lines 19-36. *)
Definition __init__ (fs : string -> result string)
    (pd : string -> names -> result columns)
    (path : string) (nm : names) : result TextGrid :=
  let o := blank path in
  let (fname, extension) := splitext path in
  if in_list extension ["textgrid"; "TextGrid"] then _parse_textgrid fs o
  else if in_list extension ["csv"; "CSV"] then _parse_csv pd nm o
  else Raise (unsupported extension).

(** Lines 154-164; the result is the table handed to the writer. *)
Definition to_csv (o : TextGrid) (path : string) : result columns :=
  let (fname, extension) := splitext path in
  if in_list extension ["textgrid"; "TextGrid"] then Raise (invalid_for_csv extension)
  else if in_list extension ["csv"; "CSV"] then
    Ok (o.(content_tier), o.(content_start), o.(content_end), o.(content_annotation))
  else Raise (unsupported extension).

(** ** [to_textgrid] *)

(** How an f-string prints an attribute that may be [None].  [str] of an
    [int] has the digit limit of [int()].  The [int]s printed are
    numbers of rows and tiers, and [n_tiers], which the class sets from
    the [int()] of line 81: [fmt_int] is the text of such a number, one
    of at most 4300 digits. *)
Definition fmt_str (v : option string) : string :=
  match v with
  | Some s => s
  | None => "None"
  end.
Definition fmt_float (v : option float) : string :=
  match v with
  | Some x => str_float x
  | None => "None"
  end.
Definition fmt_int (v : option Z) : string :=
  match v with
  | Some n => str_int n
  | None => "None"
  end.

(** Lines 186-194. *)
Definition header_text (o : TextGrid) : string :=
  "File type = " ++ quote ++ fmt_str o.(file_type) ++ quote ++ nl
  ++ "Object class = " ++ quote ++ fmt_str o.(object_class) ++ quote ++ nl
  ++ nl
  ++ "xmin " ++ fmt_float o.(xmin) ++ nl
  ++ "xmax " ++ fmt_float o.(xmax) ++ nl
  ++ "tiers? <" ++ fmt_str o.(tiers) ++ ">" ++ nl
  ++ "size = " ++ fmt_int o.(n_tiers) ++ nl
  ++ "item[]" ++ nl.

(** Lines 206-211. *)
Definition tier_text (o : TextGrid) (tier_idx : Z) (tier : option string)
    (tier_size : Z) : string :=
  tab ++ "item [" ++ str_int tier_idx ++ "]" ++ nl
  ++ tab ++ tab ++ "class = " ++ quote ++ "IntervalTier" ++ quote ++ nl
  ++ tab ++ tab ++ "name = " ++ quote ++ fmt_str tier ++ quote ++ nl
  ++ tab ++ tab ++ "xmin = " ++ fmt_float o.(xmin) ++ nl
  ++ tab ++ tab ++ "xmax = " ++ fmt_float o.(xmax) ++ nl
  ++ tab ++ tab ++ "intervals: size = " ++ str_int tier_size ++ nl.

(** Lines 219-222. *)
Definition interval_text (interval_idx : Z) (start end_ : float)
    (annotation : string) : string :=
  tab ++ tab ++ tab ++ "intervals [" ++ str_int interval_idx ++ "]:" ++ nl
  ++ tab ++ tab ++ tab ++ tab ++ "xmin = " ++ str_float start ++ nl
  ++ tab ++ tab ++ tab ++ tab ++ "xmax = " ++ str_float end_ ++ nl
  ++ tab ++ tab ++ tab ++ tab ++ "text = " ++ quote ++ annotation ++ quote ++ nl.

Definition row : Type := option string * float * float * string.

(** [zip] of the four columns: it stops with the shortest. *)
Fixpoint zip4 (t : list (option string)) (s e : list float) (a : list string)
  : list row :=
  match t, s, e, a with
  | t0 :: t', s0 :: s', e0 :: e', a0 :: a' => (t0, s0, e0, a0) :: zip4 t' s' e' a'
  | _, _, _, _ => []
  end.

Definition tier_eqb (a b : option string) : bool :=
  if opt_string_dec a b then true else false.

(** Line 203: [len([el for el in self.content["tier"] if el == tier])]. *)
Definition tier_size_of (o : TextGrid) (tier : option string) : Z :=
  Z.of_nat (List.length (filter (fun el => tier_eqb el tier) o.(content_tier))).

(** Line 196 and the variables the loop updates. *)
Record sstate : Type := mkS {
  text : string;
  last_tier : option string;
  tier_idx : Z;
  interval_idx : Z
}.

(** Lines 200-224, one turn of the loop. *)
Definition emit_row (o : TextGrid) (st : sstate) (r : row) : sstate :=
  let '(tier, start, end_, annotation) := r in
  let st1 :=
    if negb (tier_eqb st.(last_tier) tier) || is_none st.(last_tier) then
      let tier_size := tier_size_of o tier in
      mkS (st.(text) ++ tier_text o st.(tier_idx) tier tier_size)
          tier (st.(tier_idx) + 1) 1
    else st in
  mkS (st1.(text) ++ interval_text st1.(interval_idx) start end_ annotation)
      st1.(last_tier) st1.(tier_idx) (st1.(interval_idx) + 1).

(** Lines 185-224: the text [to_textgrid] builds. *)
Definition textgrid_text (o : TextGrid) : string :=
  let rows := zip4 o.(content_tier) o.(content_start) o.(content_end)
                   o.(content_annotation) in
  (fold_left (emit_row o) rows (mkS (header_text o) None 1 1)).(text).

(** Lines 176-227; the result is the text written to [path]. *)
Definition to_textgrid (o : TextGrid) (path : string) : result string :=
  let (fname, extension) := splitext path in
  if in_list extension ["textgrid"; "TextGrid"] then Ok (textgrid_text o)
  else if in_list extension ["csv"; "CSV"] then Raise (invalid_for_textgrid extension)
  else Raise (unsupported extension).

(** ** Vocabulary of the statements *)

(** The line without its leading white space. *)
Fixpoint lstrip (s : string) : string :=
  match s with
  | String c s' => if is_space c then lstrip s' else s
  | EmptyString => EmptyString
  end.

(** [starts w s]: the text [s] begins with the word [w]. *)
Fixpoint starts (w s : string) : bool :=
  match w, s with
  | EmptyString, _ => true
  | String a w', String b s' => Ascii.eqb a b && starts w' s'
  | String _ _, EmptyString => false
  end.

Definition first_is (p : ascii -> bool) (s : string) : bool :=
  match s with
  | String c _ => p c
  | EmptyString => false
  end.

Definition nonspace (c : ascii) : bool := negb (is_space c).

(** A line that is white space, then the word [w]. *)
Definition indented (w line : string) : bool :=
  first_is is_space line && starts w (lstrip line).

Fixpoint no_group (r : regex) : bool :=
  match r with
  | [] => true
  | GOpen :: _ => false
  | _ :: r' => no_group r'
  end.

(** The four columns of [self.content]. *)
Definition cols (o : TextGrid) : columns :=
  (o.(content_tier), o.(content_start), o.(content_end), o.(content_annotation)).

(** The attributes of the object besides [self.content]. *)
Definition attrs (o : TextGrid) :=
  (o.(file_path), o.(file_type), o.(object_class), o.(xmin), o.(xmax),
   o.(tiers), o.(n_tiers), o.(tier_list)).

(** What one step leaves alone.  [same_count]: the declared tier count.
    [same_rows]: under a raised tier-header flag, the flag and the four
    columns. *)
Definition same_count (st st' : pstate) : Prop :=
  st'.(self).(n_tiers) = st.(self).(n_tiers).

Definition same_rows (st st' : pstate) : Prop :=
  st.(tier_header) = true ->
  st'.(tier_header) = true /\ cols st'.(self) = cols st.(self).

(** The rows the serializer walks, and the tier label of a row. *)
Definition rows_of (o : TextGrid) : list row :=
  zip4 o.(content_tier) o.(content_start) o.(content_end) o.(content_annotation).

Definition label (r : row) : option string :=
  let '(tier, _, _, _) := r in tier.

(** The label of the last row, [None] when there is no row. *)
Definition last_label (rows : list row) : option string :=
  fold_left (fun _ r => label r) rows None.

(** The test of line 200 between the label before and the label of the row. *)
Definition changes (last tier : option string) : bool :=
  negb (tier_eqb last tier) || is_none last.

Definition count_label (rows : list row) (tier : option string) : nat :=
  List.length (filter (fun r => tier_eqb (label r) tier) rows).

Definition join (pieces : list string) : string :=
  fold_right append EmptyString pieces.

(** The start state of the loop of [to_textgrid], line 196. *)
Definition start_state (o : TextGrid) : sstate := mkS (header_text o) None 1 1.

(** The text one turn of the loop adds. *)
Definition piece (o : TextGrid) (st : sstate) (r : row) : string :=
  let '(tier, start, end_, annotation) := r in
  if changes st.(last_tier) tier
  then tier_text o st.(tier_idx) tier (tier_size_of o tier)
       ++ interval_text 1 start end_ annotation
  else interval_text st.(interval_idx) start end_ annotation.

Fixpoint pieces (o : TextGrid) (st : sstate) (rows : list row) : list string :=
  match rows with
  | [] => []
  | r :: rows' => piece o st r :: pieces o (emit_row o st r) rows'
  end.

Definition min4 (a b c d : nat) : nat := Nat.min a (Nat.min b (Nat.min c d)).

(** The floats of the example rows: 0.0, 0.5 and 1.0. *)
Definition f_0_0 : float := S754_zero false.
Definition f_0_5 : float := S754_finite false 4503599627370496 (-53).
Definition f_1_0 : float := S754_finite false 4503599627370496 (-52).

Definition example_columns : columns :=
  ([Some "phones"; Some "phones"; Some "words"],
   [f_0_0; f_0_5; f_0_0], [f_0_5; f_1_0; f_1_0], ["sil"; "k"; "cat"]).

(** A TextGrid file as Praat writes it: two interval tiers, [phones]
    with two intervals and [words] with one. *)
Definition q (s : string) : string := quote ++ s ++ quote.

Definition unlines (lines : list string) : string :=
  fold_right (fun l acc => l ++ nl ++ acc) EmptyString lines.

Definition sample_textgrid : string :=
  unlines
    [ "File type = " ++ q "ooTextFile";
      "Object class = " ++ q "TextGrid";
      EmptyString;
      "xmin = 0.0";
      "xmax = 1.0";
      "tiers? <exists>";
      "size = 2";
      "item []:";
      "    item [1]:";
      "        class = " ++ q "IntervalTier";
      "        name = " ++ q "phones";
      "        xmin = 0.0";
      "        xmax = 1.0";
      "        intervals: size = 2";
      "        intervals [1]:";
      "            xmin = 0.0";
      "            xmax = 0.5";
      "            text = " ++ q "sil";
      "        intervals [2]:";
      "            xmin = 0.5";
      "            xmax = 1.0";
      "            text = " ++ q "k";
      "    item [2]:";
      "        class = " ++ q "IntervalTier";
      "        name = " ++ q "words";
      "        xmin = 0.0";
      "        xmax = 1.0";
      "        intervals: size = 1";
      "        intervals [1]:";
      "            xmin = 0.0";
      "            xmax = 1.0";
      "            text = " ++ q "cat" ].

(** Inputs of the worked examples. *)

(** A header that declares two tiers, then a third [item] line. *)
Definition three_items_lines : list string :=
  [ "File type = " ++ q "ooTextFile";
    "Object class = " ++ q "TextGrid";
    EmptyString;
    "xmin = 0.0";
    "xmax = 1.0";
    "tiers? <exists>";
    "size = 2";
    "item []:" ].

Definition three_items : string :=
  unlines (three_items_lines ++ ["    item [3]:"]).

(** An [item] line with no [size] line before it. *)
Definition no_size_lines : list string :=
  [ "File type = " ++ q "ooTextFile";
    "Object class = " ++ q "TextGrid";
    "item []:" ].

Definition no_size : string :=
  unlines (no_size_lines ++ ["    item [1]:"; "size = 1"]).

(** The state of a lines prefix read from a fresh object. *)
Definition state_after (lines : list string) : pstate :=
  match parse_lines (mkP (blank "a.TextGrid") true None) lines with
  | Ok st => st
  | Raise _ => mkP (blank "a.TextGrid") true None
  end.

(** Inside the tier [phones]: the flag up (after its [item] line) and
    down (after its [intervals: size] line). *)
Definition in_header : pstate :=
  mkP (set_n_tiers (Some 2) (blank "a.TextGrid")) true (Some "phones").
Definition in_intervals : pstate :=
  mkP (set_n_tiers (Some 2) (blank "a.TextGrid")) false (Some "phones").

(** Rows whose label [a] comes back after [b]. *)
Definition scattered : TextGrid :=
  mkTextGrid "a.TextGrid" None None None None None None []
    [Some "a"; Some "b"; Some "a"] [f_0_0; f_0_0; f_0_5]
    [f_0_5; f_1_0; f_1_0] ["x"; "y"; "z"].

Definition example_object : TextGrid :=
  mkTextGrid "a.TextGrid" (Some "ooTextFile") (Some "TextGrid")
    (Some f_0_0) (Some f_1_0) (Some "exists") (Some 2)
    [Some "phones"; Some "words"]
    [Some "phones"; Some "phones"; Some "words"]
    [f_0_0; f_0_5; f_0_0] [f_0_5; f_1_0; f_1_0] ["sil"; "k"; "cat"].

(** [tabs n s]: the text [s] after [n] tab characters. *)
Fixpoint tabs (n : nat) (s : string) : string :=
  match n with
  | O => s
  | S n' => String TAB (tabs n' s)
  end.

(** The text [to_textgrid] builds for [example_object], line by line. *)
Definition example_text : string :=
  unlines
    [ "File type = " ++ q "ooTextFile";
      "Object class = " ++ q "TextGrid";
      EmptyString;
      "xmin 0.0";
      "xmax 1.0";
      "tiers? <exists>";
      "size = 2";
      "item[]";
      tabs 1 "item [1]";
      tabs 2 ("class = " ++ q "IntervalTier");
      tabs 2 ("name = " ++ q "phones");
      tabs 2 "xmin = 0.0";
      tabs 2 "xmax = 1.0";
      tabs 2 "intervals: size = 2";
      tabs 3 "intervals [1]:";
      tabs 4 "xmin = 0.0";
      tabs 4 "xmax = 0.5";
      tabs 4 ("text = " ++ q "sil");
      tabs 3 "intervals [2]:";
      tabs 4 "xmin = 0.5";
      tabs 4 "xmax = 1.0";
      tabs 4 ("text = " ++ q "k");
      tabs 1 "item [2]";
      tabs 2 ("class = " ++ q "IntervalTier");
      tabs 2 ("name = " ++ q "words");
      tabs 2 "xmin = 0.0";
      tabs 2 "xmax = 1.0";
      tabs 2 "intervals: size = 1";
      tabs 3 "intervals [1]:";
      tabs 4 "xmin = 0.0";
      tabs 4 "xmax = 1.0";
      tabs 4 ("text = " ++ q "cat") ].

(** A text with no line boundary in it, as every line [splitlines]
    returns and so every text the parser stores. *)
Definition no_break (c : ascii) : bool := negb (is_linebreak c).
Definition clean (s : string) : bool := all_chars no_break s.
Definition clean_opt (v : option string) : bool :=
  match v with
  | Some s => clean s
  | None => true
  end.
Definition clean_object (o : TextGrid) : bool :=
  clean_opt o.(file_type) && clean_opt o.(object_class) && clean_opt o.(tiers)
  && forallb clean_opt o.(content_tier) && forallb clean o.(content_annotation).
Definition clean_state (st : pstate) : bool :=
  clean_object st.(self) && clean_opt st.(tier_name).

(** The text of [to_textgrid] as the list of its lines. *)
Definition header_lines (o : TextGrid) : list string :=
  [ "File type = " ++ quote ++ fmt_str o.(file_type) ++ quote;
    "Object class = " ++ quote ++ fmt_str o.(object_class) ++ quote;
    EmptyString;
    "xmin " ++ fmt_float o.(xmin);
    "xmax " ++ fmt_float o.(xmax);
    "tiers? <" ++ fmt_str o.(tiers) ++ ">";
    "size = " ++ fmt_int o.(n_tiers);
    "item[]" ].

Definition tier_lines (o : TextGrid) (tier_idx : Z) (tier : option string)
    (tier_size : Z) : list string :=
  [ tab ++ "item [" ++ str_int tier_idx ++ "]";
    tab ++ tab ++ "class = " ++ quote ++ "IntervalTier" ++ quote;
    tab ++ tab ++ "name = " ++ quote ++ fmt_str tier ++ quote;
    tab ++ tab ++ "xmin = " ++ fmt_float o.(xmin);
    tab ++ tab ++ "xmax = " ++ fmt_float o.(xmax);
    tab ++ tab ++ "intervals: size = " ++ str_int tier_size ].

Definition interval_lines (interval_idx : Z) (start end_ : float)
    (annotation : string) : list string :=
  [ tab ++ tab ++ tab ++ "intervals [" ++ str_int interval_idx ++ "]:";
    tab ++ tab ++ tab ++ tab ++ "xmin = " ++ str_float start;
    tab ++ tab ++ tab ++ tab ++ "xmax = " ++ str_float end_;
    tab ++ tab ++ tab ++ tab ++ "text = " ++ quote ++ annotation ++ quote ].

Definition piece_lines (o : TextGrid) (st : sstate) (r : row) : list string :=
  let '(tier, start, end_, annotation) := r in
  if changes st.(last_tier) tier
  then (tier_lines o st.(tier_idx) tier (tier_size_of o tier)
        ++ interval_lines 1 start end_ annotation)%list
  else interval_lines st.(interval_idx) start end_ annotation.

Fixpoint body_lines (o : TextGrid) (st : sstate) (rows : list row) : list string :=
  match rows with
  | [] => []
  | r :: rows' => (piece_lines o st r ++ body_lines o (emit_row o st r) rows')%list
  end.

Definition text_lines (o : TextGrid) : list string :=
  (header_lines o ++ body_lines o (start_state o) (rows_of o))%list.

Definition row_clean (r : row) : bool :=
  let '(tier, _, _, annotation) := r in clean_opt tier && clean annotation.

(** What one step leaves alone: the two bounds of the header. *)
Definition same_bounds (st st' : pstate) : Prop :=
  st'.(self).(xmin) = st.(self).(xmin) /\ st'.(self).(xmax) = st.(self).(xmax).

(** A line neither header pattern of a bound matches. *)
Definition no_bound (line : string) : Prop :=
  re_match re_xmin line = None /\ re_match re_xmax line = None.


(** What a line of the header leaves alone: the flag, the current tier
    name and the four columns. *)
Definition same_tier (st st' : pstate) : Prop :=
  st'.(tier_header) = st.(tier_header) /\ st'.(tier_name) = st.(tier_name)
  /\ cols st'.(self) = cols st.(self).

(** The ways a line can stop the loop: [int] on a capture of more than
    4300 digits (lines 81, 88 and 104), the bound check of lines 91-92
    on an [item] line, the list of line 105 on an [intervals: size]
    line, and [float] on the capture of an interval [xmin] or [xmax]
    line. *)
Definition digits_error (g : string) (e : exn) : Prop :=
  int_max_str_digits < digits_of g /\ e = int_too_long g.

Definition size_error (line : string) (e : exn) : Prop :=
  exists g, re_match re_size line = Some g /\ digits_error g e.

Definition item_error (line : string) (e : exn) : Prop :=
  exists g, re_match re_item line = Some g
            /\ (digits_error g e
                \/ e = int_ge_None
                \/ exists n N, py_int g = Ok N /\ n <= N - 1
                               /\ e = too_many_tiers n (N - 1)).

Definition intervals_error (line : string) (e : exn) : Prop :=
  exists g, re_match re_intervals line = Some g
            /\ (digits_error g e
                \/ exists N, py_int g = Ok N
                             /\ (sys_maxsize < N /\ e = index_overflow
                                 \/ N <= sys_maxsize /\ capacity < N
                                    /\ e = MemoryError)).

Definition float_error (line : string) (e : exn) : Prop :=
  exists g, (re_match re_ixmin line = Some g \/ re_match re_ixmax line = Some g)
            /\ py_float g = Raise e.


(** A character a number of an interval line can start with. *)
Definition numeric_start (c : ascii) : bool := is_digit c || Ascii.eqb "." c.

(** [lacks q s]: the character [q] does not occur in [s]. *)
Definition lacks (q : ascii) (s : string) : bool :=
  all_chars (fun c => negb (Ascii.eqb q c)) s.

(** A text the dot of a pattern runs over: no newline in it. *)
Definition one_line (s : string) : bool := all_chars is_dot s.

Definition float_refused (g : string) : exn :=
  ValueError ("could not convert string to float: '" ++ g ++ "'").


(** ** Vocabulary of the round trip *)

(** A float whose text is digits, a dot, digits, and reads back as
    itself: what [repr] gives for the times of an annotation. *)
Definition plain (x : float) : Prop :=
  exists ds fs,
    str_float x = ds ++ "." ++ fs
    /\ all_chars is_digit ds = true /\ all_chars is_digit fs = true
    /\ py_float (str_float x) = Ok x.

(** A non-empty text of word characters, as [\w+] captures. *)
Definition wordy (s : string) : bool := negb (is_empty s) && all_chars is_word s.

(** A tier column made of runs: [(t, k)] stands for [k + 1] rows
    labelled [t]. *)
Definition run_labels (r : string * nat) : list (option string) :=
  repeat (Some (fst r)) (S (snd r)).

Definition flat (rs : list (string * nat)) : list (option string) :=
  List.concat (map run_labels rs).

(** The tier column the parser builds from the tier blocks the loop of
    [to_textgrid] writes for rows labelled [labels], [last] being the
    label before them: at every change, as many copies of the written
    name as the written size. *)
Fixpoint regroup (o : TextGrid) (last : option string)
    (labels : list (option string)) : list (option string) :=
  match labels with
  | [] => []
  | t :: ls =>
      ((if changes last t
        then repeat (Some (fmt_str t)) (Z.to_nat (tier_size_of o t))
        else []) ++ regroup o t ls)%list
  end.

(** The number of tier blocks written for these rows. *)
Fixpoint blocks (last : option string) (labels : list (option string)) : nat :=
  match labels with
  | [] => O
  | t :: ls => ((if changes last t then 1 else 0) + blocks t ls)%nat
  end.

(** What reading the lines written for one row does to the parser. *)
Definition reread_row (o : TextGrid) (st : sstate) (ps : pstate) (r : row)
  : pstate :=
  let '(tier, start, end_, annotation) := r in
  let c := changes st.(last_tier) tier in
  let o0 := ps.(self) in
  let o1 :=
    if c
    then set_content_tier
           (o0.(content_tier)
            ++ repeat (Some (fmt_str tier)) (Z.to_nat (tier_size_of o tier))) o0
    else o0 in
  let o2 := set_content_start (o1.(content_start) ++ [start]) o1 in
  let o3 := set_content_end (o2.(content_end) ++ [end_]) o2 in
  let o4 := set_content_annotation (o3.(content_annotation) ++ [annotation]) o3 in
  mkP o4 false (if c then Some (fmt_str tier) else ps.(tier_name)).

Fixpoint reread_rows (o : TextGrid) (st : sstate) (ps : pstate)
    (rows : list row) : pstate :=
  match rows with
  | [] => ps
  | r :: rows' => reread_rows o (emit_row o st r) (reread_row o st ps r) rows'
  end.

Definition start_of (r : row) : float := let '(_, s, _, _) := r in s.
Definition end_of (r : row) : float := let '(_, _, e, _) := r in e.
Definition annotation_of (r : row) : string := let '(_, _, _, a) := r in a.

(** A row the parser can read back: a label and an annotation without a
    line boundary, and plain times. *)
Definition row_ok (r : row) : Prop :=
  row_clean r = true /\ plain (start_of r) /\ plain (end_of r).

(** ** Vocabulary of the interval blocks

    The lines of an interval block in a written text: its first line
    begins with three tabs and [intervals []; the three lines of its
    values begin with four tabs, and no other written line does. *)
Definition block_head (line : string) : bool :=
  starts (tab ++ tab ++ tab ++ "intervals [") line.

Definition block_value (line : string) : bool :=
  starts (tab ++ tab ++ tab ++ tab) line.

(** Lines 220-222 for one row. *)
Definition value_lines (r : row) : list string :=
  let '(_, start, end_, annotation) := r in
  [ tab ++ tab ++ tab ++ tab ++ "xmin = " ++ str_float start;
    tab ++ tab ++ tab ++ tab ++ "xmax = " ++ str_float end_;
    tab ++ tab ++ tab ++ tab ++ "text = " ++ quote ++ annotation ++ quote ].

Definition shortest_column (o : TextGrid) : nat :=
  min4 (List.length o.(content_tier)) (List.length o.(content_start))
       (List.length o.(content_end)) (List.length o.(content_annotation)).

(** The object with its start, end and annotation columns cut to the
    length of the shortest column. *)
Definition cut (o : TextGrid) : TextGrid :=
  set_content_annotation (firstn (shortest_column o) o.(content_annotation))
    (set_content_end (firstn (shortest_column o) o.(content_end))
       (set_content_start (firstn (shortest_column o) o.(content_start)) o)).

(** Columns of lengths 3, 1, 2 and 3. *)
Definition ragged : TextGrid :=
  mkTextGrid "a.TextGrid" (Some "ooTextFile") (Some "TextGrid")
    (Some f_0_0) (Some f_1_0) (Some "exists") (Some 2) []
    [Some "a"; Some "a"; Some "b"] [f_0_0] [f_0_5; f_1_0] ["x"; "y"; "z"].

Definition ragged_text : string :=
  unlines
    [ "File type = " ++ q "ooTextFile";
      "Object class = " ++ q "TextGrid";
      EmptyString;
      "xmin 0.0";
      "xmax 1.0";
      "tiers? <exists>";
      "size = 2";
      "item[]";
      tabs 1 "item [1]";
      tabs 2 ("class = " ++ q "IntervalTier");
      tabs 2 ("name = " ++ q "a");
      tabs 2 "xmin = 0.0";
      tabs 2 "xmax = 1.0";
      tabs 2 "intervals: size = 2";
      tabs 3 "intervals [1]:";
      tabs 4 "xmin = 0.0";
      tabs 4 "xmax = 0.5";
      tabs 4 ("text = " ++ q "x") ].

(** A number of 4301 digits. *)
Definition long_number : string := repeat_char "7" 4301.

End Program.

(** A machine with room for a list of 2^30 entries, for the examples. *)
Definition laptop : Machine := {| capacity := 1073741824 |}.

(** * Properties *)

Section Properties.
Context {M : Machine}.

(** ** The extension test *)

Lemma rfind_lower (c : ascii) (s : string) : -1 <= rfind c s.
Proof.
  induction s as [|d s IH]; simpl; [lia|].
  destruct (0 <=? rfind c s) eqn:E.
  - apply Z.leb_le in E. lia.
  - destruct (Ascii.eqb d c); lia.
Qed.

Lemma rfind_drop (c : ascii) (s : string) :
  0 <= rfind c s -> exists r, drop (Z.to_nat (rfind c s)) s = String c r.
Proof.
  induction s as [|d s IH]; simpl; [lia|].
  destruct (0 <=? rfind c s) eqn:E.
  - apply Z.leb_le in E. intros _.
    destruct (IH E) as [r Hr]. exists r.
    replace (Z.to_nat (rfind c s + 1)) with (S (Z.to_nat (rfind c s))) by lia.
    exact Hr.
  - destruct (Ascii.eqb_spec d c) as [->|_]; [|lia].
    intros _. exists s. reflexivity.
Qed.

(** The extension [splitext] returns is empty or begins with the dot. *)
Lemma splitext_ext (p : string) :
  snd (splitext p) = EmptyString \/ exists r, snd (splitext p) = String "." r.
Proof.
  unfold splitext.
  destruct (_ && _) eqn:E; simpl; [|now left].
  right. apply andb_true_iff in E. destruct E as [E _].
  apply Z.ltb_lt in E. pose proof (rfind_lower "/" p).
  apply rfind_drop. lia.
Qed.

Lemma ext_not_listed (p : string) :
  in_list (snd (splitext p)) ["textgrid"; "TextGrid"] = false
  /\ in_list (snd (splitext p)) ["csv"; "CSV"] = false.
Proof.
  destruct (splitext_ext p) as [-> | [r ->]]; split; reflexivity.
Qed.

Lemma init_raises fs pd path nm :
  __init__ fs pd path nm = Raise (unsupported (snd (splitext path))).
Proof.
  unfold __init__. destruct (ext_not_listed path) as [H1 H2].
  destruct (splitext path) as [fname extension]; simpl in *.
  now rewrite H1, H2.
Qed.

Lemma to_textgrid_raises o path :
  to_textgrid o path = Raise (unsupported (snd (splitext path))).
Proof.
  unfold to_textgrid. destruct (ext_not_listed path) as [H1 H2].
  destruct (splitext path) as [fname extension]; simpl in *.
  now rewrite H1, H2.
Qed.

Lemma to_csv_raises o path :
  to_csv o path = Raise (unsupported (snd (splitext path))).
Proof.
  unfold to_csv. destruct (ext_not_listed path) as [H1 H2].
  destruct (splitext path) as [fname extension]; simpl in *.
  now rewrite H1, H2.
Qed.

(** C2.  Loading never reaches a parser: [splitext] keeps the dot in the
    extension, the lists of line 31 and line 33 have none, so
    [sample.textgrid] and [sample.csv] are refused like [sample.xml],
    with the error of an unsupported extension. *)
Theorem C2_load_refuses_every_path :
  forall fs pd nm,
    __init__ fs pd "sample.textgrid" nm = Raise (unsupported ".textgrid")
    /\ __init__ fs pd "sample.csv" nm = Raise (unsupported ".csv")
    /\ __init__ fs pd "sample.xml" nm = Raise (unsupported ".xml")
    /\ forall path, exists ext, __init__ fs pd path nm = Raise (unsupported ext).
Proof.
  intros fs pd nm. repeat split; try apply init_raises.
  intros path. eexists. apply init_raises.
Qed.

(** C4.  Saving as TextGrid to a [.csv] path and saving as a table to a
    [.textgrid] path both raise the error of an unsupported extension,
    not the error of the mismatched operation (lines 157 and 181), and
    no path makes either method raise the latter. *)
Theorem C4_mismatch_never_reported :
  forall o,
    to_textgrid o "out.csv" = Raise (unsupported ".csv")
    /\ to_textgrid o "out.csv" <> Raise (invalid_for_textgrid ".csv")
    /\ to_csv o "out.textgrid" = Raise (unsupported ".textgrid")
    /\ to_csv o "out.textgrid" <> Raise (invalid_for_csv ".textgrid")
    /\ forall path ext,
         to_textgrid o path <> Raise (invalid_for_textgrid ext)
         /\ to_csv o path <> Raise (invalid_for_csv ext).
Proof.
  intros o.
  split; [apply to_textgrid_raises|].
  split; [rewrite to_textgrid_raises; discriminate|].
  split; [apply to_csv_raises|].
  split; [rewrite to_csv_raises; discriminate|].
  intros path ext. rewrite to_textgrid_raises, to_csv_raises.
  split; discriminate.
Qed.

(** C7.  No document can be exported as a table: [to_csv] raises for
    every path, [out.csv] included, so there is no table to import
    again; and loading a [.csv] path raises before [_parse_csv]. *)
Theorem C7_table_export_always_raises :
  forall o path,
    to_csv o path = Raise (unsupported (snd (splitext path)))
    /\ to_csv o "out.csv" = Raise (unsupported ".csv")
    /\ forall fs pd nm,
         __init__ fs pd "out.csv" nm = Raise (unsupported ".csv").
Proof.
  intros o path. split; [apply to_csv_raises|].
  split; [apply to_csv_raises|]. intros. apply init_raises.
Qed.

(** ** Which pattern a line can match *)

Lemma keep_false c r : keep false c r = r.
Proof. now destruct r. Qed.

Lemma run_lit (w : string) (r : regex) (s : string) :
  run (lit w ++ r)%list false s =
  if starts w s then run r false (drop (String.length w) s) else None.
Proof.
  revert s. induction w as [|a w IH]; intros s; simpl.
  - now destruct s.
  - destruct s as [|b s]; [reflexivity|].
    destruct (Ascii.eqb a b); simpl; [|reflexivity].
    now rewrite keep_false, IH.
Qed.

Lemma star_space_lstrip (k : string -> option string) (s : string) :
  (forall t, first_is is_space t = true -> k t = None) ->
  star Space false k s = k (lstrip s).
Proof.
  intros Hk. induction s as [|c s IH]; simpl; [reflexivity|].
  destruct (is_space c) eqn:E; [|reflexivity].
  rewrite keep_false, IH.
  destruct (k (lstrip s)); [reflexivity|].
  apply Hk. exact E.
Qed.

Lemma run_lit_space (w : string) (r : regex) (t : string) :
  first_is nonspace w = true -> first_is is_space t = true ->
  run (lit w ++ r)%list false t = None.
Proof.
  destruct w as [|a w]; [discriminate|]. destruct t as [|b t]; [discriminate|].
  unfold nonspace. simpl. intros Ha Hb.
  destruct (Ascii.eqb_spec a b) as [->|_]; [|reflexivity].
  rewrite Hb in Ha. discriminate.
Qed.

(** An indented pattern: leading white space, then a word. *)
Lemma run_indented (w : string) (r : regex) (line : string) :
  first_is nonspace w = true ->
  run (Plus Space :: lit w ++ r)%list false line =
  if indented w line
  then run r false (drop (String.length w) (lstrip line))
  else None.
Proof.
  intros Hw. unfold indented. destruct line as [|c s]; [reflexivity|].
  simpl. destruct (is_space c) eqn:E; [|reflexivity].
  rewrite keep_false, star_space_lstrip by (intros; now apply run_lit_space).
  simpl. apply run_lit.
Qed.

Lemma starts_both (w1 w2 t : string) :
  starts w1 t = true -> starts w2 t = true ->
  starts w1 w2 = true \/ starts w2 w1 = true.
Proof.
  revert w2 t. induction w1 as [|a w1 IH]; intros w2 t; [now left|].
  destruct w2 as [|b w2]; [now right|].
  destruct t as [|c t]; [discriminate|]. simpl.
  intros H1 H2. apply andb_true_iff in H1, H2.
  destruct H1 as [H1 H1'], H2 as [H2 H2'].
  apply Ascii.eqb_eq in H1, H2. subst.
  rewrite Ascii.eqb_refl. simpl. eauto.
Qed.

Lemma indented_other (w1 w2 line : string) :
  starts w1 w2 = false -> starts w2 w1 = false ->
  indented w1 line = true -> indented w2 line = false.
Proof.
  unfold indented. intros H12 H21 H1.
  apply andb_true_iff in H1. destruct H1 as [Hs H1]. rewrite Hs. simpl.
  destruct (starts w2 (lstrip line)) eqn:E; [|reflexivity].
  destruct (starts_both _ _ _ H1 E); congruence.
Qed.

Lemma indented_not_top (w1 w2 line : string) :
  first_is nonspace w2 = true ->
  indented w1 line = true -> starts w2 line = false.
Proof.
  unfold indented, nonspace. intros Hw H.
  apply andb_true_iff in H. destruct H as [Hs _].
  destruct line as [|c s]; [discriminate|]. destruct w2 as [|a w2]; [discriminate|].
  simpl in *. destruct (Ascii.eqb_spec a c) as [->|_]; [|reflexivity].
  rewrite Hs in Hw. discriminate.
Qed.

Lemma match_indented (w : string) (r : regex) (line g : string) :
  first_is nonspace w = true ->
  re_match (Plus Space :: lit w ++ r)%list line = Some g ->
  indented w line = true.
Proof.
  unfold re_match. intros Hw. rewrite run_indented by exact Hw.
  destruct (indented w line); [reflexivity|discriminate].
Qed.

Lemma nomatch_indented (w : string) (r : regex) (line : string) :
  first_is nonspace w = true -> indented w line = false ->
  re_match (Plus Space :: lit w ++ r)%list line = None.
Proof.
  unfold re_match. intros Hw H. rewrite run_indented by exact Hw.
  now rewrite H.
Qed.

Lemma nomatch_top (w : string) (r : regex) (line : string) :
  starts w line = false -> re_match (lit w ++ r)%list line = None.
Proof.
  unfold re_match. intros H. now rewrite run_lit, H.
Qed.

(** The six patterns of the header begin with a letter: an indented line
    matches none of them. *)
Lemma header_patterns_skip (w line : string) :
  indented w line = true ->
  re_match re_file_type line = None /\ re_match re_object_class line = None
  /\ re_match re_xmin line = None /\ re_match re_xmax line = None
  /\ re_match re_tiers line = None /\ re_match re_size line = None.
Proof.
  intros H.
  repeat split.
  - apply (nomatch_top "File"). now apply (indented_not_top w).
  - apply (nomatch_top "Object"). now apply (indented_not_top w).
  - apply (nomatch_top "xmin"). now apply (indented_not_top w).
  - apply (nomatch_top "xmax"). now apply (indented_not_top w).
  - apply (nomatch_top "tiers?"). now apply (indented_not_top w).
  - apply (nomatch_top "size"). now apply (indented_not_top w).
Qed.

Lemma item_word line g :
  re_match re_item line = Some g -> indented "item" line = true.
Proof. apply (match_indented "item"). reflexivity. Qed.

Lemma intervals_word line g :
  re_match re_intervals line = Some g -> indented "intervals:" line = true.
Proof. apply (match_indented "intervals:"). reflexivity. Qed.

Lemma ixmin_word line g :
  re_match re_ixmin line = Some g -> indented "xmin" line = true.
Proof. apply (match_indented "xmin"). reflexivity. Qed.

Lemma ixmax_word line g :
  re_match re_ixmax line = Some g -> indented "xmax" line = true.
Proof. apply (match_indented "xmax"). reflexivity. Qed.

Lemma text_word line g :
  re_match re_text line = Some g -> indented "text" line = true.
Proof. apply (match_indented "text"). reflexivity. Qed.

Lemma item_skip line : indented "item" line = false -> re_match re_item line = None.
Proof. apply (nomatch_indented "item"). reflexivity. Qed.

Lemma name_skip line : indented "name" line = false -> re_match re_name line = None.
Proof. apply (nomatch_indented "name"). reflexivity. Qed.

Lemma intervals_skip line :
  indented "intervals:" line = false -> re_match re_intervals line = None.
Proof. apply (nomatch_indented "intervals:"). reflexivity. Qed.

Lemma ixmin_skip line : indented "xmin" line = false -> re_match re_ixmin line = None.
Proof. apply (nomatch_indented "xmin"). reflexivity. Qed.

Lemma ixmax_skip line : indented "xmax" line = false -> re_match re_ixmax line = None.
Proof. apply (nomatch_indented "xmax"). reflexivity. Qed.

Lemma text_skip line : indented "text" line = false -> re_match re_text line = None.
Proof. apply (nomatch_indented "text"). reflexivity. Qed.

(** The steps of the loop body that do nothing on a line. *)

Lemma on_file_type_skip line st :
  re_match re_file_type line = None -> on_file_type line st = Ok st.
Proof. unfold on_file_type. now intros ->. Qed.

Lemma on_object_class_skip line st :
  re_match re_object_class line = None -> on_object_class line st = Ok st.
Proof. unfold on_object_class. now intros ->. Qed.

Lemma on_xmin_skip line st :
  re_match re_xmin line = None -> on_xmin line st = Ok st.
Proof. unfold on_xmin. now intros ->. Qed.

Lemma on_xmax_skip line st :
  re_match re_xmax line = None -> on_xmax line st = Ok st.
Proof. unfold on_xmax. now intros ->. Qed.

Lemma on_tiers_skip line st :
  re_match re_tiers line = None -> on_tiers line st = Ok st.
Proof. unfold on_tiers. now intros ->. Qed.

Lemma on_size_skip line st :
  re_match re_size line = None -> on_size line st = Ok st.
Proof. unfold on_size. now intros ->. Qed.

Lemma on_item_skip line st :
  re_match re_item line = None -> on_item line st = Ok st.
Proof. unfold on_item. now intros ->. Qed.

Lemma on_name_skip line st :
  re_match re_name line = None -> on_name line st = Ok st.
Proof. unfold on_name. now intros ->. Qed.

Lemma on_intervals_skip line st :
  re_match re_intervals line = None -> on_intervals line st = Ok st.
Proof. unfold on_intervals. now intros ->. Qed.

Lemma on_ixmin_skip line st :
  re_match re_ixmin line = None -> on_ixmin line st = Ok st.
Proof. unfold on_ixmin. now intros ->. Qed.

Lemma on_ixmax_skip line st :
  re_match re_ixmax line = None -> on_ixmax line st = Ok st.
Proof. unfold on_ixmax. now intros ->. Qed.

Lemma on_text_skip line st :
  re_match re_text line = None -> on_text line st = Ok st.
Proof. unfold on_text. now intros ->. Qed.

(** An indented line goes through the header steps untouched. *)
Lemma parse_line_indented (w line : string) (st : pstate) :
  indented w line = true ->
  parse_line st line =
  (st <- on_item line st ;; st <- on_name line st ;;
   st <- on_intervals line st ;; st <- on_ixmin line st ;;
   st <- on_ixmax line st ;; on_text line st).
Proof.
  intros H. destruct (header_patterns_skip _ _ H) as (H1 & H2 & H3 & H4 & H5 & H6).
  unfold parse_line.
  rewrite on_file_type_skip by assumption. simpl.
  rewrite on_object_class_skip by assumption. simpl.
  rewrite on_xmin_skip by assumption. simpl.
  rewrite on_xmax_skip by assumption. simpl.
  rewrite on_tiers_skip by assumption. simpl.
  rewrite on_size_skip by assumption. reflexivity.
Qed.

Ltac other_word H :=
  eapply indented_other; [ | | exact H]; reflexivity.

(** A line of each indented kind runs exactly its own step. *)

Lemma parse_line_item line g st :
  re_match re_item line = Some g -> parse_line st line = on_item line st.
Proof.
  intros H. apply item_word in H.
  rewrite (parse_line_indented _ _ _ H).
  destruct (on_item line st) as [st1|e]; simpl; [|reflexivity].
  rewrite on_name_skip by (apply name_skip; other_word H). simpl.
  rewrite on_intervals_skip by (apply intervals_skip; other_word H). simpl.
  rewrite on_ixmin_skip by (apply ixmin_skip; other_word H). simpl.
  rewrite on_ixmax_skip by (apply ixmax_skip; other_word H). simpl.
  apply on_text_skip, text_skip. other_word H.
Qed.

Lemma parse_line_intervals line g st :
  re_match re_intervals line = Some g -> parse_line st line = on_intervals line st.
Proof.
  intros H. apply intervals_word in H.
  rewrite (parse_line_indented _ _ _ H).
  rewrite on_item_skip by (apply item_skip; other_word H). simpl.
  rewrite on_name_skip by (apply name_skip; other_word H). simpl.
  destruct (on_intervals line st) as [st1|e]; simpl; [|reflexivity].
  rewrite on_ixmin_skip by (apply ixmin_skip; other_word H). simpl.
  rewrite on_ixmax_skip by (apply ixmax_skip; other_word H). simpl.
  apply on_text_skip, text_skip. other_word H.
Qed.

Lemma parse_line_ixmin line g st :
  re_match re_ixmin line = Some g -> parse_line st line = on_ixmin line st.
Proof.
  intros H. apply ixmin_word in H.
  rewrite (parse_line_indented _ _ _ H).
  rewrite on_item_skip by (apply item_skip; other_word H). simpl.
  rewrite on_name_skip by (apply name_skip; other_word H). simpl.
  rewrite on_intervals_skip by (apply intervals_skip; other_word H). simpl.
  destruct (on_ixmin line st) as [st1|e]; simpl; [|reflexivity].
  rewrite on_ixmax_skip by (apply ixmax_skip; other_word H). simpl.
  apply on_text_skip, text_skip. other_word H.
Qed.

Lemma parse_line_ixmax line g st :
  re_match re_ixmax line = Some g -> parse_line st line = on_ixmax line st.
Proof.
  intros H. apply ixmax_word in H.
  rewrite (parse_line_indented _ _ _ H).
  rewrite on_item_skip by (apply item_skip; other_word H). simpl.
  rewrite on_name_skip by (apply name_skip; other_word H). simpl.
  rewrite on_intervals_skip by (apply intervals_skip; other_word H). simpl.
  rewrite on_ixmin_skip by (apply ixmin_skip; other_word H). simpl.
  destruct (on_ixmax line st) as [st1|e]; simpl; [|reflexivity].
  apply on_text_skip, text_skip. other_word H.
Qed.

Lemma parse_line_text line g st :
  re_match re_text line = Some g -> parse_line st line = on_text line st.
Proof.
  intros H. apply text_word in H.
  rewrite (parse_line_indented _ _ _ H).
  rewrite on_item_skip by (apply item_skip; other_word H). simpl.
  rewrite on_name_skip by (apply name_skip; other_word H). simpl.
  rewrite on_intervals_skip by (apply intervals_skip; other_word H). simpl.
  rewrite on_ixmin_skip by (apply ixmin_skip; other_word H). simpl.
  rewrite on_ixmax_skip by (apply ixmax_skip; other_word H). simpl.
  reflexivity.
Qed.

(** ** What a group captures *)

Lemma keep_some g c r h :
  keep g c r = Some h -> exists h', r = Some h' /\ h = if g then String c h' else h'.
Proof. destruct r as [h'|]; simpl; [|discriminate]. intros [= <-]. eauto. Qed.

Lemma star_false_inv a k s h :
  star a false k s = Some h -> exists t, k t = Some h.
Proof.
  induction s as [|c s IH]; simpl; [eauto|].
  destruct (accepts a c); [|eauto].
  rewrite keep_false. destruct (star a false k s) as [h'|]; [|eauto].
  intros [= <-]. now apply IH.
Qed.

(** Before the group opens nothing is captured. *)
Lemma run_before_group (P : string -> Prop) (r1 rest : regex) :
  no_group r1 = true ->
  (forall t h, run rest false t = Some h -> P h) ->
  forall s h, run (r1 ++ rest)%list false s = Some h -> P h.
Proof.
  intros Hng Hrest. induction r1 as [|x r1 IH]; simpl; [exact Hrest|].
  destruct x as [a|a|a| |]; simpl in Hng; try discriminate; intros s h.
  - destruct s as [|c s]; [discriminate|].
    destruct (accepts a c); [|discriminate].
    rewrite keep_false. now apply IH.
  - intros H. apply star_false_inv in H. destruct H as [t Ht].
    now apply (IH Hng t).
  - destruct s as [|c s]; [discriminate|].
    destruct (accepts a c); [|discriminate].
    rewrite keep_false. intros H. apply star_false_inv in H.
    destruct H as [t Ht]. now apply (IH Hng t).
  - now apply IH.
Qed.

Lemma run_after_group (r : regex) :
  no_group r = true -> forall s h, run r false s = Some h -> h = EmptyString.
Proof.
  intros H s h Hr.
  apply (run_before_group (fun h => h = EmptyString) r []) with (s := s); trivial.
  - simpl. now intros t h' [= <-].
  - now rewrite app_nil_r.
Qed.

Lemma star_true_inv a k s h :
  (forall t h', k t = Some h' -> h' = EmptyString) ->
  star a true k s = Some h -> all_chars (accepts a) h = true.
Proof.
  intros Hk. revert h. induction s as [|c s IH]; simpl; intros h.
  - intros H. now rewrite (Hk _ _ H).
  - destruct (accepts a c) eqn:E.
    + destruct (star a true k s) as [h'|] eqn:E'; simpl.
      * intros [= <-]. simpl. rewrite E. now apply IH.
      * intros H. now rewrite (Hk _ _ H).
    + intros H. now rewrite (Hk _ _ H).
Qed.

(** A group that is one class under plus captures a non-empty text of
    that class. *)
Lemma group_plus (a : atom) (r : regex) (s h : string) :
  no_group r = true ->
  run (GOpen :: Plus a :: GClose :: r) false s = Some h ->
  is_empty h = false /\ all_chars (accepts a) h = true.
Proof.
  intros Hr. simpl. destruct s as [|c s]; [discriminate|].
  destruct (accepts a c) eqn:E; [|discriminate].
  intros H. apply keep_some in H. destruct H as (h' & H & ->).
  split; [reflexivity|]. simpl. rewrite E.
  eapply star_true_inv; [|exact H].
  intros t h''. apply (run_after_group r Hr).
Qed.

Lemma py_int_digits (g : string) :
  is_empty g = false -> all_chars is_digit g = true ->
  py_int g = if digits_of g <=? int_max_str_digits then Ok (int_acc 0 g)
             else Raise (int_too_long g).
Proof. unfold py_int. now intros -> ->. Qed.

(** [int()] of a capture of digits: the number, or the error of the
    digit limit. *)
Lemma py_int_short (g : string) :
  is_empty g = false -> all_chars is_digit g = true ->
  digits_of g <= int_max_str_digits -> py_int g = Ok (int_acc 0 g).
Proof.
  intros H1 H2 H3. rewrite (py_int_digits _ H1 H2).
  apply Z.leb_le in H3. now rewrite H3.
Qed.

Lemma py_int_long (g : string) :
  is_empty g = false -> all_chars is_digit g = true ->
  int_max_str_digits < digits_of g -> py_int g = Raise (int_too_long g).
Proof.
  intros H1 H2 H3. rewrite (py_int_digits _ H1 H2).
  apply Z.leb_gt in H3. now rewrite H3.
Qed.

Lemma digit_val_nonneg c : is_digit c = true -> 0 <= digit_val c.
Proof.
  unfold is_digit, digit_val. intros H. apply andb_true_iff in H.
  destruct H as [H _]. apply N.leb_le in H. lia.
Qed.

Lemma int_acc_nonneg (g : string) (acc : Z) :
  all_chars is_digit g = true -> 0 <= acc -> 0 <= int_acc acc g.
Proof.
  revert acc. induction g as [|c g IH]; cbn [int_acc all_chars];
    intros acc H Hacc; [exact Hacc|].
  apply andb_true_iff in H. destruct H as [Hc Hg].
  apply IH; [exact Hg|]. pose proof (digit_val_nonneg c Hc). lia.
Qed.

Lemma item_capture line g :
  re_match re_item line = Some g ->
  is_empty g = false /\ all_chars is_digit g = true /\ 0 <= int_acc 0 g.
Proof.
  intros H.
  assert (is_empty g = false /\ all_chars is_digit g = true) as [H1 H2].
  { apply (run_before_group
             (fun h => is_empty h = false /\ all_chars is_digit h = true)
             (cat [[Plus Space]; lit "item"; ws; lit "["])
             (group [Plus Digit] ++ lit "]")%list) with (s := line);
      [reflexivity| |exact H].
    intros t h. apply (group_plus Digit). reflexivity. }
  split; [exact H1|]. split; [exact H2|]. apply int_acc_nonneg; [exact H2|lia].
Qed.

Lemma intervals_capture line g :
  re_match re_intervals line = Some g ->
  is_empty g = false /\ all_chars is_digit g = true /\ 0 <= int_acc 0 g.
Proof.
  intros H.
  assert (is_empty g = false /\ all_chars is_digit g = true) as [H1 H2].
  { apply (run_before_group
             (fun h => is_empty h = false /\ all_chars is_digit h = true)
             (cat [[Plus Space]; lit "intervals:"; ws; lit "size"; ws; lit "="; ws])
             (group [Plus Digit])) with (s := line);
      [reflexivity| |exact H].
    intros t h. apply (group_plus Digit). reflexivity. }
  split; [exact H1|]. split; [exact H2|]. apply int_acc_nonneg; [exact H2|lia].
Qed.

(** ** The loop over the lines *)

Lemma parse_lines_app st l1 l2 :
  parse_lines st (l1 ++ l2) = (st' <- parse_lines st l1 ;; parse_lines st' l2).
Proof.
  revert st. induction l1 as [|l l1 IH]; intros st; simpl; [reflexivity|].
  destruct (parse_line st l) as [st1|e]; simpl; [apply IH|reflexivity].
Qed.

Lemma on_item_match line g st :
  re_match re_item line = Some g ->
  on_item line st =
  if digits_of g <=? int_max_str_digits then
    match st.(self).(n_tiers) with
    | None => Raise int_ge_None
    | Some n =>
        if n <=? int_acc 0 g - 1 then Raise (too_many_tiers n (int_acc 0 g - 1))
        else Ok (mkP st.(self) true st.(tier_name))
    end
  else Raise (int_too_long g).
Proof.
  intros H. unfold on_item. rewrite H.
  destruct (item_capture _ _ H) as (H1 & H2 & _).
  rewrite (py_int_digits _ H1 H2).
  now destruct (digits_of g <=? int_max_str_digits).
Qed.

Lemma bind_ok_inv {A B : Type} (m : result A) (k : A -> result B) (y : B) :
  (x <- m ;; k x) = Ok y -> exists x, m = Ok x /\ k x = Ok y.
Proof. destruct m as [x|e]; simpl; [eauto|discriminate]. Qed.

Ltac step_inv H :=
  match type of H with
  | ?f ?line ?st = Ok ?st' =>
      unfold on_file_type, on_object_class, on_xmin, on_xmax, on_tiers, on_size,
        on_item, on_name, on_intervals, on_ixmin, on_ixmax, on_text in H;
      destruct (re_match _ line) as [?g|];
      [ repeat match type of H with
          | context [is_none ?x] => destruct (is_none x)
          | context [negb ?x] => destruct x eqn:?; simpl in H
          | context [py_float ?x] => destruct (py_float x); simpl in H
          | context [py_int ?x] => destruct (py_int x); simpl in H
          | context [match ?x with Some _ => _ | None => _ end] => destruct x eqn:?
          | context [if ?x then _ else _] => destruct x eqn:?
          end;
        try discriminate H;
        injection H as <-
      | injection H as <- ]
  end.

Lemma steps_same_count line st st' :
  on_file_type line st = Ok st' \/ on_object_class line st = Ok st'
  \/ on_xmin line st = Ok st' \/ on_xmax line st = Ok st'
  \/ on_tiers line st = Ok st' \/ on_item line st = Ok st'
  \/ on_name line st = Ok st' \/ on_intervals line st = Ok st'
  \/ on_ixmin line st = Ok st' \/ on_ixmax line st = Ok st'
  \/ on_text line st = Ok st' ->
  same_count st st'.
Proof.
  unfold same_count.
  intros [H|[H|[H|[H|[H|[H|[H|[H|[H|[H|H]]]]]]]]]]; step_inv H;
    simpl; congruence.
Qed.

Lemma steps_same_rows line st st' :
  on_file_type line st = Ok st' \/ on_object_class line st = Ok st'
  \/ on_xmin line st = Ok st' \/ on_xmax line st = Ok st'
  \/ on_tiers line st = Ok st' \/ on_size line st = Ok st'
  \/ on_item line st = Ok st' \/ on_name line st = Ok st'
  \/ on_ixmin line st = Ok st' \/ on_ixmax line st = Ok st'
  \/ on_text line st = Ok st' ->
  same_rows st st'.
Proof.
  unfold same_rows.
  intros [H|[H|[H|[H|[H|[H|[H|[H|[H|[H|H]]]]]]]]]] Hh; step_inv H;
    simpl; auto; congruence.
Qed.

Lemma same_count_trans a b c : same_count a b -> same_count b c -> same_count a c.
Proof. unfold same_count. congruence. Qed.

Lemma same_rows_trans a b c : same_rows a b -> same_rows b c -> same_rows a c.
Proof.
  unfold same_rows. intros H1 H2 H. destruct (H1 H) as [H3 H4].
  destruct (H2 H3) as [H5 H6]. split; congruence.
Qed.

Ltac peel H st1 H1 :=
  apply bind_ok_inv in H; destruct H as (st1 & H1 & H).

Ltac pick := first [assumption | left; assumption | right; pick].

Lemma parse_line_same_count line st st' :
  re_match re_size line = None ->
  parse_line st line = Ok st' -> same_count st st'.
Proof.
  intros Hs H. unfold parse_line in H.
  peel H s1 H1. peel H s2 H2. peel H s3 H3. peel H s4 H4. peel H s5 H5.
  peel H s6 H6. peel H s7 H7. peel H s8 H8. peel H s9 H9. peel H s10 H10.
  peel H s11 H11.
  rewrite (on_size_skip _ _ Hs) in H6. injection H6 as <-.
  assert (K1 : same_count st s1) by (apply (steps_same_count line); pick).
  assert (K2 : same_count s1 s2) by (apply (steps_same_count line); pick).
  assert (K3 : same_count s2 s3) by (apply (steps_same_count line); pick).
  assert (K4 : same_count s3 s4) by (apply (steps_same_count line); pick).
  assert (K5 : same_count s4 s5) by (apply (steps_same_count line); pick).
  assert (K7 : same_count s5 s7) by (apply (steps_same_count line); pick).
  assert (K8 : same_count s7 s8) by (apply (steps_same_count line); pick).
  assert (K9 : same_count s8 s9) by (apply (steps_same_count line); pick).
  assert (K10 : same_count s9 s10) by (apply (steps_same_count line); pick).
  assert (K11 : same_count s10 s11) by (apply (steps_same_count line); pick).
  assert (K12 : same_count s11 st') by (apply (steps_same_count line); pick).
  unfold same_count in *. congruence.
Qed.

Lemma parse_line_same_rows line st st' :
  re_match re_intervals line = None ->
  parse_line st line = Ok st' -> same_rows st st'.
Proof.
  intros Hs H. unfold parse_line in H.
  peel H s1 H1. peel H s2 H2. peel H s3 H3. peel H s4 H4. peel H s5 H5.
  peel H s6 H6. peel H s7 H7. peel H s8 H8. peel H s9 H9. peel H s10 H10.
  peel H s11 H11.
  rewrite (on_intervals_skip _ _ Hs) in H9. injection H9 as <-.
  apply (same_rows_trans st s1); [apply (steps_same_rows line); pick|].
  apply (same_rows_trans s1 s2); [apply (steps_same_rows line); pick|].
  apply (same_rows_trans s2 s3); [apply (steps_same_rows line); pick|].
  apply (same_rows_trans s3 s4); [apply (steps_same_rows line); pick|].
  apply (same_rows_trans s4 s5); [apply (steps_same_rows line); pick|].
  apply (same_rows_trans s5 s6); [apply (steps_same_rows line); pick|].
  apply (same_rows_trans s6 s7); [apply (steps_same_rows line); pick|].
  apply (same_rows_trans s7 s8); [apply (steps_same_rows line); pick|].
  apply (same_rows_trans s8 s10); [apply (steps_same_rows line); pick|].
  apply (same_rows_trans s10 s11); [apply (steps_same_rows line); pick|].
  apply (steps_same_rows line); pick.
Qed.

Lemma parse_lines_same_count lines st st' :
  (forall l, In l lines -> re_match re_size l = None) ->
  parse_lines st lines = Ok st' -> same_count st st'.
Proof.
  revert st. induction lines as [|l lines IH]; simpl; intros st Hl H.
  - injection H as <-. reflexivity.
  - peel H st1 H1. eapply same_count_trans.
    + eapply parse_line_same_count; [|exact H1]. auto.
    + apply IH; auto.
Qed.

Lemma parse_lines_same_rows lines st st' :
  (forall l, In l lines -> re_match re_intervals l = None) ->
  parse_lines st lines = Ok st' -> same_rows st st'.
Proof.
  revert st. induction lines as [|l lines IH]; simpl; intros st Hl H.
  - injection H as <-. now split.
  - peel H st1 H1. eapply same_rows_trans.
    + eapply parse_line_same_rows; [|exact H1]. auto.
    + apply IH; auto.
Qed.

Lemma size_capture line g :
  re_match re_size line = Some g ->
  is_empty g = false /\ all_chars is_digit g = true /\ 0 <= int_acc 0 g.
Proof.
  intros H.
  assert (is_empty g = false /\ all_chars is_digit g = true) as [H1 H2].
  { apply (run_before_group
             (fun h => is_empty h = false /\ all_chars is_digit h = true)
             (cat [lit "size"; ws; lit "="; ws])
             (group [Plus Digit])) with (s := line);
      [reflexivity| |exact H].
    intros t h. apply (group_plus Digit). reflexivity. }
  split; [exact H1|]. split; [exact H2|]. apply int_acc_nonneg; [exact H2|lia].
Qed.

(** After a line the pattern of line 79 matches, the declared tier count
    is the number on that line. *)
Lemma parse_line_size line g st st' :
  re_match re_size line = Some g ->
  parse_line st line = Ok st' ->
  st'.(self).(n_tiers) = Some (int_acc 0 g) /\ py_int g = Ok (int_acc 0 g).
Proof.
  intros Hs H. unfold parse_line in H.
  peel H s1 H1. peel H s2 H2. peel H s3 H3. peel H s4 H4. peel H s5 H5.
  peel H s6 H6. peel H s7 H7. peel H s8 H8. peel H s9 H9. peel H s10 H10.
  peel H s11 H11.
  assert (K6 : s6.(self).(n_tiers) = Some (int_acc 0 g)
               /\ py_int g = Ok (int_acc 0 g)).
  { unfold on_size in H6. rewrite Hs in H6.
    destruct (size_capture _ _ Hs) as (E1 & E2 & _).
    rewrite (py_int_digits _ E1 E2) in H6 |- *.
    destruct (digits_of g <=? int_max_str_digits); [|discriminate H6].
    injection H6 as <-. split; reflexivity. }
  destruct K6 as [K6 Kint]. split; [|exact Kint].
  assert (K7 : same_count s6 s7) by (apply (steps_same_count line); pick).
  assert (K8 : same_count s7 s8) by (apply (steps_same_count line); pick).
  assert (K9 : same_count s8 s9) by (apply (steps_same_count line); pick).
  assert (K10 : same_count s9 s10) by (apply (steps_same_count line); pick).
  assert (K11 : same_count s10 s11) by (apply (steps_same_count line); pick).
  assert (K12 : same_count s11 st') by (apply (steps_same_count line); pick).
  unfold same_count in *. congruence.
Qed.

(** C3.  The text has a line the pattern of line 79 matches with the
    number [n] (the header's [size = n]), no such line after it, and
    further down an [item [N]] line with [n <= N - 1].  When the loop
    reaches that line, parsing stops there with the error of line 92;
    with [N - 1 < n] the line only raises the tier-header flag.  This is
    for a number [N] that [int] converts; one of more than 4300 digits
    stops the loop at line 88 with the error of the digit limit. *)
Theorem C3_item_beyond_declared_count :
  forall (o : TextGrid) (text : string) (pre mid post : list string)
         (size_line gs line g : string) (st : pstate),
    splitlines text = (pre ++ size_line :: mid ++ line :: post)%list ->
    re_match re_size size_line = Some gs ->
    (forall l, In l mid -> re_match re_size l = None) ->
    parse_lines (mkP o true None) (pre ++ size_line :: mid) = Ok st ->
    re_match re_item line = Some g ->
    (digits_of g <= int_max_str_digits ->
     exists n N,
       py_int gs = Ok n /\ py_int g = Ok N
       /\ st.(self).(n_tiers) = Some n
       /\ (n <= N - 1 -> parse_text text o = Raise (too_many_tiers n (N - 1)))
       /\ (N - 1 < n ->
           parse_lines (mkP o true None) (pre ++ size_line :: mid ++ [line])
           = Ok (mkP st.(self) true st.(tier_name))))
    /\ (int_max_str_digits < digits_of g ->
        parse_text text o = Raise (int_too_long g)).
Proof.
  intros o text pre mid post size_line gs line g st Hsplit Hsize Hmid Hst Hm.
  destruct (item_capture _ _ Hm) as (G1 & G2 & _).
  assert (Hcount : st.(self).(n_tiers) = Some (int_acc 0 gs)
                   /\ py_int gs = Ok (int_acc 0 gs)).
  { rewrite parse_lines_app in Hst. peel Hst st0 H0.
    cbn [parse_lines] in Hst. peel Hst st1 H1.
    rewrite (parse_lines_same_count _ _ _ Hmid Hst).
    exact (parse_line_size _ _ _ _ Hsize H1). }
  destruct Hcount as [Hcount Hn].
  assert (Hline : parse_line st line =
                  if digits_of g <=? int_max_str_digits then
                    if int_acc 0 gs <=? int_acc 0 g - 1
                    then Raise (too_many_tiers (int_acc 0 gs) (int_acc 0 g - 1))
                    else Ok (mkP st.(self) true st.(tier_name))
                  else Raise (int_too_long g)).
  { rewrite (parse_line_item _ _ _ Hm), (on_item_match _ _ _ Hm), Hcount.
    reflexivity. }
  assert (Hfull : forall rest,
            parse_lines (mkP o true None) (pre ++ size_line :: mid ++ line :: rest)
            = (st' <- parse_line st line ;; parse_lines st' rest)).
  { intros rest.
    replace (pre ++ size_line :: mid ++ line :: rest)%list
      with ((pre ++ size_line :: mid) ++ line :: rest)%list
      by (rewrite <- app_assoc; reflexivity).
    now rewrite parse_lines_app, Hst. }
  split.
  - intros Hshort. exists (int_acc 0 gs), (int_acc 0 g).
    apply Z.leb_le in Hshort. rewrite Hshort in Hline.
    split; [exact Hn|].
    split; [apply py_int_short; [exact G1|exact G2|now apply Z.leb_le]|].
    split; [exact Hcount|].
    split; intros Hcmp.
    + unfold parse_text. rewrite Hsplit, Hfull, Hline.
      apply Z.leb_le in Hcmp. now rewrite Hcmp.
    + rewrite Hfull, Hline. apply Z.leb_gt in Hcmp. now rewrite Hcmp.
  - intros Hlong. apply Z.leb_gt in Hlong. rewrite Hlong in Hline.
    unfold parse_text. now rewrite Hsplit, Hfull, Hline.
Qed.

(** C10.  The object starts with no tier count (line 25).  When the loop
    reaches an indented [item [N]] line and no line before it matched the
    pattern of line 79, line 91 compares an [int] with [None]: parsing
    stops with a [TypeError], which is none of the [ValueError]s of the
    class.  This is for a number [N] that [int] converts; one of more
    than 4300 digits stops the loop at line 88, before the comparison,
    with the [ValueError] of the digit limit. *)
Theorem C10_item_before_size :
  forall (o : TextGrid) (text : string) (pre post : list string)
         (line g : string) (st : pstate),
    o.(n_tiers) = None ->
    splitlines text = (pre ++ line :: post)%list ->
    (forall l, In l pre -> re_match re_size l = None) ->
    parse_lines (mkP o true None) pre = Ok st ->
    re_match re_item line = Some g ->
    (digits_of g <= int_max_str_digits ->
     parse_text text o = Raise int_ge_None
     /\ (forall msg, parse_text text o <> Raise (ValueError msg)))
    /\ (int_max_str_digits < digits_of g ->
        parse_text text o = Raise (int_too_long g)).
Proof.
  intros o text pre post line g st Ho Hsplit Hpre Hst Hm.
  assert (H : parse_text text o =
              if digits_of g <=? int_max_str_digits then Raise int_ge_None
              else Raise (int_too_long g)).
  { unfold parse_text. rewrite Hsplit, parse_lines_app, Hst. simpl.
    rewrite (parse_line_item _ _ _ Hm), (on_item_match _ _ _ Hm).
    pose proof (parse_lines_same_count _ _ _ Hpre Hst) as Hc.
    unfold same_count in Hc. simpl in Hc. rewrite Hc, Ho.
    now destruct (digits_of g <=? int_max_str_digits). }
  split.
  - intros Hshort. apply Z.leb_le in Hshort. rewrite Hshort in H.
    split; [exact H|]. intros msg. rewrite H. discriminate.
  - intros Hlong. apply Z.leb_gt in Hlong. now rewrite Hlong in H.
Qed.

Lemma on_intervals_match line g st :
  re_match re_intervals line = Some g ->
  on_intervals line st =
  if digits_of g <=? int_max_str_digits then
    if sys_maxsize <? int_acc 0 g then Raise index_overflow
    else if capacity <? int_acc 0 g then Raise MemoryError
    else Ok (mkP (set_content_tier
                    (st.(self).(content_tier)
                     ++ repeat st.(tier_name) (Z.to_nat (int_acc 0 g))) st.(self))
                 false st.(tier_name))
  else Raise (int_too_long g).
Proof.
  intros H. unfold on_intervals. rewrite H.
  destruct (intervals_capture _ _ H) as (H1 & H2 & _).
  rewrite (py_int_digits _ H1 H2).
  now destruct (digits_of g <=? int_max_str_digits).
Qed.

(** C8.  On an [intervals: size = N] line the loop appends [N] copies of
    the current tier name to the tier column and lowers the tier-header
    flag, and does nothing else; this is for an [N] of at most 4300
    digits, at most [sys.maxsize], and a list the machine has the memory
    for: otherwise line 104 or line 105 raises.  On an interval [xmin],
    [xmax] or [text] line it appends the value to its column when the
    flag is down and leaves the object alone when the flag is up.  From
    a raised flag, as an [item [N]] line leaves it, no run of lines
    without an [intervals: size] line changes the flag or any column. *)
Theorem C8_interval_lines :
  forall (st : pstate) (line g : string),
    (re_match re_intervals line = Some g ->
     (int_max_str_digits < digits_of g ->
      parse_line st line = Raise (int_too_long g))
     /\ (digits_of g <= int_max_str_digits ->
         exists N,
           py_int g = Ok N /\ 0 <= N
           /\ (sys_maxsize < N -> parse_line st line = Raise index_overflow)
           /\ (N <= sys_maxsize -> capacity < N ->
               parse_line st line = Raise MemoryError)
           /\ (N <= sys_maxsize -> N <= capacity ->
               exists st',
                 parse_line st line = Ok st'
                 /\ cols st'.(self)
                    = ((st.(self).(content_tier) ++ repeat st.(tier_name) (Z.to_nat N))%list,
                       st.(self).(content_start), st.(self).(content_end),
                       st.(self).(content_annotation))
                 /\ List.length st'.(self).(content_tier)
                    = (List.length st.(self).(content_tier) + Z.to_nat N)%nat
                 /\ attrs st'.(self) = attrs st.(self)
                 /\ st'.(tier_header) = false
                 /\ st'.(tier_name) = st.(tier_name))))
    /\ (re_match re_ixmin line = Some g ->
        (st.(tier_header) = true -> parse_line st line = Ok st)
        /\ (st.(tier_header) = false ->
            (forall e, py_float g = Raise e -> parse_line st line = Raise e)
            /\ (forall start, py_float g = Ok start ->
                exists st',
                  parse_line st line = Ok st'
                  /\ cols st'.(self)
                     = (st.(self).(content_tier),
                        (st.(self).(content_start) ++ [start])%list,
                        st.(self).(content_end), st.(self).(content_annotation))
                  /\ attrs st'.(self) = attrs st.(self)
                  /\ st'.(tier_header) = false
                  /\ st'.(tier_name) = st.(tier_name))))
    /\ (re_match re_ixmax line = Some g ->
        (st.(tier_header) = true -> parse_line st line = Ok st)
        /\ (st.(tier_header) = false ->
            (forall e, py_float g = Raise e -> parse_line st line = Raise e)
            /\ (forall end_, py_float g = Ok end_ ->
                exists st',
                  parse_line st line = Ok st'
                  /\ cols st'.(self)
                     = (st.(self).(content_tier), st.(self).(content_start),
                        (st.(self).(content_end) ++ [end_])%list,
                        st.(self).(content_annotation))
                  /\ attrs st'.(self) = attrs st.(self)
                  /\ st'.(tier_header) = false
                  /\ st'.(tier_name) = st.(tier_name))))
    /\ (re_match re_text line = Some g ->
        (st.(tier_header) = true -> parse_line st line = Ok st)
        /\ (st.(tier_header) = false ->
            exists st',
              parse_line st line = Ok st'
              /\ cols st'.(self)
                 = (st.(self).(content_tier), st.(self).(content_start),
                    st.(self).(content_end),
                    (st.(self).(content_annotation) ++ [g])%list)
              /\ attrs st'.(self) = attrs st.(self)
              /\ st'.(tier_header) = false
              /\ st'.(tier_name) = st.(tier_name)))
    /\ (re_match re_item line = Some g ->
        forall st1 lines st2,
          parse_line st line = Ok st1 ->
          (forall l, In l lines -> re_match re_intervals l = None) ->
          parse_lines st1 lines = Ok st2 ->
          st2.(tier_header) = true /\ cols st2.(self) = cols st.(self)).
Proof.
  intros st line g. split; [|split; [|split; [|split]]].
  - intros H. destruct (intervals_capture _ _ H) as (G1 & G2 & Hpos).
    rewrite (parse_line_intervals _ _ _ H), (on_intervals_match _ _ _ H).
    split.
    + intros Hlong. apply Z.leb_gt in Hlong. now rewrite Hlong.
    + intros Hshort. exists (int_acc 0 g).
      split; [now apply py_int_short|]. split; [exact Hpos|].
      apply Z.leb_le in Hshort. rewrite Hshort.
      split; [intros Hbig; apply Z.ltb_lt in Hbig; now rewrite Hbig|].
      split.
      * intros Hfit Hroom. apply Z.ltb_ge in Hfit. apply Z.ltb_lt in Hroom.
        now rewrite Hfit, Hroom.
      * intros Hfit Hroom. apply Z.ltb_ge in Hfit, Hroom. rewrite Hfit, Hroom.
        eexists. split; [reflexivity|].
        cbn [self tier_header tier_name cols attrs set_content_tier
             file_path file_type object_class xmin xmax tiers n_tiers tier_list
             content_tier content_start content_end content_annotation].
        split; [reflexivity|].
        split; [now rewrite length_app, repeat_length|].
        repeat split.
  - intros H. rewrite (parse_line_ixmin _ _ _ H). unfold on_ixmin. rewrite H.
    split; [now intros ->|]. intros Hh. rewrite Hh. cbn [negb].
    split; [now intros e ->|]. intros x ->. cbn [bind].
    eexists. split; [reflexivity|].
    destruct st as [o h nm]; destruct o; cbn in Hh; subst h; repeat split.
  - intros H. rewrite (parse_line_ixmax _ _ _ H). unfold on_ixmax. rewrite H.
    split; [now intros ->|]. intros Hh. rewrite Hh. cbn [negb].
    split; [now intros e ->|]. intros x ->. cbn [bind].
    eexists. split; [reflexivity|].
    destruct st as [o h nm]; destruct o; cbn in Hh; subst h; repeat split.
  - intros H. rewrite (parse_line_text _ _ _ H). unfold on_text. rewrite H.
    split; [now intros ->|]. intros Hh. rewrite Hh. cbn [negb].
    eexists. split; [reflexivity|].
    destruct st as [o h nm]; destruct o; cbn in Hh; subst h; repeat split.
  - intros H st1 lines st2 H1 Hl H2.
    rewrite (parse_line_item _ _ _ H), (on_item_match _ _ _ H) in H1.
    destruct (digits_of g <=? int_max_str_digits); [|discriminate].
    destruct (n_tiers (self st)) as [n|]; [|discriminate].
    destruct (n <=? int_acc 0 g - 1); [discriminate|]. injection H1 as <-.
    apply (parse_lines_same_rows _ _ _ Hl H2). reflexivity.
Qed.

(** ** Numbers with and without a fractional part *)
Lemma star_take_all a k ds rest h :
  all_chars (accepts a) ds = true ->
  first_is (accepts a) rest = false ->
  k rest = Some h ->
  star a true k (ds ++ rest) = Some (ds ++ h).
Proof.
  intros Hds Hrest Hk.
  induction ds as [|c ds IH]; cbn [star append all_chars] in *.
  - destruct rest as [|c rest]; [exact Hk|].
    cbn [star first_is] in *. now rewrite Hrest.
  - apply andb_true_iff in Hds. destruct Hds as [Hc Hds].
    now rewrite Hc, (IH Hds).
Qed.

Lemma star_refuses a k ds :
  (forall t, first_is (accepts a) t = true -> k t = None) ->
  k EmptyString = None ->
  all_chars (accepts a) ds = true ->
  star a true k ds = None.
Proof.
  intros Hk Hk0 Hds.
  induction ds as [|c ds IH]; cbn [star all_chars] in *; [exact Hk0|].
  apply andb_true_iff in Hds. destruct Hds as [Hc Hds].
  rewrite Hc, (IH Hds). cbn [keep]. apply Hk. exact Hc.
Qed.

Lemma lstrip_app indent rest :
  all_chars is_space indent = true -> first_is is_space rest = false ->
  lstrip (indent ++ rest) = rest.
Proof.
  intros Hi Hr.
  induction indent as [|c s IH]; cbn [lstrip append all_chars] in *.
  - destruct rest as [|c rest]; [reflexivity|].
    cbn [lstrip first_is] in *. now rewrite Hr.
  - apply andb_true_iff in Hi. destruct Hi as [Hc Hs]. now rewrite Hc, IH.
Qed.

Lemma indented_app w indent rest :
  is_empty indent = false -> all_chars is_space indent = true ->
  first_is is_space rest = false ->
  indented w (indent ++ rest) = starts w rest.
Proof.
  intros He Hi Hr. unfold indented. rewrite lstrip_app by assumption.
  destruct indent as [|c s]; [discriminate|].
  cbn [append first_is all_chars] in *.
  apply andb_true_iff in Hi. destruct Hi as [-> _]. reflexivity.
Qed.

Lemma span_digits_all ds :
  all_chars is_digit ds = true -> span_digits ds = (ds, EmptyString).
Proof.
  induction ds as [|c ds IH]; cbn [span_digits all_chars]; [reflexivity|].
  intros H. apply andb_true_iff in H. destruct H as [-> H]. now rewrite IH.
Qed.

Lemma py_float_integer ds :
  is_empty ds = false -> all_chars is_digit ds = true ->
  py_float ds = Ok (round_decimal (int_acc 0 ds) 0).
Proof.
  intros He Hd. unfold py_float. rewrite span_digits_all by exact Hd.
  now rewrite He.
Qed.

Lemma digit_not_dot c : is_digit c = true -> Ascii.eqb "." c = false.
Proof.
  intros H. destruct (Ascii.eqb_spec "." c) as [<-|]; [discriminate|reflexivity].
Qed.
Lemma append_empty_r (s : string) : s ++ EmptyString = s.
Proof. induction s as [|c s IH]; simpl; [reflexivity|now rewrite IH]. Qed.

Lemma append_assoc (a b c : string) : (a ++ b) ++ c = a ++ b ++ c.
Proof. induction a as [|x a IH]; simpl; [reflexivity|now rewrite IH]. Qed.

Lemma starts_app (w rest : string) : starts w (w ++ rest) = true.
Proof.
  induction w as [|c w IH]; simpl; [reflexivity|].
  now rewrite Ascii.eqb_refl, IH.
Qed.

Lemma drop_app (w rest : string) : drop (String.length w) (w ++ rest) = rest.
Proof. induction w as [|c w IH]; simpl; [now destruct rest|exact IH]. Qed.

Lemma first_nonspace_app (w rest : string) :
  first_is nonspace w = true -> first_is is_space (w ++ rest) = false.
Proof.
  destruct w as [|c w]; [discriminate|]. unfold nonspace.
  cbn [first_is append]. now destruct (is_space c).
Qed.

(** The interval patterns take a number without a fractional part. *)
Lemma interval_pattern_integer (key : string) (indent ds : string) :
  first_is nonspace key = true ->
  is_empty indent = false -> all_chars is_space indent = true ->
  is_empty ds = false -> all_chars is_digit ds = true ->
  re_match
    (cat [[Plus Space]; lit key; ws; lit "="; ws;
          group [Star Digit; Star (Lit "."); Star Digit]])
    (indent ++ key ++ " = " ++ ds) = Some ds.
Proof.
  intros Hk He Hi Hne Hd. unfold re_match.
  change (cat [[Plus Space]; lit key; ws; lit "="; ws;
               group [Star Digit; Star (Lit "."); Star Digit]])
    with (Plus Space :: lit key
            ++ cat [ws; lit "="; ws;
                    group [Star Digit; Star (Lit "."); Star Digit]])%list.
  rewrite run_indented by exact Hk.
  rewrite indented_app, lstrip_app, starts_app, drop_app;
    try assumption; try (now apply first_nonspace_app).
  cbn [cat List.concat ws lit group app run append accepts keep].
  change (is_space " ") with true. change (Ascii.eqb "=" "=") with true.
  cbn [keep].
  rewrite <- (append_empty_r ds) at 1.
  rewrite (star_take_all Digit _ ds EmptyString EmptyString);
    [now rewrite append_empty_r|exact Hd|reflexivity|reflexivity].
Qed.

(** The header patterns refuse it: they ask for digits, a dot, digits. *)
Lemma header_pattern_integer (key : string) (ds : string) :
  all_chars is_digit ds = true ->
  re_match
    (cat [lit key; ws; lit "="; ws;
          group [Plus Digit; One (Lit "."); Plus Digit]])
    (key ++ " = " ++ ds) = None.
Proof.
  intros Hd. unfold re_match.
  change (cat [lit key; ws; lit "="; ws;
               group [Plus Digit; One (Lit "."); Plus Digit]])
    with (lit key
            ++ cat [ws; lit "="; ws;
                    group [Plus Digit; One (Lit "."); Plus Digit]])%list.
  rewrite run_lit, starts_app, drop_app.
  cbn [cat List.concat ws lit group app run append accepts keep].
  change (is_space " ") with true. change (Ascii.eqb "=" "=") with true.
  cbn [keep].
  destruct ds as [|c ds]; [reflexivity|].
  cbn [all_chars] in Hd. apply andb_true_iff in Hd. destruct Hd as [Hc Hd].
  rewrite Hc. rewrite star_refuses; [reflexivity| |reflexivity|exact Hd].
  intros [|d t]; [discriminate|]. cbn [first_is run accepts].
  intros Ht. now rewrite (digit_not_dot _ Ht).
Qed.

(** With a fractional part the header patterns capture the number. *)
Lemma header_pattern_fraction (key : string) (ds fs : string) :
  is_empty ds = false -> all_chars is_digit ds = true ->
  is_empty fs = false -> all_chars is_digit fs = true ->
  re_match
    (cat [lit key; ws; lit "="; ws;
          group [Plus Digit; One (Lit "."); Plus Digit]])
    (key ++ " = " ++ ds ++ "." ++ fs) = Some (ds ++ "." ++ fs).
Proof.
  intros Hne Hd Hnf Hf. unfold re_match.
  change (cat [lit key; ws; lit "="; ws;
               group [Plus Digit; One (Lit "."); Plus Digit]])
    with (lit key
            ++ cat [ws; lit "="; ws;
                    group [Plus Digit; One (Lit "."); Plus Digit]])%list.
  rewrite run_lit, starts_app, drop_app.
  cbn [cat List.concat ws lit group app run append accepts keep].
  change (is_space " ") with true. change (Ascii.eqb "=" "=") with true.
  cbn [keep].
  destruct ds as [|c ds]; [discriminate|]. destruct fs as [|d fs]; [discriminate|].
  cbn [all_chars append] in *.
  apply andb_true_iff in Hd, Hf. destruct Hd as [Hc Hd], Hf as [Hd' Hf].
  rewrite Hc.
  rewrite (star_take_all Digit _ ds ("." ++ String d fs) ("." ++ String d fs));
    [reflexivity|exact Hd|reflexivity|].
  cbn [append run accepts]. rewrite Ascii.eqb_refl, Hd'.
  rewrite <- (append_empty_r fs) at 1.
  rewrite (star_take_all Digit _ fs EmptyString EmptyString);
    [now rewrite append_empty_r|exact Hf|reflexivity|reflexivity].
Qed.

(** A header line with a whole number matches none of the twelve
    patterns: the loop ignores it. *)
Lemma parse_line_header_integer (key ds : string) (st : pstate) :
  key = "xmin" \/ key = "xmax" ->
  all_chars is_digit ds = true ->
  parse_line st (key ++ " = " ++ ds) = Ok st.
Proof.
  intros Hkey Hd. unfold parse_line.
  assert (Hmin : re_match re_xmin (key ++ " = " ++ ds) = None).
  { destruct Hkey as [-> | ->].
    - now apply (header_pattern_integer "xmin").
    - now apply (nomatch_top "xmin"). }
  assert (Hmax : re_match re_xmax (key ++ " = " ++ ds) = None).
  { destruct Hkey as [-> | ->].
    - now apply (nomatch_top "xmax").
    - now apply (header_pattern_integer "xmax"). }
  rewrite on_file_type_skip
    by (destruct Hkey as [-> | ->]; now apply (nomatch_top "File")).
  cbn [bind].
  rewrite on_object_class_skip
    by (destruct Hkey as [-> | ->]; now apply (nomatch_top "Object")).
  cbn [bind]. rewrite on_xmin_skip by exact Hmin.
  cbn [bind]. rewrite on_xmax_skip by exact Hmax.
  cbn [bind].
  rewrite on_tiers_skip
    by (destruct Hkey as [-> | ->]; now apply (nomatch_top "tiers?")).
  cbn [bind].
  rewrite on_size_skip
    by (destruct Hkey as [-> | ->]; now apply (nomatch_top "size")).
  cbn [bind].
  rewrite on_item_skip
    by (destruct Hkey as [-> | ->]; now apply item_skip).
  cbn [bind].
  rewrite on_name_skip
    by (destruct Hkey as [-> | ->]; now apply name_skip).
  cbn [bind].
  rewrite on_intervals_skip
    by (destruct Hkey as [-> | ->]; now apply intervals_skip).
  cbn [bind].
  rewrite on_ixmin_skip
    by (destruct Hkey as [-> | ->]; now apply ixmin_skip).
  cbn [bind].
  rewrite on_ixmax_skip
    by (destruct Hkey as [-> | ->]; now apply ixmax_skip).
  cbn [bind].
  apply on_text_skip. destruct Hkey as [-> | ->]; now apply text_skip.
Qed.

(** C6.  The claim holds of the interval patterns and fails of the
    header patterns.  An interval [xmin] or [xmax] line with a whole
    number such as [xmin = 0] is matched, the digits are captured and
    [float] turns them into the number; with the tier-header flag down
    the loop appends it to its column.  The header patterns of lines 64
    and 69 ask for digits, a dot and digits where those of lines 109 and
    115 do not: a header line with a whole number matches none of them
    and leaves the object as it was, its bound unset, while the same
    line with a fractional part is captured. *)
Theorem C6_fraction_optional_in_intervals_only :
  forall (indent ds : string) (st : pstate),
    is_empty indent = false -> all_chars is_space indent = true ->
    is_empty ds = false -> all_chars is_digit ds = true ->
    let x := round_decimal (int_acc 0 ds) 0 in
    (re_match re_ixmin (indent ++ "xmin = " ++ ds) = Some ds
     /\ re_match re_ixmax (indent ++ "xmax = " ++ ds) = Some ds
     /\ py_float ds = Ok x
     /\ (st.(tier_header) = false ->
         (exists st',
            parse_line st (indent ++ "xmin = " ++ ds) = Ok st'
            /\ cols st'.(self)
               = (st.(self).(content_tier), (st.(self).(content_start) ++ [x])%list,
                  st.(self).(content_end), st.(self).(content_annotation)))
         /\ (exists st',
               parse_line st (indent ++ "xmax = " ++ ds) = Ok st'
               /\ cols st'.(self)
                  = (st.(self).(content_tier), st.(self).(content_start),
                     (st.(self).(content_end) ++ [x])%list,
                     st.(self).(content_annotation)))))
    /\ (re_match re_xmin ("xmin = " ++ ds) = None
        /\ re_match re_xmax ("xmax = " ++ ds) = None
        /\ parse_line st ("xmin = " ++ ds) = Ok st
        /\ parse_line st ("xmax = " ++ ds) = Ok st)
    /\ (forall fs,
          is_empty fs = false -> all_chars is_digit fs = true ->
          re_match re_xmin ("xmin = " ++ ds ++ "." ++ fs) = Some (ds ++ "." ++ fs)
          /\ re_match re_xmax ("xmax = " ++ ds ++ "." ++ fs) = Some (ds ++ "." ++ fs)).
Proof.
  intros indent ds st He Hi Hne Hd x.
  assert (Hmin : re_match re_ixmin (indent ++ "xmin = " ++ ds) = Some ds)
    by now apply (interval_pattern_integer "xmin").
  assert (Hmax : re_match re_ixmax (indent ++ "xmax = " ++ ds) = Some ds)
    by now apply (interval_pattern_integer "xmax").
  assert (Hx : py_float ds = Ok x) by now apply py_float_integer.
  split; [|split].
  - split; [exact Hmin|]. split; [exact Hmax|]. split; [exact Hx|].
    intros Hh. split.
    + rewrite (parse_line_ixmin _ _ _ Hmin). unfold on_ixmin.
      rewrite Hmin, Hh, Hx. eexists. split; reflexivity.
    + rewrite (parse_line_ixmax _ _ _ Hmax). unfold on_ixmax.
      rewrite Hmax, Hh, Hx. eexists. split; reflexivity.
  - split; [now apply (header_pattern_integer "xmin")|].
    split; [now apply (header_pattern_integer "xmax")|].
    split.
    + apply (parse_line_header_integer "xmin"); auto.
    + apply (parse_line_header_integer "xmax"); auto.
  - intros fs Hnf Hf. split.
    + now apply (header_pattern_fraction "xmin").
    + now apply (header_pattern_fraction "xmax").
Qed.

(** ** The serializer *)

Lemma emit_row_text o st r :
  (emit_row o st r).(text) = st.(text) ++ piece o st r.
Proof.
  destruct r as [[[tier start] end_] annotation].
  unfold emit_row, piece, changes.
  destruct (negb (tier_eqb (last_tier st) tier) || is_none (last_tier st));
    cbn [text interval_idx]; [apply append_assoc|reflexivity].
Qed.

Lemma fold_text o rows st :
  (fold_left (emit_row o) rows st).(text) = st.(text) ++ join (pieces o st rows).
Proof.
  revert st. induction rows as [|r rows IH]; intros st; cbn [fold_left pieces join fold_right].
  - now rewrite append_empty_r.
  - rewrite IH, emit_row_text. apply append_assoc.
Qed.

Lemma textgrid_text_pieces o :
  textgrid_text o = header_text o ++ join (pieces o (start_state o) (rows_of o)).
Proof. unfold textgrid_text. now rewrite fold_text. Qed.

Lemma zip4_length t s e a :
  List.length (zip4 t s e a)
  = min4 (List.length t) (List.length s) (List.length e) (List.length a).
Proof.
  unfold min4. revert s e a.
  induction t as [|t0 t IH]; intros s e a; [reflexivity|].
  destruct s as [|s0 s]; [reflexivity|].
  destruct e as [|e0 e]; [cbn [zip4 List.length]; lia|].
  destruct a as [|a0 a]; [cbn [zip4 List.length]; lia|].
  cbn [zip4 List.length]. rewrite IH. lia.
Qed.

Lemma zip4_nth t s e a i x1 x2 x3 x4 :
  nth_error (zip4 t s e a) i = Some (x1, x2, x3, x4) <->
  nth_error t i = Some x1 /\ nth_error s i = Some x2
  /\ nth_error e i = Some x3 /\ nth_error a i = Some x4.
Proof.
  revert s e a i. induction t as [|t0 t IH]; intros s e a i.
  - cbn [zip4]. destruct i; cbn; split; [discriminate|intros [H _]; discriminate
                                         |discriminate|intros [H _]; discriminate].
  - destruct s as [|s0 s].
    { cbn [zip4]. destruct i; cbn; split; try discriminate;
        intros (_ & H & _); discriminate. }
    destruct e as [|e0 e].
    { cbn [zip4]. destruct i; cbn; split; try discriminate;
        intros (_ & _ & H & _); discriminate. }
    destruct a as [|a0 a].
    { cbn [zip4]. destruct i; cbn; split; try discriminate;
        intros (_ & _ & _ & H); discriminate. }
    cbn [zip4]. destruct i as [|i]; cbn [nth_error].
    + split.
      * intros [= <- <- <- <-]. auto.
      * intros ([= <-] & [= <-] & [= <-] & [= <-]). reflexivity.
    + apply IH.
Qed.

Lemma tier_eqb_eq a b : tier_eqb a b = true <-> a = b.
Proof. unfold tier_eqb. destruct (opt_string_dec a b); split; congruence. Qed.

Lemma emit_row_last o st r : (emit_row o st r).(last_tier) = label r.
Proof.
  destruct r as [[[tier start] end_] annotation]. unfold emit_row.
  destruct (tier_eqb (last_tier st) tier) eqn:E; cbn [negb orb].
  - destruct (is_none (last_tier st)); cbn [last_tier label]; [reflexivity|].
    now apply tier_eqb_eq.
  - reflexivity.
Qed.

Lemma last_tier_fold o rows st :
  (fold_left (emit_row o) rows st).(last_tier)
  = fold_left (fun _ r => label r) rows st.(last_tier).
Proof.
  revert st. induction rows as [|r rows IH]; intros st; cbn [fold_left]; [reflexivity|].
  now rewrite IH, emit_row_last.
Qed.

Lemma zip4_labels t s e a :
  List.length t = List.length s -> List.length t = List.length e ->
  List.length t = List.length a ->
  map label (zip4 t s e a) = t.
Proof.
  revert s e a. induction t as [|t0 t IH]; intros s e a; [reflexivity|].
  destruct s as [|s0 s]; [discriminate|]. destruct e as [|e0 e]; [discriminate|].
  destruct a as [|a0 a]; [discriminate|]. cbn [zip4 map label List.length].
  intros [= H1] [= H2] [= H3]. now rewrite IH.
Qed.

Lemma filter_map_length {A B : Type} (f : A -> B) (p : B -> bool) (l : list A) :
  List.length (filter p (map f l)) = List.length (filter (fun x => p (f x)) l).
Proof.
  induction l as [|x l IH]; cbn [map filter]; [reflexivity|].
  destruct (p (f x)); cbn [List.length]; now rewrite IH.
Qed.

(** With columns of one length the size of line 203 counts the rows. *)
Lemma tier_size_counts_rows (o : TextGrid) (tier : option string) :
  List.length o.(content_tier) = List.length o.(content_start) ->
  List.length o.(content_tier) = List.length o.(content_end) ->
  List.length o.(content_tier) = List.length o.(content_annotation) ->
  tier_size_of o tier = Z.of_nat (count_label (rows_of o) tier).
Proof.
  intros H1 H2 H3. unfold tier_size_of, count_label, rows_of.
  rewrite <- (zip4_labels _ _ _ _ H1 H2 H3) at 1.
  now rewrite filter_map_length.
Qed.

(** C5.  For the three example rows the text is the header, the tier
    block of [phones] with size 2 and its intervals 1 and 2, then the
    tier block of [words] with size 1 and its interval 1.  In general, at
    a row whose label differs from the label before it (or at the first
    row) the loop writes a tier block whose size is the number of rows
    with that label in the whole sequence of rows, numbers the interval
    1 and moves to the next tier index; at any other row it writes the
    interval alone under the next interval index. *)
Theorem C5_tier_blocks :
  (forall o : TextGrid,
     cols o = example_columns ->
     textgrid_text o
     = header_text o
       ++ tier_text o 1 (Some "phones") 2
       ++ interval_text 1 f_0_0 f_0_5 "sil"
       ++ interval_text 2 f_0_5 f_1_0 "k"
       ++ tier_text o 2 (Some "words") 1
       ++ interval_text 1 f_0_0 f_1_0 "cat")
  /\ (forall (o : TextGrid) (pre post : list row) tier start end_ annotation,
        List.length o.(content_tier) = List.length o.(content_start) ->
        List.length o.(content_tier) = List.length o.(content_end) ->
        List.length o.(content_tier) = List.length o.(content_annotation) ->
        rows_of o = (pre ++ (tier, start, end_, annotation) :: post)%list ->
        let st := fold_left (emit_row o) pre (start_state o) in
        let st' := emit_row o st (tier, start, end_, annotation) in
        if changes (last_label pre) tier
        then st'.(text)
             = st.(text)
               ++ tier_text o st.(tier_idx) tier
                    (Z.of_nat (count_label
                                 (pre ++ (tier, start, end_, annotation) :: post)
                                 tier))
               ++ interval_text 1 start end_ annotation
             /\ st'.(tier_idx) = st.(tier_idx) + 1
             /\ st'.(interval_idx) = 2
        else st'.(text)
             = st.(text) ++ interval_text st.(interval_idx) start end_ annotation
             /\ st'.(tier_idx) = st.(tier_idx)
             /\ st'.(interval_idx) = st.(interval_idx) + 1).
Proof.
  split.
  - intros o Ho. rewrite textgrid_text_pieces. unfold rows_of.
    unfold cols, example_columns in Ho. injection Ho as Ht Hs He Ha.
    assert (Hp : tier_size_of o (Some "phones") = 2)
      by (unfold tier_size_of; now rewrite Ht).
    assert (Hw : tier_size_of o (Some "words") = 1)
      by (unfold tier_size_of; now rewrite Ht).
    rewrite Ht, Hs, He, Ha.
    cbn [zip4 pieces piece start_state emit_row changes last_tier tier_idx
         interval_idx text join fold_right].
    change (changes None (Some "phones")) with true.
    change (changes (Some "phones") (Some "phones")) with false.
    change (changes (Some "phones") (Some "words")) with true.
    cbv iota. rewrite Hp, Hw. change (1 + 1) with 2.
    now rewrite !append_assoc, append_empty_r.
  - intros o pre post tier start end_ annotation H1 H2 H3 Hrows st st'.
    assert (Hlast : st.(last_tier) = last_label pre)
      by (unfold st; now rewrite last_tier_fold).
    pose proof (emit_row_text o st (tier, start, end_, annotation)) as Htext.
    fold st' in Htext. unfold piece in Htext. rewrite Hlast in Htext.
    rewrite (tier_size_counts_rows o tier H1 H2 H3), Hrows in Htext.
    assert (Hidx : st'.(tier_idx)
                   = (if changes (last_label pre) tier
                      then st.(tier_idx) + 1 else st.(tier_idx))
                   /\ st'.(interval_idx)
                      = (if changes (last_label pre) tier
                         then 2 else st.(interval_idx) + 1)).
    { unfold st', emit_row.
      change (negb (tier_eqb (last_tier st) tier) || is_none (last_tier st))
        with (changes (last_tier st) tier).
      rewrite Hlast. now destruct (changes (last_label pre) tier). }
    destruct (changes (last_label pre) tier); tauto.
Qed.

(** ** Reading back what the serializer wrote *)

Lemma str_nat_digits_first d : first_is is_digit (str_nat_digits d) = true.
Proof.
  unfold str_nat_digits, NilZero.string_of_uint.
  destruct (N.to_uint (Z.to_N d)); reflexivity.
Qed.

Lemma format_short_first d p : first_is is_digit (format_short d p) = true.
Proof.
  unfold format_short. pose proof (str_nat_digits_first d) as H.
  destruct (str_nat_digits d) as [|c ds]; [discriminate|].
  cbn [first_is] in H.
  destruct ((Z.of_nat (String.length (String c ds)) + p <=? -4)
            || (16 <? Z.of_nat (String.length (String c ds)) + p)).
  - cbn [take append first_is]. exact H.
  - destruct (Z.of_nat (String.length (String c ds)) + p <=? 0) eqn:E0;
      [reflexivity|].
    destruct (Z.of_nat (String.length (String c ds))
              <=? Z.of_nat (String.length (String c ds)) + p);
      [exact H|].
    apply Z.leb_gt in E0.
    destruct (Z.to_nat (Z.of_nat (String.length (String c ds)) + p)) eqn:En;
      [lia|].
    cbn [take append first_is]. exact H.
Qed.

Lemma digit_not_equals c : is_digit c = true -> Ascii.eqb "=" c = false.
Proof.
  intros H. destruct (Ascii.eqb_spec "=" c) as [<-|]; [discriminate|reflexivity].
Qed.

Lemma first_digit_not_equals s :
  first_is is_digit s = true -> first_is (Ascii.eqb "=") s = false.
Proof. destruct s as [|c s]; [discriminate|]. apply digit_not_equals. Qed.

(** The text of a float never starts with the equals sign. *)
Lemma fmt_float_first (v : option float) :
  first_is (Ascii.eqb "=") (fmt_float v) = false.
Proof.
  destruct v as [x|]; [|reflexivity]. destruct x as [s|s| |s m e]; cbn [fmt_float str_float].
  - now destruct s.
  - now destruct s.
  - reflexivity.
  - destruct (shortest _ _ _ _ _ _) as [d p].
    destruct (strip_zeros 400 d p) as [d' p'].
    destruct s; [reflexivity|].
    cbn [append]. apply first_digit_not_equals, format_short_first.
Qed.

(** A line that is a key, one space and a text that does not start with
    the equals sign is not matched by the header pattern of that key. *)
Lemma header_pattern_needs_equals (key s : string) :
  first_is (Ascii.eqb "=") s = false ->
  re_match
    (cat [lit key; ws; lit "="; ws;
          group [Plus Digit; One (Lit "."); Plus Digit]])
    (key ++ " " ++ s) = None.
Proof.
  intros Hs. unfold re_match.
  change (cat [lit key; ws; lit "="; ws;
               group [Plus Digit; One (Lit "."); Plus Digit]])
    with (lit key
            ++ cat [ws; lit "="; ws;
                    group [Plus Digit; One (Lit "."); Plus Digit]])%list.
  rewrite run_lit, starts_app, drop_app.
  cbn [cat List.concat ws lit group app run append accepts keep].
  change (is_space " ") with true. cbv iota.
  destruct s as [|c s]; [reflexivity|]. cbn [first_is] in Hs. now rewrite Hs.
Qed.

(** ** The lines of the serialized text *)

Lemma unlines_app (a b : list string) : unlines (a ++ b) = unlines a ++ unlines b.
Proof.
  induction a as [|l a IH]; cbn [unlines fold_right app append]; [reflexivity|].
  fold (unlines (a ++ b)). fold (unlines a). rewrite IH.
  now rewrite !append_assoc.
Qed.

Lemma header_text_lines o : header_text o = unlines (header_lines o).
Proof.
  unfold header_text, header_lines, unlines. cbn [fold_right].
  now rewrite !append_assoc, append_empty_r.
Qed.

Lemma tier_text_lines o k tier size :
  tier_text o k tier size = unlines (tier_lines o k tier size).
Proof.
  unfold tier_text, tier_lines, unlines. cbn [fold_right].
  now rewrite !append_assoc, append_empty_r.
Qed.

Lemma interval_text_lines k s e a :
  interval_text k s e a = unlines (interval_lines k s e a).
Proof.
  unfold interval_text, interval_lines, unlines. cbn [fold_right].
  now rewrite !append_assoc, append_empty_r.
Qed.

Lemma piece_text_lines o st r : piece o st r = unlines (piece_lines o st r).
Proof.
  destruct r as [[[tier start] end_] annotation]. unfold piece, piece_lines.
  destruct (changes (last_tier st) tier).
  - now rewrite unlines_app, tier_text_lines, interval_text_lines.
  - apply interval_text_lines.
Qed.

Lemma body_text_lines o rows st :
  join (pieces o st rows) = unlines (body_lines o st rows).
Proof.
  revert st. induction rows as [|r rows IH]; intros st; [reflexivity|].
  cbn [pieces body_lines join fold_right]. fold (join (pieces o (emit_row o st r) rows)).
  now rewrite unlines_app, IH, piece_text_lines.
Qed.

(** The text is its lines, each followed by a newline. *)
Lemma textgrid_text_lines o : textgrid_text o = unlines (text_lines o).
Proof.
  rewrite textgrid_text_pieces. unfold text_lines.
  now rewrite unlines_app, header_text_lines, body_text_lines.
Qed.

Lemma all_chars_app p a b :
  all_chars p (a ++ b) = all_chars p a && all_chars p b.
Proof.
  induction a as [|c a IH]; cbn [append all_chars]; [reflexivity|].
  now rewrite IH, andb_assoc.
Qed.

Lemma splitlines_line (l rest : string) :
  clean l = true -> splitlines (l ++ nl ++ rest) = l :: splitlines rest.
Proof.
  unfold clean. induction l as [|c l IH]; cbn [append all_chars]; intros H.
  - reflexivity.
  - apply andb_true_iff in H. destruct H as [Hc Hl].
    cbn [splitlines]. unfold no_break in Hc. apply negb_true_iff in Hc.
    rewrite Hc. now rewrite (IH Hl).
Qed.

Lemma splitlines_unlines (ls : list string) :
  forallb clean ls = true -> splitlines (unlines ls) = ls.
Proof.
  induction ls as [|l ls IH]; cbn [forallb unlines fold_right]; [reflexivity|].
  intros H. apply andb_true_iff in H. destruct H as [Hl Hls].
  fold (unlines ls). now rewrite splitlines_line, IH.
Qed.

(** ** Texts without a line boundary *)

Lemma all_chars_impl (p p' : ascii -> bool) (s : string) :
  (forall c, p c = true -> p' c = true) ->
  all_chars p s = true -> all_chars p' s = true.
Proof.
  intros Hp. induction s as [|c s IH]; cbn [all_chars]; [reflexivity|].
  intros H. apply andb_true_iff in H. destruct H as [Hc Hs].
  now rewrite (Hp _ Hc), IH.
Qed.

Lemma digit_no_break c : is_digit c = true -> no_break c = true.
Proof.
  unfold is_digit, no_break, is_linebreak. intros H.
  apply andb_true_iff in H. destruct H as [H1 H2]. apply N.leb_le in H1, H2.
  apply negb_true_iff.
  repeat (apply orb_false_iff; split); try (apply N.eqb_neq; lia);
    apply andb_false_iff; right; apply N.leb_gt; lia.
Qed.

Lemma digits_clean s : all_chars is_digit s = true -> clean s = true.
Proof. apply all_chars_impl. exact digit_no_break. Qed.

Lemma uint_digits u : all_chars is_digit (NilEmpty.string_of_uint u) = true.
Proof. induction u; cbn [NilEmpty.string_of_uint all_chars]; auto. Qed.

Lemma str_nat_digits_digits d : all_chars is_digit (str_nat_digits d) = true.
Proof.
  unfold str_nat_digits, NilZero.string_of_uint.
  destruct (N.to_uint (Z.to_N d)) eqn:E; try reflexivity; rewrite <- E;
    apply uint_digits.
Qed.

Lemma str_int_clean n : clean (str_int n) = true.
Proof.
  unfold str_int, NilZero.string_of_int.
  destruct (Z.to_int n) as [d|d].
  - apply digits_clean. unfold NilZero.string_of_uint.
    destruct d; try reflexivity; apply uint_digits.
  - unfold clean. cbn [all_chars]. apply andb_true_iff. split; [reflexivity|].
    apply digits_clean. unfold NilZero.string_of_uint.
    destruct d; try reflexivity; apply uint_digits.
Qed.

Lemma all_chars_take p n s : all_chars p s = true -> all_chars p (take n s) = true.
Proof.
  revert s. induction n as [|n IH]; intros [|c s]; cbn [take all_chars]; auto.
  intros H. apply andb_true_iff in H. destruct H as [-> H]. now apply IH.
Qed.

Lemma all_chars_drop p n s : all_chars p s = true -> all_chars p (drop n s) = true.
Proof.
  revert s. induction n as [|n IH]; intros [|c s]; cbn [drop all_chars]; auto.
  intros H. apply andb_true_iff in H. destruct H as [_ H]. now apply IH.
Qed.

Lemma all_chars_repeat p c n : p c = true -> all_chars p (repeat_char c n) = true.
Proof. intros H. induction n as [|n IH]; cbn [repeat_char all_chars]; [reflexivity|now rewrite H]. Qed.

Lemma format_short_clean d p : clean (format_short d p) = true.
Proof.
  unfold format_short, clean.
  pose proof (digits_clean _ (str_nat_digits_digits d)) as Hd. unfold clean in Hd.
  pose proof (digits_clean _ (str_nat_digits_digits
                                (Z.abs (Z.of_nat (String.length (str_nat_digits d)) + p - 1))))
    as He. unfold clean in He.
  repeat match goal with
         | |- context [if ?b then _ else _] => destruct b
         end;
    rewrite ?all_chars_app, ?andb_true_iff;
    repeat split;
    try reflexivity; try exact Hd; try exact He;
    try (apply all_chars_take; exact Hd);
    try (apply all_chars_drop; exact Hd);
    try (apply all_chars_repeat; reflexivity).
Qed.

Lemma str_float_clean x : clean (str_float x) = true.
Proof.
  destruct x as [s|s| |s m e]; cbn [str_float].
  - now destruct s.
  - now destruct s.
  - reflexivity.
  - destruct (shortest _ _ _ _ _ _) as [d p].
    destruct (strip_zeros 400 d p) as [d' p'].
    unfold clean. rewrite all_chars_app. apply andb_true_iff.
    split; [now destruct s|apply format_short_clean].
Qed.

Lemma fmt_float_clean v : clean (fmt_float v) = true.
Proof. destruct v; [apply str_float_clean|reflexivity]. Qed.

Lemma fmt_int_clean v : clean (fmt_int v) = true.
Proof. destruct v; [apply str_int_clean|reflexivity]. Qed.

Lemma fmt_str_clean v : clean_opt v = true -> clean (fmt_str v) = true.
Proof. destruct v; [trivial|reflexivity]. Qed.

Lemma rows_clean t s e a :
  forallb clean_opt t = true -> forallb clean a = true ->
  forallb row_clean (zip4 t s e a) = true.
Proof.
  revert s e a. induction t as [|t0 t IH]; intros s e a; [reflexivity|].
  destruct s as [|s0 s]; [reflexivity|]. destruct e as [|e0 e]; [reflexivity|].
  destruct a as [|a0 a]; [reflexivity|]. cbn [zip4 forallb row_clean].
  intros Ht Ha. apply andb_true_iff in Ht, Ha.
  destruct Ht as [-> Ht], Ha as [-> Ha]. now rewrite IH.
Qed.

Ltac clean_line :=
  unfold clean; rewrite ?all_chars_app, ?andb_true_iff; repeat split;
  try reflexivity;
  try apply fmt_float_clean; try apply fmt_int_clean; try apply str_int_clean;
  try apply str_float_clean; try (apply fmt_str_clean; assumption);
  try assumption.

Lemma header_lines_clean o :
  clean_object o = true -> forallb clean (header_lines o) = true.
Proof.
  unfold clean_object. rewrite !andb_true_iff.
  intros ((((H1 & H2) & H3) & H4) & H5).
  unfold header_lines. cbn [forallb]. rewrite !andb_true_iff.
  repeat split; clean_line.
Qed.

Lemma tier_lines_clean o k tier size :
  clean_opt tier = true -> forallb clean (tier_lines o k tier size) = true.
Proof.
  intros H. unfold tier_lines. cbn [forallb]. rewrite !andb_true_iff.
  repeat split; clean_line.
Qed.

Lemma interval_lines_clean k s e a :
  clean a = true -> forallb clean (interval_lines k s e a) = true.
Proof.
  intros H. unfold interval_lines. cbn [forallb]. rewrite !andb_true_iff.
  repeat split; clean_line.
Qed.

Lemma body_lines_clean o rows st :
  forallb row_clean rows = true -> forallb clean (body_lines o st rows) = true.
Proof.
  revert st. induction rows as [|r rows IH]; intros st; [reflexivity|].
  cbn [forallb body_lines]. intros H. apply andb_true_iff in H.
  destruct H as [Hr Hrows]. rewrite forallb_app, (IH _ Hrows), andb_true_r.
  destruct r as [[[tier start] end_] annotation]. cbn [row_clean] in Hr.
  apply andb_true_iff in Hr. destruct Hr as [Ht Ha]. unfold piece_lines.
  destruct (changes (last_tier st) tier).
  - now rewrite forallb_app, tier_lines_clean, interval_lines_clean.
  - now apply interval_lines_clean.
Qed.

Lemma text_lines_clean o :
  clean_object o = true -> forallb clean (text_lines o) = true.
Proof.
  intros H. unfold text_lines.
  rewrite forallb_app, (header_lines_clean _ H), andb_true_l.
  apply body_lines_clean. unfold rows_of. unfold clean_object in H.
  rewrite !andb_true_iff in H. destruct H as ((((_ & _) & _) & H4) & H5).
  now apply rows_clean.
Qed.

(** The lines the loop of [_parse_textgrid] reads back are the lines
    written. *)
Lemma splitlines_textgrid_text o :
  clean_object o = true -> splitlines (textgrid_text o) = text_lines o.
Proof.
  intros H. rewrite textgrid_text_lines. apply splitlines_unlines.
  now apply text_lines_clean.
Qed.

(** ** The interval blocks of the serialized text *)

Lemma header_no_block o :
  filter block_value (header_lines o) = []
  /\ filter block_head (header_lines o) = [].
Proof. split; reflexivity. Qed.

Lemma piece_block o st r :
  filter block_value (piece_lines o st r) = value_lines r
  /\ List.length (filter block_head (piece_lines o st r)) = 1%nat.
Proof.
  destruct r as [[[tier start] end_] annotation]. unfold piece_lines.
  destruct (changes (last_tier st) tier); split; reflexivity.
Qed.

Lemma body_blocks o rows st :
  filter block_value (body_lines o st rows) = List.concat (map value_lines rows)
  /\ List.length (filter block_head (body_lines o st rows)) = List.length rows.
Proof.
  revert st. induction rows as [|r rows IH]; intros st; [split; reflexivity|].
  cbn [body_lines map List.concat List.length]. rewrite !filter_app, length_app.
  destruct (piece_block o st r) as [-> ->].
  destruct (IH (emit_row o st r)) as [-> ->]. split; reflexivity.
Qed.

Lemma zip4_firstn t :
  forall (m : nat) s e a,
    (min4 (List.length t) (List.length s) (List.length e) (List.length a) <= m)%nat ->
    zip4 t (firstn m s) (firstn m e) (firstn m a) = zip4 t s e a.
Proof.
  unfold min4. induction t as [|t0 t IH]; intros m s e a Hm; [reflexivity|].
  destruct s as [|s0 s]; [now rewrite firstn_nil|].
  destruct e as [|e0 e];
    [rewrite firstn_nil; destruct (firstn m (s0 :: s)); reflexivity|].
  destruct a as [|a0 a];
    [ rewrite firstn_nil; destruct (firstn m (s0 :: s)); [reflexivity|];
      destruct (firstn m (e0 :: e)); reflexivity|].
  cbn [List.length] in Hm. destruct m as [|m]; [lia|].
  cbn [firstn zip4]. f_equal. apply IH. lia.
Qed.

Lemma fold_emit_cut o rows :
  forall st, fold_left (emit_row (cut o)) rows st = fold_left (emit_row o) rows st.
Proof.
  induction rows as [|r rows IH]; intros st; [reflexivity|].
  cbn [fold_left]. rewrite IH. f_equal.
Qed.

Lemma textgrid_text_cut o : textgrid_text (cut o) = textgrid_text o.
Proof.
  unfold textgrid_text. rewrite fold_emit_cut.
  change (content_tier (cut o)) with (content_tier o).
  change (content_start (cut o)) with (firstn (shortest_column o) (content_start o)).
  change (content_end (cut o)) with (firstn (shortest_column o) (content_end o)).
  change (content_annotation (cut o))
    with (firstn (shortest_column o) (content_annotation o)).
  rewrite zip4_firstn by (unfold shortest_column; lia). reflexivity.
Qed.

(** C9.  The loop of [to_textgrid] walks the [zip] of the four columns:
    as many rows as the shortest column has entries, row [i] made of the
    [i]-th entry of each.  In the text it builds, the lines of four tabs
    are the three value lines of each row, in order, and nothing else;
    there are as many interval blocks as the shortest column has
    entries; and the entries of the start, end and annotation columns
    past the shortest column leave no trace in the text (those of the
    tier column are still counted in the sizes of line 203).  The loop
    has no check of the lengths.  The method does not get that far: for
    every object and path it raises at the extension test of lines
    177-183, so that no block is written at all. *)
Theorem C9_lockstep_truncation :
  forall o : TextGrid,
    List.length (rows_of o) = shortest_column o
    /\ (forall i tier start end_ annotation,
          nth_error (rows_of o) i = Some (tier, start, end_, annotation) <->
          nth_error o.(content_tier) i = Some tier
          /\ nth_error o.(content_start) i = Some start
          /\ nth_error o.(content_end) i = Some end_
          /\ nth_error o.(content_annotation) i = Some annotation)
    /\ (clean_object o = true ->
        filter block_value (splitlines (textgrid_text o))
        = List.concat (map value_lines (rows_of o))
        /\ List.length (filter block_head (splitlines (textgrid_text o)))
           = shortest_column o)
    /\ textgrid_text (cut o) = textgrid_text o
    /\ (forall path,
          to_textgrid o path = Raise (unsupported (snd (splitext path)))
          /\ forall written, to_textgrid o path <> Ok written).
Proof.
  intros o. split; [apply zip4_length|]. split; [intros; apply zip4_nth|].
  split; [|split; [apply textgrid_text_cut|]].
  - intros Hc. rewrite (splitlines_textgrid_text _ Hc). unfold text_lines.
    rewrite !filter_app, length_app.
    destruct (header_no_block o) as [-> ->].
    destruct (body_blocks o (rows_of o) (start_state o)) as [-> ->].
    split; [reflexivity|]. apply zip4_length.
  - intros path. split; [apply to_textgrid_raises|].
    intros written. rewrite to_textgrid_raises. discriminate.
Qed.

(** ** The written lines and the header patterns of the bounds *)

Lemma header_lines_no_bound o : Forall no_bound (header_lines o).
Proof.
  unfold header_lines. repeat constructor;
    try (apply (nomatch_top "xmin"); reflexivity);
    try (apply (nomatch_top "xmax"); reflexivity).
  - apply (header_pattern_needs_equals "xmin"), fmt_float_first.
  - apply (header_pattern_needs_equals "xmax"), fmt_float_first.
Qed.

Lemma body_lines_no_bound o rows st : Forall no_bound (body_lines o st rows).
Proof.
  revert st. induction rows as [|r rows IH]; intros st; [constructor|].
  cbn [body_lines]. apply Forall_app. split; [|apply IH].
  destruct r as [[[tier start] end_] annotation]. unfold piece_lines.
  destruct (changes (last_tier st) tier);
    unfold tier_lines, interval_lines; cbn [app];
    repeat constructor;
    try (apply (nomatch_top "xmin"); reflexivity);
    try (apply (nomatch_top "xmax"); reflexivity).
Qed.

Lemma text_lines_no_bound o : Forall no_bound (text_lines o).
Proof.
  unfold text_lines. apply Forall_app. split.
  - apply header_lines_no_bound.
  - apply body_lines_no_bound.
Qed.

Lemma steps_same_bounds line st st' :
  on_file_type line st = Ok st' \/ on_object_class line st = Ok st'
  \/ on_tiers line st = Ok st' \/ on_size line st = Ok st'
  \/ on_item line st = Ok st' \/ on_name line st = Ok st'
  \/ on_intervals line st = Ok st' \/ on_ixmin line st = Ok st'
  \/ on_ixmax line st = Ok st' \/ on_text line st = Ok st' ->
  same_bounds st st'.
Proof.
  unfold same_bounds.
  intros [H|[H|[H|[H|[H|[H|[H|[H|[H|H]]]]]]]]]; step_inv H; split; reflexivity.
Qed.

Lemma parse_line_same_bounds line st st' :
  no_bound line -> parse_line st line = Ok st' -> same_bounds st st'.
Proof.
  intros [Hmin Hmax] H. unfold parse_line in H.
  peel H s1 H1. peel H s2 H2. peel H s3 H3. peel H s4 H4. peel H s5 H5.
  peel H s6 H6. peel H s7 H7. peel H s8 H8. peel H s9 H9. peel H s10 H10.
  peel H s11 H11.
  rewrite (on_xmin_skip _ _ Hmin) in H3. injection H3 as <-.
  rewrite (on_xmax_skip _ _ Hmax) in H4. injection H4 as <-.
  assert (K1 : same_bounds st s1) by (apply (steps_same_bounds line); pick).
  assert (K2 : same_bounds s1 s2) by (apply (steps_same_bounds line); pick).
  assert (K5 : same_bounds s2 s5) by (apply (steps_same_bounds line); pick).
  assert (K6 : same_bounds s5 s6) by (apply (steps_same_bounds line); pick).
  assert (K7 : same_bounds s6 s7) by (apply (steps_same_bounds line); pick).
  assert (K8 : same_bounds s7 s8) by (apply (steps_same_bounds line); pick).
  assert (K9 : same_bounds s8 s9) by (apply (steps_same_bounds line); pick).
  assert (K10 : same_bounds s9 s10) by (apply (steps_same_bounds line); pick).
  assert (K11 : same_bounds s10 s11) by (apply (steps_same_bounds line); pick).
  assert (K12 : same_bounds s11 st') by (apply (steps_same_bounds line); pick).
  unfold same_bounds in *. split; intuition congruence.
Qed.

Lemma parse_lines_same_bounds lines st st' :
  Forall no_bound lines -> parse_lines st lines = Ok st' -> same_bounds st st'.
Proof.
  intros Hl. revert st. induction Hl as [|l lines Hl _ IH]; cbn [parse_lines]; intros st H.
  - injection H as <-. now split.
  - peel H st1 H1. pose proof (parse_line_same_bounds _ _ _ Hl H1) as [K1 K2].
    destruct (IH _ H) as [K3 K4]. split; congruence.
Qed.

(** Reading back a serialized object never sets a bound: the object read
    has the bounds the reader started with. *)
Lemma reread_bounds (o o' d : TextGrid) :
  clean_object o = true ->
  parse_text (textgrid_text o) o' = Ok d ->
  d.(xmin) = o'.(xmin) /\ d.(xmax) = o'.(xmax).
Proof.
  intros Hc H. unfold parse_text in H.
  rewrite (splitlines_textgrid_text _ Hc) in H. peel H st Hst.
  injection H as <-.
  exact (parse_lines_same_bounds _ _ _ (text_lines_no_bound o) Hst).
Qed.

(** ** Every object read from a text is free of line boundaries *)

Lemma star_chars p a g k s h :
  (forall t h', k t = Some h' -> all_chars p t = true -> all_chars p h' = true) ->
  star a g k s = Some h -> all_chars p s = true -> all_chars p h = true.
Proof.
  intros Hk. revert h. induction s as [|c s IH]; cbn [star]; intros h.
  - apply Hk.
  - destruct (accepts a c); [|apply Hk].
    destruct (star a g k s) as [h'|] eqn:E; cbn [keep]; [|apply Hk].
    intros [= <-]. cbn [all_chars]. intros H. apply andb_true_iff in H.
    destruct H as [Hc Hs]. specialize (IH _ eq_refl Hs).
    destruct g; cbn [all_chars]; [now rewrite Hc|exact IH].
Qed.

(** The group captures characters of the line only. *)
Lemma run_chars p r g s h :
  run r g s = Some h -> all_chars p s = true -> all_chars p h = true.
Proof.
  revert g s h. induction r as [|x r IH]; intros g s h; cbn [run].
  - now intros [= <-].
  - destruct x as [a|a|a| |].
    + destruct s as [|c s]; [discriminate|].
      destruct (accepts a c); [|discriminate].
      intros H. apply keep_some in H. destruct H as (h' & H & ->).
      cbn [all_chars]. intros Hs. apply andb_true_iff in Hs.
      destruct Hs as [Hc Hs]. specialize (IH _ _ _ H Hs).
      destruct g; cbn [all_chars]; [now rewrite Hc|exact IH].
    + apply star_chars. intros t h'. apply IH.
    + destruct s as [|c s]; [discriminate|].
      destruct (accepts a c); [|discriminate].
      intros H. apply keep_some in H. destruct H as (h' & H & ->).
      cbn [all_chars]. intros Hs. apply andb_true_iff in Hs.
      destruct Hs as [Hc Hs].
      assert (all_chars p h' = true)
        by (eapply star_chars; [|exact H|exact Hs]; intros t h''; apply IH).
      destruct g; cbn [all_chars]; [now rewrite Hc|assumption].
    + apply IH.
    + apply IH.
Qed.

Lemma match_clean r line g :
  re_match r line = Some g -> clean line = true -> clean g = true.
Proof. apply run_chars. Qed.

Lemma splitlines_clean_bounded (n : nat) (s : string) :
  (String.length s <= n)%nat -> forallb clean (splitlines s) = true.
Proof.
  revert s. induction n as [|n IH]; intros s Hn.
  - destruct s; [reflexivity|cbn [String.length] in Hn; lia].
  - destruct s as [|c s]; [reflexivity|]. cbn [String.length] in Hn.
    cbn [splitlines]. destruct (is_linebreak c) eqn:Ec.
    + cbn [forallb]. change (clean EmptyString) with true. cbn [andb].
      destruct (Ascii.eqb c CR); [|apply IH; lia].
      destruct s as [|d s]; [reflexivity|]. cbn [String.length] in Hn.
      destruct (Ascii.eqb d LF); apply IH; cbn [String.length]; lia.
    + assert (Hs : forallb clean (splitlines s) = true) by (apply IH; lia).
      destruct (splitlines s) as [|l ls]; cbn [forallb] in *.
      * unfold clean, no_break. cbn [all_chars]. now rewrite Ec.
      * apply andb_true_iff in Hs. destruct Hs as [Hl Hls].
        rewrite Hls, andb_true_r. unfold clean, no_break in *.
        cbn [all_chars]. now rewrite Ec, Hl.
Qed.

Lemma splitlines_clean (s : string) : forallb clean (splitlines s) = true.
Proof. apply (splitlines_clean_bounded (String.length s)). lia. Qed.

Lemma forallb_repeat {A : Type} (p : A -> bool) (x : A) (n : nat) :
  p x = true -> forallb p (repeat x n) = true.
Proof. intros H. induction n as [|n IH]; cbn [repeat forallb]; [reflexivity|now rewrite H]. Qed.

Lemma steps_clean line st st' :
  clean line = true -> clean_state st = true ->
  on_file_type line st = Ok st' \/ on_object_class line st = Ok st'
  \/ on_xmin line st = Ok st' \/ on_xmax line st = Ok st'
  \/ on_tiers line st = Ok st' \/ on_size line st = Ok st'
  \/ on_item line st = Ok st' \/ on_name line st = Ok st'
  \/ on_intervals line st = Ok st' \/ on_ixmin line st = Ok st'
  \/ on_ixmax line st = Ok st' \/ on_text line st = Ok st' ->
  clean_state st' = true.
Proof.
  intros Hl Hst. unfold clean_state, clean_object in *.
  rewrite !andb_true_iff in Hst.
  destruct Hst as (((((H1 & H2) & H3) & H4) & H5) & H6).
  intros [H|[H|[H|[H|[H|[H|[H|[H|[H|[H|[H|H]]]]]]]]]]];
    match type of H with
    | ?f line st = Ok st' =>
        unfold on_file_type, on_object_class, on_xmin, on_xmax, on_tiers, on_size,
        on_item, on_name, on_intervals, on_ixmin, on_ixmax, on_text in H;
        destruct (re_match _ line) as [g|] eqn:Hm;
        [ pose proof (match_clean _ _ _ Hm Hl) as Hg
        | injection H as <-; rewrite H1, H2, H3, H4, H5, H6; reflexivity ]
    end;
    repeat match type of H with
      | context [is_none ?x] => destruct (is_none x)
      | context [negb ?x] => destruct x eqn:?; cbn [negb] in H
      | context [py_float ?x] => destruct (py_float x); cbn [bind] in H
      | context [py_int ?x] => destruct (py_int x); cbn [bind] in H
      | context [match ?x with Some _ => _ | None => _ end] => destruct x eqn:?
      | context [if ?x then _ else _] => destruct x eqn:?
      end;
    try discriminate H; injection H as <-;
    cbn [self tier_name tier_header upd set_file_type set_object_class set_xmin
         set_xmax set_tiers set_n_tiers set_content_tier set_content_start
         set_content_end set_content_annotation file_type object_class tiers
         content_tier content_annotation clean_opt];
    rewrite ?forallb_app, ?forallb_repeat by assumption;
    cbn [forallb];
    rewrite ?H1, ?H2, ?H3, ?H4, ?H5, ?H6, ?Hg; reflexivity.
Qed.

Lemma parse_line_clean line st st' :
  clean line = true -> clean_state st = true ->
  parse_line st line = Ok st' -> clean_state st' = true.
Proof.
  intros Hl Hst H. unfold parse_line in H.
  peel H s1 H1. peel H s2 H2. peel H s3 H3. peel H s4 H4. peel H s5 H5.
  peel H s6 H6. peel H s7 H7. peel H s8 H8. peel H s9 H9. peel H s10 H10.
  peel H s11 H11.
  assert (K1 : clean_state s1 = true) by (apply (steps_clean line st); try assumption; pick).
  assert (K2 : clean_state s2 = true) by (apply (steps_clean line s1); try assumption; pick).
  assert (K3 : clean_state s3 = true) by (apply (steps_clean line s2); try assumption; pick).
  assert (K4 : clean_state s4 = true) by (apply (steps_clean line s3); try assumption; pick).
  assert (K5 : clean_state s5 = true) by (apply (steps_clean line s4); try assumption; pick).
  assert (K6 : clean_state s6 = true) by (apply (steps_clean line s5); try assumption; pick).
  assert (K7 : clean_state s7 = true) by (apply (steps_clean line s6); try assumption; pick).
  assert (K8 : clean_state s8 = true) by (apply (steps_clean line s7); try assumption; pick).
  assert (K9 : clean_state s9 = true) by (apply (steps_clean line s8); try assumption; pick).
  assert (K10 : clean_state s10 = true) by (apply (steps_clean line s9); try assumption; pick).
  assert (K11 : clean_state s11 = true) by (apply (steps_clean line s10); try assumption; pick).
  apply (steps_clean line s11); try assumption; pick.
Qed.

Lemma parse_lines_clean lines st st' :
  forallb clean lines = true -> clean_state st = true ->
  parse_lines st lines = Ok st' -> clean_state st' = true.
Proof.
  revert st. induction lines as [|l lines IH]; cbn [forallb parse_lines]; intros st Hl Hst H.
  - now injection H as <-.
  - apply andb_true_iff in Hl. destruct Hl as [Hl Hls]. peel H st1 H1.
    apply (IH st1); [exact Hls| |exact H].
    exact (parse_line_clean _ _ _ Hl Hst H1).
Qed.

(** What [_parse_textgrid] stores comes out of lines of [splitlines]. *)
Lemma parse_text_clean text o d :
  clean_object o = true -> parse_text text o = Ok d -> clean_object d = true.
Proof.
  intros Ho H. unfold parse_text in H. peel H st Hst. injection H as <-.
  assert (Hc : clean_state st = true).
  { apply (parse_lines_clean _ _ _ (splitlines_clean text)) in Hst; [exact Hst|].
    unfold clean_state. cbn [self tier_name clean_opt]. now rewrite Ho. }
  unfold clean_state in Hc. apply andb_true_iff in Hc. destruct Hc as [Hc _].
  exact Hc.
Qed.

(** C1.  The round trip does not give the header back.  The serializer
    writes the two bounds of the header without the equals sign (lines
    190 and 191), and the parser's patterns of lines 64 and 69 need it.
    So, whatever text was read: when its serialization is read again by
    a fresh object, both bounds stay [None], and a bound the first
    reading had set is lost. *)
Theorem C1_round_trip_loses_bounds :
  forall (text path : string) (o d0 d1 : TextGrid),
    clean_object o = true ->
    parse_text text o = Ok d0 ->
    parse_text (textgrid_text d0) (blank path) = Ok d1 ->
    d1.(xmin) = None /\ d1.(xmax) = None
    /\ (d0.(xmin) <> None -> d1.(xmin) <> d0.(xmin))
    /\ (d0.(xmax) <> None -> d1.(xmax) <> d0.(xmax)).
Proof.
  intros text path o d0 d1 Ho H0 H1.
  pose proof (parse_text_clean _ _ _ Ho H0) as Hc.
  destruct (reread_bounds _ _ _ Hc H1) as [Hmin Hmax]. cbn [blank xmin xmax] in *.
  repeat split; try assumption; congruence.
Qed.

(** * Further properties of the parser and the serializer *)

(** ** What the loop can raise *)

Lemma star_inv a k s h :
  star a true k s = Some h ->
  exists ds rest h',
    s = ds ++ rest /\ all_chars (accepts a) ds = true
    /\ k rest = Some h' /\ h = ds ++ h'.
Proof.
  revert h. induction s as [|c s IH]; cbn [star]; intros h H.
  - exists EmptyString, EmptyString, h. auto.
  - destruct (accepts a c) eqn:Ec.
    + destruct (star a true k s) as [h1|] eqn:E1; cbn [keep] in H.
      * injection H as <-. destruct (IH _ eq_refl) as (ds & rest & h' & -> & Hds & Hk & ->).
        exists (String c ds), rest, h'. cbn [append all_chars]. rewrite Ec, Hds. auto.
      * exists EmptyString, (String c s), h. auto.
    + exists EmptyString, (String c s), h. auto.
Qed.

Lemma span_digits_app ds rest :
  all_chars is_digit ds = true -> first_is is_digit rest = false ->
  span_digits (ds ++ rest) = (ds, rest).
Proof.
  intros Hd Hr. induction ds as [|c ds IH]; cbn [append span_digits all_chars] in *.
  - destruct rest as [|c rest]; [reflexivity|]. cbn [first_is span_digits] in *.
    now rewrite Hr.
  - apply andb_true_iff in Hd. destruct Hd as [Hc Hd]. now rewrite Hc, (IH Hd).
Qed.

(** [float] accepts digits, a dot, digits. *)
Lemma py_float_decimal ds fs :
  is_empty ds = false -> all_chars is_digit ds = true ->
  all_chars is_digit fs = true ->
  py_float (ds ++ "." ++ fs)
  = Ok (round_decimal (int_acc 0 (ds ++ fs)) (- Z.of_nat (String.length fs))).
Proof.
  intros Hne Hd Hf. unfold py_float.
  rewrite (span_digits_app ds ("." ++ fs) Hd eq_refl). cbn [append].
  rewrite Ascii.eqb_refl, Hf, Hne. reflexivity.
Qed.

(** What the group of the header patterns of the bounds captures. *)
Lemma group_decimal (r : regex) (s h : string) :
  no_group r = true ->
  run (GOpen :: Plus Digit :: One (Lit ".") :: Plus Digit :: GClose :: r) false s
  = Some h ->
  exists ds fs,
    h = ds ++ "." ++ fs /\ is_empty ds = false /\ all_chars is_digit ds = true
    /\ is_empty fs = false /\ all_chars is_digit fs = true.
Proof.
  intros Hr. cbn [run]. destruct s as [|c s]; [discriminate|].
  destruct (accepts Digit c) eqn:Ec; [|discriminate].
  intros H. apply keep_some in H. destruct H as (h1 & H & ->).
  apply star_inv in H. destruct H as (ds & rest & h2 & -> & Hds & H & ->).
  cbn [run] in H. destruct rest as [|d rest]; [discriminate|].
  destruct (accepts (Lit ".") d) eqn:Ed; [|discriminate].
  cbn [accepts] in Ed. apply Ascii.eqb_eq in Ed. subst d.
  apply keep_some in H. destruct H as (h3 & H & ->).
  destruct rest as [|e rest]; [discriminate|].
  destruct (accepts Digit e) eqn:Ee; [|discriminate].
  apply keep_some in H. destruct H as (h4 & H & ->).
  apply star_inv in H. destruct H as (fs & rest' & h5 & -> & Hfs & H & ->).
  cbn [run] in H. rewrite (run_after_group r Hr _ _ H), append_empty_r.
  exists (String c ds), (String e fs).
  split; [reflexivity|]. split; [reflexivity|].
  split; [cbn [all_chars]; apply andb_true_iff; split; [exact Ec|exact Hds]|].
  split; [reflexivity|].
  cbn [all_chars]. apply andb_true_iff. split; [exact Ee|exact Hfs].
Qed.

Lemma bound_capture (key line g : string) :
  re_match (cat [lit key; ws; lit "="; ws;
                 group [Plus Digit; One (Lit "."); Plus Digit]]) line = Some g ->
  exists x, py_float g = Ok x.
Proof.
  intros H.
  assert (exists ds fs,
            g = ds ++ "." ++ fs /\ is_empty ds = false /\ all_chars is_digit ds = true
            /\ is_empty fs = false /\ all_chars is_digit fs = true)
    as (ds & fs & -> & H1 & H2 & H3 & H4).
  { apply (run_before_group
             (fun h => exists ds fs,
                  h = ds ++ "." ++ fs /\ is_empty ds = false
                  /\ all_chars is_digit ds = true
                  /\ is_empty fs = false /\ all_chars is_digit fs = true)
             (cat [lit key; ws; lit "="; ws])
             (group [Plus Digit; One (Lit "."); Plus Digit])) with (s := line).
    - clear. induction key as [|c key IH]; [reflexivity|exact IH].
    - intros t h. apply (group_decimal []). reflexivity.
    - unfold re_match in H. unfold cat in *. cbn [List.concat] in *.
      rewrite app_nil_r. rewrite <- !app_assoc in *. exact H. }
  eexists. now apply py_float_decimal.
Qed.

Lemma bind_raise_inv {A B : Type} (m : result A) (k : A -> result B) (e : exn) :
  (x <- m ;; k x) = Raise e ->
  m = Raise e \/ exists x, m = Ok x /\ k x = Raise e.
Proof. destruct m as [x|e']; cbn [bind]; [eauto|intros [= <-]; now left]. Qed.

Lemma on_file_type_ok line st : exists st', on_file_type line st = Ok st'.
Proof. unfold on_file_type. destruct (re_match _ _); eauto. Qed.

Lemma on_object_class_ok line st : exists st', on_object_class line st = Ok st'.
Proof. unfold on_object_class. destruct (re_match _ _); eauto. Qed.

Lemma on_xmin_ok line st : exists st', on_xmin line st = Ok st'.
Proof.
  unfold on_xmin. destruct (re_match re_xmin line) as [g|] eqn:E; [|eauto].
  destruct (is_none (tier_name st)); [|eauto].
  destruct (bound_capture "xmin" _ _ E) as [x ->]. cbn [bind]. eauto.
Qed.

Lemma on_xmax_ok line st : exists st', on_xmax line st = Ok st'.
Proof.
  unfold on_xmax. destruct (re_match re_xmax line) as [g|] eqn:E; [|eauto].
  destruct (is_none (tier_name st)); [|eauto].
  destruct (bound_capture "xmax" _ _ E) as [x ->]. cbn [bind]. eauto.
Qed.

Lemma on_tiers_ok line st : exists st', on_tiers line st = Ok st'.
Proof. unfold on_tiers. destruct (re_match _ _); eauto. Qed.

Lemma py_int_raises (g : string) (e : exn) :
  is_empty g = false -> all_chars is_digit g = true ->
  py_int g = Raise e -> digits_error g e.
Proof.
  intros H1 H2. rewrite (py_int_digits _ H1 H2). unfold digits_error.
  destruct (digits_of g <=? int_max_str_digits) eqn:E; [discriminate|].
  apply Z.leb_gt in E. intros [= <-]. auto.
Qed.

Lemma on_size_raises line st e :
  on_size line st = Raise e -> size_error line e.
Proof.
  unfold on_size, size_error.
  destruct (re_match re_size line) as [g|] eqn:E; [|discriminate].
  destruct (size_capture _ _ E) as (H1 & H2 & _).
  destruct (py_int g) as [n|e'] eqn:Ei; cbn [bind]; [discriminate|].
  intros [= <-]. exists g. split; [reflexivity|]. now apply py_int_raises.
Qed.

Lemma on_name_ok line st : exists st', on_name line st = Ok st'.
Proof. unfold on_name. destruct (re_match _ _); eauto. Qed.

Lemma on_intervals_raises line st e :
  on_intervals line st = Raise e -> intervals_error line e.
Proof.
  unfold on_intervals, intervals_error.
  destruct (re_match re_intervals line) as [g|] eqn:E; [|discriminate].
  destruct (intervals_capture _ _ E) as (H1 & H2 & _).
  destruct (py_int g) as [n|e'] eqn:Ei; cbn [bind].
  - intros H. exists g. split; [reflexivity|]. right. exists n.
    split; [exact Ei|].
    destruct (sys_maxsize <? n) eqn:Eb.
    + apply Z.ltb_lt in Eb. injection H as <-. now left.
    + apply Z.ltb_ge in Eb. destruct (capacity <? n) eqn:Ec; [|discriminate].
      apply Z.ltb_lt in Ec. injection H as <-. now right.
  - intros [= <-]. exists g. split; [reflexivity|]. left. now apply py_int_raises.
Qed.

Lemma on_text_ok line st : exists st', on_text line st = Ok st'.
Proof.
  unfold on_text. destruct (re_match _ _); [|eauto].
  destruct (negb (tier_header st)); eauto.
Qed.

Lemma on_item_raises line st e :
  on_item line st = Raise e -> item_error line e.
Proof.
  unfold on_item, item_error. destruct (re_match re_item line) as [g|] eqn:E; [|discriminate].
  destruct (item_capture _ _ E) as (H1 & H2 & _).
  destruct (py_int g) as [N|e'] eqn:Ei; cbn [bind].
  - intros H. exists g. split; [reflexivity|]. right.
    destruct (n_tiers (self st)) as [n|]; [|injection H as <-; now left].
    destruct (n <=? N - 1) eqn:Ec; [|discriminate].
    injection H as <-. right. exists n, N. apply Z.leb_le in Ec. auto.
  - intros [= <-]. exists g. split; [reflexivity|]. left. now apply py_int_raises.
Qed.

Lemma on_ixmin_raises line st e :
  on_ixmin line st = Raise e -> float_error line e.
Proof.
  unfold on_ixmin, float_error. destruct (re_match re_ixmin line) as [g|] eqn:E; [|discriminate].
  destruct (negb (tier_header st)); [|discriminate].
  destruct (py_float g) as [x|e'] eqn:Ef; cbn [bind]; [discriminate|].
  intros [= <-]. exists g. auto.
Qed.

Lemma on_ixmax_raises line st e :
  on_ixmax line st = Raise e -> float_error line e.
Proof.
  unfold on_ixmax, float_error. destruct (re_match re_ixmax line) as [g|] eqn:E; [|discriminate].
  destruct (negb (tier_header st)); [|discriminate].
  destruct (py_float g) as [x|e'] eqn:Ef; cbn [bind]; [discriminate|].
  intros [= <-]. exists g. auto.
Qed.

Ltac never_raises H lem :=
  let st' := fresh "st" in
  let E := fresh "E" in
  match type of H with
  | bind (?f ?line ?st) _ = Raise _ =>
      destruct (lem line st) as [st' E]; rewrite E in H; cbn [bind] in H
  end.

Lemma parse_line_raises line st e :
  parse_line st line = Raise e ->
  size_error line e \/ item_error line e \/ intervals_error line e
  \/ float_error line e.
Proof.
  unfold parse_line. intros H.
  never_raises H on_file_type_ok. never_raises H on_object_class_ok.
  never_raises H on_xmin_ok. never_raises H on_xmax_ok.
  never_raises H on_tiers_ok.
  apply bind_raise_inv in H. destruct H as [H|(s6 & _ & H)];
    [left; exact (on_size_raises _ _ _ H)|].
  apply bind_raise_inv in H. destruct H as [H|(s7 & _ & H)];
    [right; left; exact (on_item_raises _ _ _ H)|].
  never_raises H on_name_ok.
  apply bind_raise_inv in H. destruct H as [H|(s9 & _ & H)];
    [right; right; left; exact (on_intervals_raises _ _ _ H)|].
  apply bind_raise_inv in H. destruct H as [H|(s10 & _ & H)];
    [right; right; right; exact (on_ixmin_raises _ _ _ H)|].
  apply bind_raise_inv in H. destruct H as [H|(s11 & _ & H)];
    [right; right; right; exact (on_ixmax_raises _ _ _ H)|].
  destruct (on_text_ok line s11) as [s12 E12]. rewrite E12 in H. discriminate.
Qed.



(** ** Lines that do not start with white space *)

Lemma top_line_not_indented w line :
  first_is is_space line = false -> indented w line = false.
Proof. unfold indented. now intros ->. Qed.

Lemma steps_same_tier line st st' :
  on_file_type line st = Ok st' \/ on_object_class line st = Ok st'
  \/ on_xmin line st = Ok st' \/ on_xmax line st = Ok st'
  \/ on_tiers line st = Ok st' \/ on_size line st = Ok st' ->
  same_tier st st'.
Proof.
  unfold same_tier.
  intros [H|[H|[H|[H|[H|H]]]]]; step_inv H; repeat split.
Qed.

Lemma same_tier_trans a b c : same_tier a b -> same_tier b c -> same_tier a c.
Proof. unfold same_tier. intros (H1 & H2 & H3) (H4 & H5 & H6). repeat split; congruence. Qed.

(** A line that does not start with white space (a header line, an empty
    line) changes neither the tier-header flag, nor the current tier
    name, nor any of the four columns, and stops the loop in one case
    only: a [size = N] line whose number has more than 4300 digits,
    which [int] refuses at line 81. *)
Theorem header_line_is_safe :
  forall (st : pstate) (line : string),
    first_is is_space line = false ->
    (forall g, re_match re_size line = Some g ->
               int_max_str_digits < digits_of g ->
               parse_line st line = Raise (int_too_long g))
    /\ ((forall g, re_match re_size line = Some g ->
                   digits_of g <= int_max_str_digits) ->
        exists st',
          parse_line st line = Ok st' /\ same_tier st st').
Proof.
  intros st line Hl. split.
  - intros g Hm Hlong. unfold parse_line.
    destruct (on_file_type_ok line st) as [s1 ->]. cbn [bind].
    destruct (on_object_class_ok line s1) as [s2 ->]. cbn [bind].
    destruct (on_xmin_ok line s2) as [s3 ->]. cbn [bind].
    destruct (on_xmax_ok line s3) as [s4 ->]. cbn [bind].
    destruct (on_tiers_ok line s4) as [s5 ->]. cbn [bind].
    unfold on_size at 1. rewrite Hm.
    destruct (size_capture _ _ Hm) as (H1 & H2 & _).
    now rewrite (py_int_long _ H1 H2 Hlong).
  - intros Hshort.
    destruct (parse_line st line) as [st'|e] eqn:E.
    + exists st'. split; [reflexivity|]. unfold parse_line in E.
      peel E s1 H1. peel E s2 H2. peel E s3 H3. peel E s4 H4. peel E s5 H5.
      peel E s6 H6. peel E s7 H7. peel E s8 H8. peel E s9 H9. peel E s10 H10.
      peel E s11 H11.
      rewrite on_item_skip in H7 by (apply item_skip; now apply top_line_not_indented).
      rewrite on_name_skip in H8 by (apply name_skip; now apply top_line_not_indented).
      rewrite on_intervals_skip in H9
        by (apply intervals_skip; now apply top_line_not_indented).
      rewrite on_ixmin_skip in H10 by (apply ixmin_skip; now apply top_line_not_indented).
      rewrite on_ixmax_skip in H11 by (apply ixmax_skip; now apply top_line_not_indented).
      rewrite on_text_skip in E by (apply text_skip; now apply top_line_not_indented).
      injection H7 as <-. injection H8 as <-. injection H9 as <-.
      injection H10 as <-. injection H11 as <-. injection E as <-.
      apply (same_tier_trans st s1); [apply (steps_same_tier line); pick|].
      apply (same_tier_trans s1 s2); [apply (steps_same_tier line); pick|].
      apply (same_tier_trans s2 s3); [apply (steps_same_tier line); pick|].
      apply (same_tier_trans s3 s4); [apply (steps_same_tier line); pick|].
      apply (same_tier_trans s4 s5); [apply (steps_same_tier line); pick|].
      apply (steps_same_tier line); pick.
    + exfalso.
      destruct (parse_line_raises _ _ _ E)
        as [(g & Hm & Hlong & _)|[(g & Hm & _)|[(g & Hm & _)|(g & [Hm|Hm] & _)]]].
      * specialize (Hshort g Hm). lia.
      * rewrite item_skip in Hm by now apply top_line_not_indented. discriminate.
      * rewrite intervals_skip in Hm by now apply top_line_not_indented. discriminate.
      * rewrite ixmin_skip in Hm by now apply top_line_not_indented. discriminate.
      * rewrite ixmax_skip in Hm by now apply top_line_not_indented. discriminate.
Qed.

(** ** The bounds of the header and the first tier name *)

Lemma steps_keep_name line st st' :
  on_file_type line st = Ok st' \/ on_object_class line st = Ok st'
  \/ on_xmin line st = Ok st' \/ on_xmax line st = Ok st'
  \/ on_tiers line st = Ok st' \/ on_size line st = Ok st'
  \/ on_item line st = Ok st' \/ on_name line st = Ok st'
  \/ on_intervals line st = Ok st' \/ on_ixmin line st = Ok st'
  \/ on_ixmax line st = Ok st' \/ on_text line st = Ok st' ->
  st.(tier_name) <> None ->
  st'.(tier_name) <> None /\ same_bounds st st'.
Proof.
  unfold same_bounds.
  intros [H|[H|[H|[H|[H|[H|[H|[H|[H|[H|[H|H]]]]]]]]]]] Hn;
    match type of H with
    | ?f line st = Ok st' =>
        unfold on_file_type, on_object_class, on_xmin, on_xmax, on_tiers, on_size,
        on_item, on_name, on_intervals, on_ixmin, on_ixmax, on_text in H;
        destruct (re_match _ line) as [g|];
        [|injection H as <-; auto]
    end;
    repeat match type of H with
      | context [is_none ?x] => destruct x eqn:?; cbn [is_none] in H
      | context [negb ?x] => destruct x eqn:?; cbn [negb] in H
      | context [py_float ?x] => destruct (py_float x); cbn [bind] in H
      | context [py_int ?x] => destruct (py_int x); cbn [bind] in H
      | context [match ?x with Some _ => _ | None => _ end] => destruct x eqn:?
      | context [if ?x then _ else _] => destruct x eqn:?
      end;
    try discriminate H; try congruence;
    injection H as <-; cbn; repeat split; congruence.
Qed.

Lemma parse_line_keep_name line st st' :
  st.(tier_name) <> None -> parse_line st line = Ok st' ->
  st'.(tier_name) <> None /\ same_bounds st st'.
Proof.
  intros Hn H. unfold parse_line in H.
  peel H s1 H1. peel H s2 H2. peel H s3 H3. peel H s4 H4. peel H s5 H5.
  peel H s6 H6. peel H s7 H7. peel H s8 H8. peel H s9 H9. peel H s10 H10.
  peel H s11 H11.
  destruct (steps_keep_name line st s1 ltac:(pick) Hn) as [N1 [A1 B1]].
  destruct (steps_keep_name line s1 s2 ltac:(pick) N1) as [N2 [A2 B2]].
  destruct (steps_keep_name line s2 s3 ltac:(pick) N2) as [N3 [A3 B3]].
  destruct (steps_keep_name line s3 s4 ltac:(pick) N3) as [N4 [A4 B4]].
  destruct (steps_keep_name line s4 s5 ltac:(pick) N4) as [N5 [A5 B5]].
  destruct (steps_keep_name line s5 s6 ltac:(pick) N5) as [N6 [A6 B6]].
  destruct (steps_keep_name line s6 s7 ltac:(pick) N6) as [N7 [A7 B7]].
  destruct (steps_keep_name line s7 s8 ltac:(pick) N7) as [N8 [A8 B8]].
  destruct (steps_keep_name line s8 s9 ltac:(pick) N8) as [N9 [A9 B9]].
  destruct (steps_keep_name line s9 s10 ltac:(pick) N9) as [N10 [A10 B10]].
  destruct (steps_keep_name line s10 s11 ltac:(pick) N10) as [N11 [A11 B11]].
  destruct (steps_keep_name line s11 st' ltac:(pick) N11) as [N12 [A12 B12]].
  split; [exact N12|]. unfold same_bounds. split; congruence.
Qed.

(** Once a tier name has been read the loop never forgets it, and from
    then on no line changes the bounds of the header: a later
    [xmin = D.D] or [xmax = D.D] line at the start of a line is read
    over. *)
Theorem bounds_frozen_after_first_name :
  forall (lines : list string) (st st' : pstate),
    st.(tier_name) <> None ->
    parse_lines st lines = Ok st' ->
    st'.(tier_name) <> None
    /\ st'.(self).(xmin) = st.(self).(xmin)
    /\ st'.(self).(xmax) = st.(self).(xmax).
Proof.
  induction lines as [|l lines IH]; cbn [parse_lines]; intros st st' Hn H.
  - injection H as <-. auto.
  - peel H st1 H1. destruct (parse_line_keep_name _ _ _ Hn H1) as [N1 [A1 B1]].
    destruct (IH _ _ N1 H) as (N2 & A2 & B2). repeat split; congruence.
Qed.

(** ** The number of an interval line *)

Lemma star_stop a g k rest :
  first_is (accepts a) rest = false -> star a g k rest = k rest.
Proof.
  destruct rest as [|c rest]; [reflexivity|]. cbn [first_is star]. now intros ->.
Qed.

Lemma numeric_start_split rest :
  first_is numeric_start rest = false ->
  first_is (accepts Digit) rest = false
  /\ first_is (accepts (Lit ".")) rest = false.
Proof.
  destruct rest as [|c rest]; [auto|]. unfold numeric_start. cbn [first_is accepts].
  intros H. apply orb_false_iff in H. exact H.
Qed.

(** The group of lines 109 and 115 on digits, dots, digits and a rest. *)
Lemma number_group (ds dots fs rest : string) :
  all_chars is_digit ds = true -> all_chars (Ascii.eqb ".") dots = true ->
  all_chars is_digit fs = true ->
  (is_empty dots = true -> is_empty fs = true) ->
  first_is numeric_start rest = false ->
  run (group [Star Digit; Star (Lit "."); Star Digit]) false (ds ++ dots ++ fs ++ rest)
  = Some (ds ++ dots ++ fs).
Proof.
  intros Hd Hdots Hf Hcanon Hrest.
  destruct (numeric_start_split _ Hrest) as [Hr1 Hr2].
  cbn [group app run].
  assert (K3 : star Digit true (run [GClose] true) (fs ++ rest) = Some fs).
  { rewrite <- (append_empty_r fs) at 2.
    apply star_take_all; [exact Hf|exact Hr1|reflexivity]. }
  destruct dots as [|c dots].
  - assert (fs = EmptyString) as ->
      by (destruct fs; [reflexivity|discriminate (Hcanon eq_refl)]).
    cbn [append]. apply star_take_all; [exact Hd| |].
    + exact Hr1.
    + rewrite star_stop by exact Hr2. now rewrite star_stop by exact Hr1.
  - assert (K2 : star (Lit ".") true (star Digit true (run [GClose] true))
                   (String c dots ++ fs ++ rest) = Some (String c dots ++ fs)).
    { apply star_take_all; [exact Hdots| |exact K3].
      destruct fs as [|d fs].
      - exact Hr2.
      - cbn [append first_is accepts all_chars] in *.
        apply andb_true_iff in Hf. destruct Hf as [Hd' _].
        now apply digit_not_dot. }
    apply star_take_all; [exact Hd| |exact K2].
    cbn [append first_is accepts all_chars] in *.
    apply andb_true_iff in Hdots. destruct Hdots as [Hc _].
    apply Ascii.eqb_eq in Hc. subst c. reflexivity.
Qed.

Lemma interval_pattern_number (key indent ds dots fs rest : string) :
  first_is nonspace key = true ->
  is_empty indent = false -> all_chars is_space indent = true ->
  all_chars is_digit ds = true -> all_chars (Ascii.eqb ".") dots = true ->
  all_chars is_digit fs = true ->
  (is_empty dots = true -> is_empty fs = true) ->
  first_is numeric_start rest = false ->
  re_match
    (cat [[Plus Space]; lit key; ws; lit "="; ws;
          group [Star Digit; Star (Lit "."); Star Digit]])
    (indent ++ key ++ " = " ++ ds ++ dots ++ fs ++ rest) = Some (ds ++ dots ++ fs).
Proof.
  intros Hk He Hi Hd Hdots Hf Hcanon Hrest. unfold re_match.
  change (cat [[Plus Space]; lit key; ws; lit "="; ws;
               group [Star Digit; Star (Lit "."); Star Digit]])
    with (Plus Space :: lit key
            ++ cat [ws; lit "="; ws;
                    group [Star Digit; Star (Lit "."); Star Digit]])%list.
  rewrite run_indented by exact Hk.
  rewrite indented_app, lstrip_app, starts_app, drop_app;
    try assumption; try (now apply first_nonspace_app).
  cbn [cat List.concat ws lit app run append accepts keep].
  change (is_space " ") with true. change (Ascii.eqb "=" "=") with true.
  rewrite !keep_false, app_nil_r.
  now apply number_group.
Qed.

(** On an interval [xmin] or [xmax] line the number read is the run of
    digits, dots and digits after the equals sign; what follows it is
    dropped.  A value that starts with neither a digit nor a dot (a
    minus sign, a letter, nothing) is captured as the empty text: with
    the tier-header flag down [float] refuses it and the loop stops;
    with the flag up the line is read over. *)
Theorem interval_number_is_a_prefix :
  forall (indent ds dots fs rest : string) (st : pstate),
    is_empty indent = false -> all_chars is_space indent = true ->
    all_chars is_digit ds = true -> all_chars (Ascii.eqb ".") dots = true ->
    all_chars is_digit fs = true ->
    (is_empty dots = true -> is_empty fs = true) ->
    first_is numeric_start rest = false ->
    let num := ds ++ dots ++ fs in
    let line := indent ++ "xmin = " ++ num ++ rest in
    re_match re_ixmin line = Some num
    /\ re_match re_ixmax (indent ++ "xmax = " ++ num ++ rest) = Some num
    /\ (st.(tier_header) = true -> parse_line st line = Ok st)
    /\ (st.(tier_header) = false ->
        parse_line st line =
        (x <- py_float num ;;
         Ok (upd (fun o => set_content_start (o.(content_start) ++ [x]) o) st)))
    /\ (st.(tier_header) = false -> is_empty num = true ->
        parse_line st line = Raise (float_refused EmptyString))
    /\ (st.(tier_header) = false ->
        forall x, py_float num = Ok x ->
        exists st',
          parse_line st line = Ok st'
          /\ cols st'.(self)
             = (st.(self).(content_tier), (st.(self).(content_start) ++ [x])%list,
                st.(self).(content_end), st.(self).(content_annotation))).
Proof.
  intros indent ds dots fs rest st He Hi Hd Hdots Hf Hcanon Hrest num line.
  assert (Hmin : re_match re_ixmin line = Some num).
  { unfold line, num. rewrite !append_assoc.
    now apply (interval_pattern_number "xmin"). }
  assert (Hmax : re_match re_ixmax (indent ++ "xmax = " ++ num ++ rest) = Some num).
  { unfold num. rewrite !append_assoc.
    now apply (interval_pattern_number "xmax"). }
  assert (Hline : parse_line st line =
                  if st.(tier_header) then Ok st
                  else x <- py_float num ;;
                       Ok (upd (fun o => set_content_start (o.(content_start) ++ [x]) o) st)).
  { rewrite (parse_line_ixmin _ _ _ Hmin). unfold on_ixmin. rewrite Hmin.
    now destruct (tier_header st). }
  split; [exact Hmin|]. split; [exact Hmax|].
  split; [intros Hh; now rewrite Hline, Hh|].
  split; [intros Hh; now rewrite Hline, Hh|].
  split.
  - intros Hh Hnum. rewrite Hline, Hh.
    destruct num; [reflexivity|discriminate].
  - intros Hh x Hx. rewrite Hline, Hh, Hx. eexists. split; reflexivity.
Qed.

(** ** Quoted texts *)

Lemma star_dot_misses (q : ascii) (k : string -> option string) (tail : string) :
  (forall t, first_is (Ascii.eqb q) t = false -> k t = None) ->
  lacks q tail = true ->
  star Dot true k tail = None.
Proof.
  intros Hk. unfold lacks.
  induction tail as [|c tail IH]; cbn [star all_chars]; intros Hl.
  - now apply Hk.
  - apply andb_true_iff in Hl. destruct Hl as [Hc Hl].
    rewrite (IH Hl). cbn [keep].
    assert (k (String c tail) = None)
      by (apply Hk; cbn [first_is]; now apply negb_true_iff).
    now destruct (accepts Dot c).
Qed.

(** The greedy dot-star before a closing character [q] runs to the last
    [q] of the line. *)
Lemma star_dot_last (q : ascii) (k : string -> option string) (body tail : string) :
  (forall t, k (String q t) = Some EmptyString) ->
  (forall t, first_is (Ascii.eqb q) t = false -> k t = None) ->
  is_dot q = true -> one_line body = true -> lacks q tail = true ->
  star Dot true k (body ++ String q tail) = Some body.
Proof.
  intros Hq Hk Hdot Hb Ht. unfold one_line in Hb.
  induction body as [|c body IH]; cbn [append star all_chars] in *.
  - cbn [accepts]. rewrite Hdot, (star_dot_misses q k tail Hk Ht). cbn [keep].
    apply Hq.
  - apply andb_true_iff in Hb. destruct Hb as [Hc Hb].
    cbn [accepts]. now rewrite Hc, (IH Hb).
Qed.

Lemma quoted_pattern (key indent body tail : string) :
  first_is nonspace key = true ->
  is_empty indent = false -> all_chars is_space indent = true ->
  one_line body = true -> lacks QUOTE tail = true ->
  re_match
    (cat [[Plus Space]; lit key; ws; lit "="; ws; lit quote;
          group [Star Dot]; lit quote])
    (indent ++ key ++ " = " ++ quote ++ body ++ quote ++ tail) = Some body.
Proof.
  intros Hk He Hi Hb Ht. unfold re_match.
  change (cat [[Plus Space]; lit key; ws; lit "="; ws; lit quote;
               group [Star Dot]; lit quote])
    with (Plus Space :: lit key
            ++ cat [ws; lit "="; ws; lit quote; group [Star Dot]; lit quote])%list.
  rewrite run_indented by exact Hk.
  rewrite indented_app, lstrip_app, starts_app, drop_app;
    try assumption; try (now apply first_nonspace_app).
  cbn [cat List.concat ws lit group quote app run append accepts keep].
  change (is_space " ") with true. change (Ascii.eqb "=" "=") with true.
  rewrite Ascii.eqb_refl. rewrite !keep_false.
  apply (star_dot_last QUOTE); try assumption; try reflexivity.
  intros [|c t]; [reflexivity|]. cbn [first_is]. now intros ->.
Qed.

Lemma parse_line_name_quoted (indent body tail : string) (st : pstate) :
  is_empty indent = false -> all_chars is_space indent = true ->
  one_line body = true -> lacks QUOTE tail = true ->
  parse_line st (indent ++ "name = " ++ quote ++ body ++ quote ++ tail)
  = Ok (mkP st.(self) st.(tier_header) (Some body)).
Proof.
  intros He Hi Hb Ht.
  assert (Hname : re_match re_name
                    (indent ++ "name = " ++ quote ++ body ++ quote ++ tail) = Some body)
    by now apply (quoted_pattern "name").
  pose proof Hname as H. apply (match_indented "name") in H; [|reflexivity].
  rewrite (parse_line_indented _ _ _ H).
  rewrite on_item_skip by (apply item_skip; other_word H). cbn [bind].
  unfold on_name at 1. rewrite Hname. cbn [bind].
  rewrite on_intervals_skip by (apply intervals_skip; other_word H). cbn [bind].
  rewrite on_ixmin_skip by (apply ixmin_skip; other_word H). cbn [bind].
  rewrite on_ixmax_skip by (apply ixmax_skip; other_word H). cbn [bind].
  apply on_text_skip, text_skip. other_word H.
Qed.

Lemma parse_line_text_quoted (indent body tail : string) (st : pstate) :
  is_empty indent = false -> all_chars is_space indent = true ->
  one_line body = true -> lacks QUOTE tail = true ->
  st.(tier_header) = false ->
  parse_line st (indent ++ "text = " ++ quote ++ body ++ quote ++ tail)
  = Ok (upd (fun o => set_content_annotation
                        (o.(content_annotation) ++ [body]) o) st).
Proof.
  intros He Hi Hb Ht Hh.
  assert (Htext : re_match re_text
                    (indent ++ "text = " ++ quote ++ body ++ quote ++ tail) = Some body)
    by now apply (quoted_pattern "text").
  rewrite (parse_line_text _ _ _ Htext). unfold on_text. now rewrite Htext, Hh.
Qed.

(** The text of a [text = "..."] or [name = "..."] line is everything
    between the first quote and the last quote of the line: it may
    contain quotes itself, and what follows the last quote is dropped. *)
Theorem quoted_text_runs_to_the_last_quote :
  forall (indent body tail : string) (st : pstate),
    is_empty indent = false -> all_chars is_space indent = true ->
    one_line body = true -> lacks QUOTE tail = true ->
    re_match re_text (indent ++ "text = " ++ quote ++ body ++ quote ++ tail)
    = Some body
    /\ re_match re_name (indent ++ "name = " ++ quote ++ body ++ quote ++ tail)
       = Some body
    /\ parse_line st (indent ++ "name = " ++ quote ++ body ++ quote ++ tail)
       = Ok (mkP st.(self) st.(tier_header) (Some body))
    /\ (st.(tier_header) = false ->
        parse_line st (indent ++ "text = " ++ quote ++ body ++ quote ++ tail)
        = Ok (upd (fun o => set_content_annotation
                              (o.(content_annotation) ++ [body]) o) st))
    /\ (st.(tier_header) = false ->
        exists st',
          parse_line st (indent ++ "text = " ++ quote ++ body ++ quote ++ tail)
          = Ok st'
          /\ cols st'.(self)
             = (st.(self).(content_tier), st.(self).(content_start),
                st.(self).(content_end),
                (st.(self).(content_annotation) ++ [body])%list)).
Proof.
  intros indent body tail st He Hi Hb Ht.
  split; [now apply (quoted_pattern "text")|].
  split; [now apply (quoted_pattern "name")|].
  split; [now apply parse_line_name_quoted|].
  split; [now apply parse_line_text_quoted|].
  intros Hh. rewrite parse_line_text_quoted by assumption.
  eexists. split; reflexivity.
Qed.

(** ** Reading back a written integer *)

Lemma int_acc_uint (d : Decimal.uint) (acc : positive) :
  int_acc (Zpos acc) (NilEmpty.string_of_uint d) = Zpos (Pos.of_uint_acc d acc).
Proof.
  revert acc.
  induction d as [|d IH|d IH|d IH|d IH|d IH|d IH|d IH|d IH|d IH|d IH];
    intros acc; cbn [NilEmpty.string_of_uint int_acc Pos.of_uint_acc];
    [reflexivity| | | | | | | | | |];
    match goal with
    | |- int_acc (10 * Z.pos acc + digit_val ?c) _ = Z.pos (Pos.of_uint_acc _ ?a) =>
        replace (10 * Z.pos acc + digit_val c) with (Z.pos a)
          by (change (digit_val c) with (Z.of_N (code c) - 48);
              cbn [code N_of_ascii]; vm_compute (Z.of_N _); lia)
    end; apply IH.
Qed.

Lemma int_acc_uint0 (d : Decimal.uint) :
  int_acc 0 (NilEmpty.string_of_uint d) = Z.of_N (Pos.of_uint d).
Proof.
  induction d as [|d IH|d IH|d IH|d IH|d IH|d IH|d IH|d IH|d IH|d IH];
    cbn [NilEmpty.string_of_uint int_acc Pos.of_uint];
    [reflexivity|exact IH| | | | | | | | |];
    match goal with
    | |- int_acc (10 * 0 + digit_val ?c) _ = _ =>
        replace (10 * 0 + digit_val c) with 1
          by (change (digit_val c) with (Z.of_N (code c) - 48);
              cbn [code N_of_ascii]; vm_compute (Z.of_N _); lia)
    | |- int_acc (10 * 0 + digit_val ?c) _ = Z.of_N (N.pos (Pos.of_uint_acc _ ?a)) =>
        replace (10 * 0 + digit_val c) with (Z.pos a)
          by (change (digit_val c) with (Z.of_N (code c) - 48);
              cbn [code N_of_ascii]; vm_compute (Z.of_N _); lia)
    end; apply int_acc_uint.
Qed.

(** The decimal text of a natural number: digits, and the number again
    when read. *)
Lemma str_int_digits (k : Z) :
  0 <= k ->
  is_empty (str_int k) = false /\ all_chars is_digit (str_int k) = true
  /\ int_acc 0 (str_int k) = k.
Proof.
  intros Hk. unfold str_int, NilZero.string_of_int.
  destruct k as [|p|p]; [repeat split| |lia].
  cbn [Z.to_int]. unfold NilZero.string_of_uint.
  pose proof (Unsigned.to_uint_nonnil p) as Hnil.
  assert (Hd : all_chars is_digit (NilEmpty.string_of_uint (Pos.to_uint p)) = true)
    by apply uint_digits.
  assert (Hv : int_acc 0 (NilEmpty.string_of_uint (Pos.to_uint p)) = Z.pos p)
    by (rewrite int_acc_uint0, Unsigned.of_to; reflexivity).
  assert (He : is_empty (NilEmpty.string_of_uint (Pos.to_uint p)) = false)
    by (destruct (Pos.to_uint p); [congruence| | | | | | | | | |]; reflexivity).
  destruct (Pos.to_uint p) eqn:E; [congruence| | | | | | | | | |];
    (split; [exact He|]; split; [exact Hd|exact Hv]).
Qed.

(** The text of a positive number does not begin with a zero. *)
Lemma to_uint_no_leading_zero (p : positive) (u : Decimal.uint) :
  Pos.to_uint p <> Decimal.D0 u.
Proof.
  intros E.
  assert (Hnorm : Decimal.unorm (Pos.to_uint p) = Pos.to_uint p).
  { rewrite <- (Unsigned.to_of (Pos.to_uint p)), Unsigned.of_to. reflexivity. }
  rewrite E, DecimalFacts.unorm_D0 in Hnorm.
  destruct u as [|u|u|u|u|u|u|u|u|u|u];
    [ apply (Unsigned.to_uint_nonzero p); exact E
    | | | | | | | | | | ];
    match type of Hnorm with
    | Decimal.unorm ?v = _ =>
        assert (Hlen : (Decimal.nb_digits (Decimal.unorm v) <= Decimal.nb_digits v)%nat)
          by (apply DecimalFacts.nb_digits_unorm; discriminate);
        rewrite Hnorm in Hlen; cbn [Decimal.nb_digits] in Hlen; lia
    end.
Qed.

Lemma int_acc_lower (s : string) (acc : Z) :
  all_chars is_digit s = true -> 0 <= acc ->
  acc * 10 ^ digits_of s <= int_acc acc s.
Proof.
  unfold digits_of. revert acc.
  induction s as [|c s IH]; intros acc Hs Hacc; cbn [int_acc String.length].
  - change (Z.of_nat 0) with 0. lia.
  - cbn [all_chars] in Hs. apply andb_true_iff in Hs. destruct Hs as [Hc Hs].
    pose proof (digit_val_nonneg c Hc) as Hv.
    specialize (IH (10 * acc + digit_val c) Hs ltac:(lia)).
    rewrite Nat2Z.inj_succ, Z.pow_succ_r by lia.
    assert (0 <= 10 ^ Z.of_nat (String.length s)) by (apply Z.pow_nonneg; lia).
    nia.
Qed.

(** A natural number below [10 ^ d] prints in at most [d] digits. *)
Lemma str_int_short (k d : Z) :
  0 <= k < 10 ^ d -> 1 <= d -> digits_of (str_int k) <= d.
Proof.
  intros [Hk Hlt] Hd.
  destruct (str_int_digits k Hk) as (_ & Hdig & Hval).
  revert Hdig Hval. unfold str_int, NilZero.string_of_int.
  destruct k as [|p|p]; [intros _ _; exact Hd| |lia].
  cbn [Z.to_int]. unfold NilZero.string_of_uint.
  pose proof (to_uint_no_leading_zero p) as Hz.
  destruct (Pos.to_uint p) as [|u|u|u|u|u|u|u|u|u|u] eqn:E;
    [ intros _ _; exact Hd
    | exfalso; exact (Hz u eq_refl)
    | | | | | | | | | ];
    cbn [NilEmpty.string_of_uint all_chars int_acc]; intros Hdig Hval;
    apply andb_true_iff in Hdig; destruct Hdig as [_ Hdig];
    match type of Hval with
    | int_acc ?a ?t = _ =>
        assert (Hlow : a * 10 ^ digits_of t <= int_acc a t)
          by (apply int_acc_lower; [exact Hdig|vm_compute; discriminate]);
        assert (Ha : 1 <= a) by (vm_compute; discriminate);
        assert (Hp : 0 < 10 ^ digits_of t)
          by (apply Z.pow_pos_nonneg; [lia|unfold digits_of; lia]);
        assert (Hpow : 10 ^ digits_of t < 10 ^ d) by nia;
        apply Z.pow_lt_mono_r_iff in Hpow; [|lia|lia];
        unfold digits_of in *; cbn [String.length]; lia
    end.
Qed.

(** [int(str(k))] is [k] for a natural number [k] that prints in at most
    4300 digits. *)
Lemma str_int_reads_back (k : Z) :
  0 <= k < 10 ^ int_max_str_digits ->
  is_empty (str_int k) = false /\ all_chars is_digit (str_int k) = true
  /\ py_int (str_int k) = Ok k.
Proof.
  intros Hk. destruct (str_int_digits k (proj1 Hk)) as (He & Hd & Hv).
  split; [exact He|]. split; [exact Hd|].
  rewrite (py_int_short _ He Hd), Hv; [reflexivity|].
  apply str_int_short; [exact Hk|]. unfold int_max_str_digits. lia.
Qed.

(** ** Reading the written lines one by one *)

Lemma space_line_top (w : string) (rest : regex) (line : string) :
  first_is nonspace w = true -> first_is is_space line = true ->
  re_match (lit w ++ rest)%list line = None.
Proof. intros Hw Hl. unfold re_match. now apply run_lit_space. Qed.

Lemma parse_line_space (line : string) (st : pstate) :
  first_is is_space line = true ->
  parse_line st line =
  (st <- on_item line st ;; st <- on_name line st ;;
   st <- on_intervals line st ;; st <- on_ixmin line st ;;
   st <- on_ixmax line st ;; on_text line st).
Proof.
  intros H. unfold parse_line.
  rewrite on_file_type_skip by (now apply (space_line_top "File")). cbn [bind].
  rewrite on_object_class_skip by (now apply (space_line_top "Object")). cbn [bind].
  rewrite on_xmin_skip by (now apply (space_line_top "xmin")). cbn [bind].
  rewrite on_xmax_skip by (now apply (space_line_top "xmax")). cbn [bind].
  rewrite on_tiers_skip by (now apply (space_line_top "tiers?")). cbn [bind].
  rewrite on_size_skip by (now apply (space_line_top "size")). reflexivity.
Qed.

(** A line that starts with white space and then with none of the six
    words of the indented patterns is read over. *)
Lemma parse_line_other_word (line : string) (st : pstate) :
  first_is is_space line = true ->
  indented "item" line = false -> indented "name" line = false ->
  indented "intervals:" line = false -> indented "xmin" line = false ->
  indented "xmax" line = false -> indented "text" line = false ->
  parse_line st line = Ok st.
Proof.
  intros H H1 H2 H3 H4 H5 H6. rewrite (parse_line_space _ _ H).
  rewrite on_item_skip by now apply item_skip. cbn [bind].
  rewrite on_name_skip by now apply name_skip. cbn [bind].
  rewrite on_intervals_skip by now apply intervals_skip. cbn [bind].
  rewrite on_ixmin_skip by now apply ixmin_skip. cbn [bind].
  rewrite on_ixmax_skip by now apply ixmax_skip. cbn [bind].
  apply on_text_skip. now apply text_skip.
Qed.

Lemma digits_group (r : regex) (ds rest : string) :
  is_empty ds = false -> all_chars is_digit ds = true ->
  first_is is_digit rest = false -> run r false rest = Some EmptyString ->
  run (GOpen :: Plus Digit :: GClose :: r) false (ds ++ rest) = Some ds.
Proof.
  intros Hne Hd Hrest Hr. destruct ds as [|c ds]; [discriminate|].
  cbn [all_chars] in Hd. apply andb_true_iff in Hd. destruct Hd as [Hc Hd].
  cbn [run append accepts]. rewrite Hc.
  rewrite (star_take_all Digit _ ds rest EmptyString);
    [cbn [keep]; now rewrite append_empty_r|exact Hd|exact Hrest|exact Hr].
Qed.

(** The [item [k]] line of a tier block. *)
Lemma written_item_match (k : Z) :
  0 <= k ->
  re_match re_item (tab ++ "item [" ++ str_int k ++ "]") = Some (str_int k).
Proof.
  intros Hk. destruct (str_int_digits k Hk) as (Hne & Hd & _).
  unfold re_match.
  change re_item
    with (Plus Space :: lit "item"
            ++ cat [ws; lit "["; group [Plus Digit]; lit "]"])%list.
  rewrite run_indented by reflexivity.
  change (tab ++ "item [" ++ str_int k ++ "]")
    with (tab ++ "item" ++ " [" ++ str_int k ++ "]").
  rewrite indented_app, lstrip_app, starts_app, drop_app; try reflexivity.
  cbn [cat List.concat ws lit group app run append accepts keep].
  change (is_space " ") with true. change (Ascii.eqb "[" "[") with true.
  rewrite !keep_false.
  apply (digits_group (lit "]") (str_int k) "]"); try assumption; reflexivity.
Qed.

Lemma written_item (k n : Z) (st : pstate) :
  0 <= k -> st.(self).(n_tiers) = Some n -> k - 1 < n ->
  n < 10 ^ int_max_str_digits ->
  parse_line st (tab ++ "item [" ++ str_int k ++ "]")
  = Ok (mkP st.(self) true st.(tier_name)).
Proof.
  intros Hk Hn Hlt Hshort. pose proof (written_item_match k Hk) as Hm.
  rewrite (parse_line_item _ _ _ Hm). unfold on_item. rewrite Hm.
  destruct (str_int_reads_back k ltac:(lia)) as (_ & _ & ->). cbn [bind].
  rewrite Hn. apply Z.leb_gt in Hlt. now rewrite Hlt.
Qed.

(** The [class] line and the [intervals [i]:] line match nothing. *)
Lemma written_class (st : pstate) :
  parse_line st (tab ++ tab ++ "class = " ++ quote ++ "IntervalTier" ++ quote)
  = Ok st.
Proof. apply parse_line_other_word; reflexivity. Qed.

Lemma written_interval_head (i : Z) (st : pstate) :
  parse_line st (tab ++ tab ++ tab ++ "intervals [" ++ str_int i ++ "]:") = Ok st.
Proof. apply parse_line_other_word; reflexivity. Qed.

(** The [name] line sets the current tier name. *)
Lemma written_name (name : string) (st : pstate) :
  one_line name = true ->
  parse_line st (tab ++ tab ++ "name = " ++ quote ++ name ++ quote)
  = Ok (mkP st.(self) st.(tier_header) (Some name)).
Proof.
  intros Hn.
  exact (parse_line_name_quoted (tab ++ tab) name EmptyString st
           eq_refl eq_refl Hn eq_refl).
Qed.

(** The bounds written inside a tier block are read under a raised
    flag: they are read over. *)
Lemma written_tier_bound (key s : string) (st : pstate) :
  key = "xmin" \/ key = "xmax" -> st.(tier_header) = true ->
  parse_line st (tab ++ tab ++ key ++ " = " ++ s) = Ok st.
Proof.
  intros Hkey Hh.
  assert (Hsp : first_is is_space (tab ++ tab ++ key ++ " = " ++ s) = true)
    by reflexivity.
  rewrite (parse_line_space _ _ Hsp).
  rewrite on_item_skip
    by (apply item_skip; destruct Hkey as [-> | ->]; reflexivity). cbn [bind].
  rewrite on_name_skip
    by (apply name_skip; destruct Hkey as [-> | ->]; reflexivity). cbn [bind].
  rewrite on_intervals_skip
    by (apply intervals_skip; destruct Hkey as [-> | ->]; reflexivity). cbn [bind].
  assert (Hmin : on_ixmin (tab ++ tab ++ key ++ " = " ++ s) st = Ok st).
  { unfold on_ixmin. destruct (re_match re_ixmin _); [|reflexivity]. now rewrite Hh. }
  rewrite Hmin. cbn [bind].
  assert (Hmax : on_ixmax (tab ++ tab ++ key ++ " = " ++ s) st = Ok st).
  { unfold on_ixmax. destruct (re_match re_ixmax _); [|reflexivity]. now rewrite Hh. }
  rewrite Hmax. cbn [bind].
  apply on_text_skip, text_skip. destruct Hkey as [-> | ->]; reflexivity.
Qed.

(** The [intervals: size = K] line of a tier block. *)
Lemma written_intervals_match (K : Z) :
  0 <= K ->
  re_match re_intervals (tab ++ tab ++ "intervals: size = " ++ str_int K)
  = Some (str_int K).
Proof.
  intros HK. destruct (str_int_digits K HK) as (Hne & Hd & _).
  unfold re_match.
  change re_intervals
    with (Plus Space :: lit "intervals:"
            ++ cat [ws; lit "size"; ws; lit "="; ws; group [Plus Digit]])%list.
  rewrite run_indented by reflexivity.
  change (tab ++ tab ++ "intervals: size = " ++ str_int K)
    with ((tab ++ tab) ++ "intervals:" ++ " size = " ++ str_int K).
  rewrite indented_app, lstrip_app, starts_app, drop_app; try reflexivity.
  cbn [cat List.concat ws lit group app run append accepts keep].
  change (is_space " ") with true. change (Ascii.eqb "=" "=") with true.
  change (Ascii.eqb "s" "s") with true. change (Ascii.eqb "i" "i") with true.
  change (Ascii.eqb "z" "z") with true. change (Ascii.eqb "e" "e") with true.
  rewrite !keep_false. rewrite <- (append_empty_r (str_int K)) at 1.
  apply (digits_group [] (str_int K) EmptyString); try assumption; reflexivity.
Qed.

Lemma maxsize_short : sys_maxsize < 10 ^ int_max_str_digits.
Proof. vm_compute. reflexivity. Qed.

Lemma written_intervals (K : Z) (st : pstate) :
  0 <= K -> K <= sys_maxsize -> K <= capacity ->
  parse_line st (tab ++ tab ++ "intervals: size = " ++ str_int K)
  = Ok (mkP (set_content_tier
               (st.(self).(content_tier) ++ repeat st.(tier_name) (Z.to_nat K))
               st.(self))
            false st.(tier_name)).
Proof.
  intros HK Hfit Hroom. pose proof (written_intervals_match K HK) as Hm.
  rewrite (parse_line_intervals _ _ _ Hm), (on_intervals_match _ _ _ Hm).
  destruct (str_int_digits K HK) as (_ & _ & ->).
  pose proof maxsize_short as Hmax.
  assert (Hshort : digits_of (str_int K) <= int_max_str_digits)
    by (apply str_int_short; [lia|unfold int_max_str_digits; lia]).
  apply Z.leb_le in Hshort. apply Z.ltb_ge in Hfit, Hroom.
  now rewrite Hshort, Hfit, Hroom.
Qed.

Lemma tier_size_bound (o : TextGrid) (t : option string) :
  0 <= tier_size_of o t <= Z.of_nat (List.length o.(content_tier)).
Proof.
  unfold tier_size_of. split; [apply Nat2Z.is_nonneg|].
  apply Nat2Z.inj_le, filter_length_le.
Qed.

(** The times of an interval, under a lowered flag. *)
Lemma written_time_match (key : string) (x : float) :
  first_is nonspace key = true -> plain x ->
  re_match
    (cat [[Plus Space]; lit key; ws; lit "="; ws;
          group [Star Digit; Star (Lit "."); Star Digit]])
    ((tab ++ tab ++ tab ++ tab) ++ key ++ " = " ++ str_float x)
  = Some (str_float x).
Proof.
  intros Hk (ds & fs & Hs & Hd & Hf & _). rewrite Hs.
  rewrite <- (append_empty_r fs) at 1.
  apply (interval_pattern_number key (tab ++ tab ++ tab ++ tab) ds "." fs EmptyString);
    try assumption; try reflexivity.
  discriminate.
Qed.

Lemma written_start (x : float) (st : pstate) :
  plain x -> st.(tier_header) = false ->
  parse_line st (tab ++ tab ++ tab ++ tab ++ "xmin = " ++ str_float x)
  = Ok (upd (fun o => set_content_start (o.(content_start) ++ [x]) o) st).
Proof.
  intros Hx Hh. pose proof (written_time_match "xmin" x eq_refl Hx) as Hm.
  change ((tab ++ tab ++ tab ++ tab) ++ "xmin" ++ " = " ++ str_float x)
    with (tab ++ tab ++ tab ++ tab ++ "xmin = " ++ str_float x) in Hm.
  change (cat [[Plus Space]; lit "xmin"; ws; lit "="; ws;
               group [Star Digit; Star (Lit "."); Star Digit]])
    with re_ixmin in Hm.
  rewrite (parse_line_ixmin _ _ _ Hm). unfold on_ixmin. rewrite Hm, Hh.
  destruct Hx as (_ & _ & _ & _ & _ & ->). reflexivity.
Qed.

Lemma written_end (x : float) (st : pstate) :
  plain x -> st.(tier_header) = false ->
  parse_line st (tab ++ tab ++ tab ++ tab ++ "xmax = " ++ str_float x)
  = Ok (upd (fun o => set_content_end (o.(content_end) ++ [x]) o) st).
Proof.
  intros Hx Hh. pose proof (written_time_match "xmax" x eq_refl Hx) as Hm.
  change ((tab ++ tab ++ tab ++ tab) ++ "xmax" ++ " = " ++ str_float x)
    with (tab ++ tab ++ tab ++ tab ++ "xmax = " ++ str_float x) in Hm.
  change (cat [[Plus Space]; lit "xmax"; ws; lit "="; ws;
               group [Star Digit; Star (Lit "."); Star Digit]])
    with re_ixmax in Hm.
  rewrite (parse_line_ixmax _ _ _ Hm). unfold on_ixmax. rewrite Hm, Hh.
  destruct Hx as (_ & _ & _ & _ & _ & ->). reflexivity.
Qed.

(** The annotation of an interval, under a lowered flag. *)
Lemma written_text (a : string) (st : pstate) :
  one_line a = true -> st.(tier_header) = false ->
  parse_line st (tab ++ tab ++ tab ++ tab ++ "text = " ++ quote ++ a ++ quote)
  = Ok (upd (fun o => set_content_annotation (o.(content_annotation) ++ [a]) o) st).
Proof.
  intros Ha Hh.
  exact (parse_line_text_quoted (tab ++ tab ++ tab ++ tab) a EmptyString st
           eq_refl eq_refl Ha eq_refl Hh).
Qed.

(** ** Reading back the rows *)

Lemma clean_one_line (s : string) : clean s = true -> one_line s = true.
Proof.
  apply all_chars_impl. intros c. unfold no_break, is_linebreak, is_dot.
  destruct (code c =? 10)%N eqn:E; [|reflexivity].
  apply N.eqb_eq in E. rewrite E. discriminate.
Qed.

Lemma reread_piece (o : TextGrid) (st : sstate) (ps : pstate) (r : row) (n : Z) :
  n < 10 ^ int_max_str_digits ->
  Z.of_nat (List.length o.(content_tier)) <= sys_maxsize ->
  Z.of_nat (List.length o.(content_tier)) <= capacity ->
  row_ok r -> ps.(self).(n_tiers) = Some n -> 0 <= st.(tier_idx) ->
  (changes st.(last_tier) (label r) = true -> st.(tier_idx) - 1 < n) ->
  (changes st.(last_tier) (label r) = false -> ps.(tier_header) = false) ->
  parse_lines ps (piece_lines o st r) = Ok (reread_row o st ps r).
Proof.
  destruct r as [[[tier s] e] a].
  intros Hshort Hfit Hroom (Hc & Hs & He) Hn Hk Hlt Hflag.
  pose proof (tier_size_bound o tier) as Hsize.
  cbn [row_clean start_of end_of label] in *.
  apply andb_true_iff in Hc. destruct Hc as [Ht Ha].
  apply fmt_str_clean, clean_one_line in Ht. apply clean_one_line in Ha.
  unfold piece_lines, reread_row.
  destruct (changes (last_tier st) tier) eqn:Ec.
  - unfold tier_lines, interval_lines. cbn [app parse_lines].
    rewrite (written_item _ n) by (try apply Hlt; auto). cbn [bind].
    rewrite written_class. cbn [bind].
    rewrite written_name by exact Ht. cbn [bind self tier_header tier_name].
    change (tab ++ tab ++ "xmin = " ++ fmt_float (xmin o))
      with (tab ++ tab ++ "xmin" ++ " = " ++ fmt_float (xmin o)).
    rewrite written_tier_bound by (auto; reflexivity). cbn [bind].
    change (tab ++ tab ++ "xmax = " ++ fmt_float (xmax o))
      with (tab ++ tab ++ "xmax" ++ " = " ++ fmt_float (xmax o)).
    rewrite written_tier_bound by (auto; reflexivity). cbn [bind].
    rewrite written_intervals by lia.
    cbn [bind self tier_header tier_name].
    rewrite written_interval_head. cbn [bind].
    rewrite written_start by (auto; reflexivity). cbn [bind].
    rewrite written_end by (auto; reflexivity). cbn [bind].
    rewrite written_text by (auto; reflexivity).
    reflexivity.
  - unfold interval_lines. cbn [app parse_lines].
    specialize (Hflag eq_refl).
    rewrite written_interval_head. cbn [bind].
    rewrite written_start by assumption. cbn [bind].
    rewrite written_end by assumption. cbn [bind].
    rewrite written_text by assumption.
    unfold upd. cbn [self tier_header tier_name]. now rewrite Hflag.
Qed.

Lemma reread_row_flag o st ps r : (reread_row o st ps r).(tier_header) = false.
Proof. destruct r as [[[tier s] e] a]. reflexivity. Qed.

Lemma reread_row_count o st ps r :
  (reread_row o st ps r).(self).(n_tiers) = ps.(self).(n_tiers).
Proof.
  destruct r as [[[tier s] e] a]. unfold reread_row.
  now destruct (changes (last_tier st) tier).
Qed.

Lemma emit_row_idx o st r :
  (emit_row o st r).(tier_idx)
  = if changes st.(last_tier) (label r) then st.(tier_idx) + 1 else st.(tier_idx).
Proof.
  destruct r as [[[tier s] e] a]. unfold emit_row, changes. cbn [label].
  now destruct (negb (tier_eqb (last_tier st) tier) || is_none (last_tier st)).
Qed.

Lemma changes_none t : changes None t = true.
Proof. unfold changes. cbn [is_none]. apply orb_true_r. Qed.

(** Reading the lines written for the rows: the loop of the parser does
    not stop as long as the declared number of tiers covers the tier
    blocks written. *)
Lemma reread_body (o : TextGrid) (n : Z) (rows : list row) :
  n < 10 ^ int_max_str_digits ->
  Z.of_nat (List.length o.(content_tier)) <= sys_maxsize ->
  Z.of_nat (List.length o.(content_tier)) <= capacity ->
  forall (st : sstate) (ps : pstate),
    Forall row_ok rows -> ps.(self).(n_tiers) = Some n -> 0 <= st.(tier_idx) ->
    st.(tier_idx) + Z.of_nat (blocks st.(last_tier) (map label rows)) <= n + 1 ->
    st.(last_tier) = None \/ ps.(tier_header) = false ->
    parse_lines ps (body_lines o st rows) = Ok (reread_rows o st ps rows).
Proof.
  intros Hshort Hfit Hroom.
  induction rows as [|r rows IH]; intros st ps Hok Hn Hk Hb Hflag; [reflexivity|].
  inversion Hok as [|r' rows' Hr Hrows]; subst.
  cbn [body_lines reread_rows map blocks] in *.
  rewrite parse_lines_app.
  rewrite (reread_piece o st ps r n); try assumption.
  - cbn [bind]. apply IH; try assumption.
    + now rewrite reread_row_count.
    + rewrite emit_row_idx. destruct (changes (last_tier st) (label r)); lia.
    + rewrite emit_row_idx, emit_row_last.
      destruct (changes (last_tier st) (label r)); lia.
    + right. apply reread_row_flag.
  - intros Ec. rewrite Ec in Hb. lia.
  - intros Ec. destruct Hflag as [Hnone|Hflag]; [|exact Hflag].
    rewrite Hnone, changes_none in Ec. discriminate.
Qed.

(** What the rows read back leave in the object. *)
Lemma reread_rows_self (o : TextGrid) (rows : list row) :
  forall (st : sstate) (ps : pstate),
    (reread_rows o st ps rows).(self)
    = mkTextGrid ps.(self).(file_path) ps.(self).(file_type)
        ps.(self).(object_class) ps.(self).(xmin) ps.(self).(xmax)
        ps.(self).(tiers) ps.(self).(n_tiers) ps.(self).(tier_list)
        (ps.(self).(content_tier) ++ regroup o st.(last_tier) (map label rows))
        (ps.(self).(content_start) ++ map start_of rows)
        (ps.(self).(content_end) ++ map end_of rows)
        (ps.(self).(content_annotation) ++ map annotation_of rows).
Proof.
  induction rows as [|r rows IH]; intros st ps.
  - cbn [reread_rows map regroup]. rewrite !app_nil_r. now destruct (self ps).
  - cbn [reread_rows map regroup]. rewrite IH, emit_row_last.
    destruct r as [[[tier s] e] a]. unfold reread_row.
    cbn [label start_of end_of annotation_of].
    destruct (changes (last_tier st) tier);
      cbn [self file_path file_type object_class xmin xmax tiers n_tiers tier_list
           content_tier content_start content_end content_annotation
           set_content_tier set_content_start set_content_end
           set_content_annotation];
      rewrite <- ?app_assoc; reflexivity.
Qed.

(** ** Tier columns made of runs *)

Lemma zip4_columns t s e a :
  List.length t = List.length s -> List.length t = List.length e ->
  List.length t = List.length a ->
  map start_of (zip4 t s e a) = s /\ map end_of (zip4 t s e a) = e
  /\ map annotation_of (zip4 t s e a) = a.
Proof.
  revert s e a. induction t as [|t0 t IH]; intros s e a.
  - destruct s; [|discriminate]. destruct e; [|discriminate].
    destruct a; [|discriminate]. now repeat split.
  - destruct s as [|s0 s]; [discriminate|]. destruct e as [|e0 e]; [discriminate|].
    destruct a as [|a0 a]; [discriminate|].
    cbn [zip4 map start_of end_of annotation_of List.length].
    intros [= H1] [= H2] [= H3]. destruct (IH s e a H1 H2 H3) as (-> & -> & ->).
    now repeat split.
Qed.

Lemma zip4_rows_ok t s e a :
  forallb clean_opt t = true -> forallb clean a = true ->
  Forall plain s -> Forall plain e ->
  Forall row_ok (zip4 t s e a).
Proof.
  revert s e a. induction t as [|t0 t IH]; intros s e a Ht Ha Hs He; [constructor|].
  destruct s as [|s0 s]; [constructor|]. destruct e as [|e0 e]; [constructor|].
  destruct a as [|a0 a]; [constructor|]. cbn [zip4 forallb] in *.
  apply andb_true_iff in Ht, Ha. destruct Ht as [Ht0 Ht], Ha as [Ha0 Ha].
  inversion Hs; inversion He; subst. constructor; [|now apply IH].
  unfold row_ok. cbn [row_clean start_of end_of]. now rewrite Ht0, Ha0.
Qed.

Lemma flat_cons t k rs :
  flat ((t, k) :: rs) = (repeat (Some t) (S k) ++ flat rs)%list.
Proof. reflexivity. Qed.

Lemma filter_repeat_same (t : string) (k : nat) :
  filter (fun el => tier_eqb el (Some t)) (repeat (Some t) k) = repeat (Some t) k.
Proof.
  induction k as [|k IH]; [reflexivity|]. cbn [repeat filter].
  assert (E : tier_eqb (Some t) (Some t) = true) by now apply tier_eqb_eq.
  now rewrite E, IH.
Qed.

Lemma filter_repeat_other (t t' : string) (k : nat) :
  t' <> t ->
  filter (fun el => tier_eqb el (Some t)) (repeat (Some t') k) = [].
Proof.
  intros Hne. induction k as [|k IH]; [reflexivity|]. cbn [repeat filter].
  destruct (tier_eqb (Some t') (Some t)) eqn:E; [|exact IH].
  apply tier_eqb_eq in E. congruence.
Qed.

Lemma filter_flat_absent (t : string) (rs : list (string * nat)) :
  ~ In t (map fst rs) ->
  filter (fun el => tier_eqb el (Some t)) (flat rs) = [].
Proof.
  induction rs as [|[t' k'] rs IH]; [reflexivity|]. cbn [map fst In]. intros Hn.
  rewrite flat_cons, filter_app, filter_repeat_other, IH by tauto. reflexivity.
Qed.

(** Line 203 on a column made of runs with distinct labels: the size
    written for a tier is the length of its run. *)
Lemma tier_size_of_run (o : TextGrid) (rs : list (string * nat)) (t : string) (k : nat) :
  o.(content_tier) = flat rs -> NoDup (map fst rs) -> In (t, k) rs ->
  tier_size_of o (Some t) = Z.of_nat (S k).
Proof.
  unfold tier_size_of. intros -> Hnd0 Hin0. f_equal.
  induction rs as [|[t' k'] rs IH]; [destruct Hin0|].
  cbn [map fst] in *. inversion Hnd0 as [|x l Hnin Hnd]; subst.
  rewrite flat_cons, filter_app, length_app.
  destruct Hin0 as [[= -> ->]|Hin].
  - rewrite filter_repeat_same, repeat_length, filter_flat_absent by exact Hnin.
    cbn [List.length]. lia.
  - assert (Hne : t' <> t).
    { intros ->. apply Hnin. change t with (fst (t, k)). now apply in_map. }
    rewrite filter_repeat_other by exact Hne. cbn [List.length Nat.add].
    now apply IH.
Qed.

Lemma changes_same (t : string) : changes (Some t) (Some t) = false.
Proof.
  unfold changes. cbn [is_none].
  assert (E : tier_eqb (Some t) (Some t) = true) by now apply tier_eqb_eq.
  now rewrite E.
Qed.

Lemma changes_other (last : option string) (t : string) :
  last <> Some t -> changes last (Some t) = true.
Proof.
  intros Hne. unfold changes.
  destruct (tier_eqb last (Some t)) eqn:E; [|reflexivity].
  apply tier_eqb_eq in E. congruence.
Qed.

Lemma regroup_run (o : TextGrid) (t : string) (k : nat) (l : list (option string)) :
  regroup o (Some t) (repeat (Some t) k ++ l) = regroup o (Some t) l.
Proof.
  induction k as [|k IH]; [reflexivity|].
  cbn [repeat app regroup]. now rewrite changes_same, IH.
Qed.

Lemma blocks_run (t : string) (k : nat) (l : list (option string)) :
  blocks (Some t) (repeat (Some t) k ++ l) = blocks (Some t) l.
Proof.
  induction k as [|k IH]; [reflexivity|].
  cbn [repeat app blocks]. now rewrite changes_same, IH.
Qed.

(** The tier blocks written for a column of runs with distinct labels,
    read back, give the column again. *)
Lemma regroup_flat (o : TextGrid) (rs : list (string * nat)) :
  forall last : option string,
    (forall t k, In (t, k) rs -> tier_size_of o (Some t) = Z.of_nat (S k)) ->
    NoDup (map fst rs) ->
    (forall t, last = Some t -> ~ In t (map fst rs)) ->
    regroup o last (flat rs) = flat rs.
Proof.
  induction rs as [|[t k] rs IH]; intros last Hsize Hnd Hlast; [reflexivity|].
  cbn [map fst] in *. inversion Hnd as [|x l Hnin Hnd']; subst.
  rewrite flat_cons. cbn [repeat app regroup].
  rewrite changes_other
    by (intros ->; apply (Hlast t eq_refl); now left).
  rewrite (Hsize t k) by now left. rewrite Nat2Z.id. cbn [fmt_str repeat app].
  rewrite regroup_run, IH; try assumption; [reflexivity| |].
  - intros t' k' Hin. apply Hsize. now right.
  - now intros t' [= <-].
Qed.

Lemma blocks_flat (rs : list (string * nat)) :
  forall last : option string,
    NoDup (map fst rs) ->
    (forall t, last = Some t -> ~ In t (map fst rs)) ->
    blocks last (flat rs) = List.length rs.
Proof.
  induction rs as [|[t k] rs IH]; intros last Hnd Hlast; [reflexivity|].
  cbn [map fst] in *. inversion Hnd as [|x l Hnin Hnd']; subst.
  rewrite flat_cons. cbn [repeat app blocks List.length].
  rewrite changes_other
    by (intros ->; apply (Hlast t eq_refl); now left).
  rewrite blocks_run, IH; try assumption; [reflexivity|].
  now intros t' [= <-].
Qed.

(** ** Reading back the header *)

Lemma plus_group (a : atom) (r : regex) (ds rest : string) :
  is_empty ds = false -> all_chars (accepts a) ds = true ->
  first_is (accepts a) rest = false -> run r false rest = Some EmptyString ->
  run (GOpen :: Plus a :: GClose :: r) false (ds ++ rest) = Some ds.
Proof.
  intros Hne Hd Hrest Hr. destruct ds as [|c ds]; [discriminate|].
  cbn [all_chars] in Hd. apply andb_true_iff in Hd. destruct Hd as [Hc Hd].
  cbn [run append]. rewrite Hc.
  rewrite (star_take_all a _ ds rest EmptyString);
    [cbn [keep]; now rewrite append_empty_r|exact Hd|exact Hrest|exact Hr].
Qed.

Lemma word_in_quotes (w1 w2 word : string) :
  first_is nonspace w2 = true -> wordy word = true ->
  re_match
    (cat [lit w1; ws; lit w2; ws; lit "="; ws; lit quote;
          group [Plus Word]; lit quote])
    (w1 ++ " " ++ w2 ++ " = " ++ quote ++ word ++ quote) = Some word.
Proof.
  intros Hw2 Hw. unfold wordy in Hw. apply andb_true_iff in Hw.
  destruct Hw as [Hne Hw]. apply negb_true_iff in Hne.
  unfold re_match.
  change (cat [lit w1; ws; lit w2; ws; lit "="; ws; lit quote;
               group [Plus Word]; lit quote])
    with (lit w1 ++ One Space :: lit w2
            ++ cat [ws; lit "="; ws; lit quote; group [Plus Word]; lit quote])%list.
  rewrite run_lit, starts_app, drop_app.
  cbn [append run accepts]. change (is_space " ") with true. cbv iota.
  rewrite keep_false, run_lit, starts_app, drop_app.
  cbn [cat List.concat ws lit group quote app run append accepts keep].
  change (is_space " ") with true. change (Ascii.eqb "=" "=") with true.
  rewrite Ascii.eqb_refl. rewrite !keep_false.
  apply (plus_group Word [One (Lit QUOTE)] word quote);
    try assumption; reflexivity.
Qed.

Ltac skip_pattern :=
  first
    [ rewrite on_file_type_skip by (apply (nomatch_top "File"); reflexivity)
    | rewrite on_object_class_skip by (apply (nomatch_top "Object"); reflexivity)
    | rewrite on_xmin_skip by (apply (nomatch_top "xmin"); reflexivity)
    | rewrite on_xmax_skip by (apply (nomatch_top "xmax"); reflexivity)
    | rewrite on_tiers_skip by (apply (nomatch_top "tiers?"); reflexivity)
    | rewrite on_size_skip by (apply (nomatch_top "size"); reflexivity)
    | rewrite on_item_skip by (apply item_skip; reflexivity)
    | rewrite on_name_skip by (apply name_skip; reflexivity)
    | rewrite on_intervals_skip by (apply intervals_skip; reflexivity)
    | rewrite on_ixmin_skip by (apply ixmin_skip; reflexivity)
    | rewrite on_ixmax_skip by (apply ixmax_skip; reflexivity)
    | rewrite on_text_skip by (apply text_skip; reflexivity) ];
  cbn [bind].

Lemma written_file_type (ft : string) (st : pstate) :
  wordy ft = true ->
  parse_line st ("File type = " ++ quote ++ ft ++ quote)
  = Ok (upd (set_file_type (Some ft)) st).
Proof.
  intros Hw. pose proof (word_in_quotes "File" "type" ft eq_refl Hw) as Hm.
  change (re_match re_file_type ("File type = " ++ quote ++ ft ++ quote) = Some ft)
    in Hm.
  unfold parse_line. unfold on_file_type at 1. rewrite Hm. cbn [bind].
  repeat skip_pattern. reflexivity.
Qed.

Lemma written_object_class (oc : string) (st : pstate) :
  wordy oc = true ->
  parse_line st ("Object class = " ++ quote ++ oc ++ quote)
  = Ok (upd (set_object_class (Some oc)) st).
Proof.
  intros Hw. pose proof (word_in_quotes "Object" "class" oc eq_refl Hw) as Hm.
  change (re_match re_object_class ("Object class = " ++ quote ++ oc ++ quote)
          = Some oc) in Hm.
  unfold parse_line. skip_pattern.
  unfold on_object_class at 1. rewrite Hm. cbn [bind].
  repeat skip_pattern. reflexivity.
Qed.

Lemma written_blank_line (st : pstate) : parse_line st EmptyString = Ok st.
Proof. unfold parse_line. repeat skip_pattern. reflexivity. Qed.

Lemma written_item_head (st : pstate) : parse_line st "item[]" = Ok st.
Proof. unfold parse_line. repeat skip_pattern. reflexivity. Qed.

(** The bounds of the header are written without the equals sign: the
    parser reads over them. *)
Lemma written_header_xmin (v : option float) (st : pstate) :
  parse_line st ("xmin " ++ fmt_float v) = Ok st.
Proof.
  unfold parse_line. do 2 skip_pattern.
  rewrite on_xmin_skip
    by (apply (header_pattern_needs_equals "xmin"), fmt_float_first).
  cbn [bind]. repeat skip_pattern. reflexivity.
Qed.

Lemma written_header_xmax (v : option float) (st : pstate) :
  parse_line st ("xmax " ++ fmt_float v) = Ok st.
Proof.
  unfold parse_line. do 3 skip_pattern.
  rewrite on_xmax_skip
    by (apply (header_pattern_needs_equals "xmax"), fmt_float_first).
  cbn [bind]. repeat skip_pattern. reflexivity.
Qed.

Lemma written_tiers_match (tv : string) :
  one_line tv = true ->
  re_match re_tiers ("tiers? <" ++ tv ++ ">") = Some tv.
Proof.
  intros Ht. unfold re_match.
  change re_tiers with (lit "tiers?" ++ cat [ws; lit "<"; group [Star Dot]; lit ">"])%list.
  change ("tiers? <" ++ tv ++ ">") with ("tiers?" ++ " <" ++ tv ++ ">").
  rewrite run_lit, starts_app, drop_app.
  cbn [cat List.concat ws lit group app run append accepts keep].
  change (is_space " ") with true. change (Ascii.eqb "<" "<") with true.
  rewrite !keep_false.
  apply (star_dot_last ">"); try assumption; try reflexivity.
  intros [|c t]; [reflexivity|]. cbn [first_is]. now intros ->.
Qed.

Lemma written_tiers (tv : string) (st : pstate) :
  one_line tv = true ->
  parse_line st ("tiers? <" ++ tv ++ ">") = Ok (upd (set_tiers (Some tv)) st).
Proof.
  intros Ht. pose proof (written_tiers_match tv Ht) as Hm.
  unfold parse_line. do 4 skip_pattern.
  unfold on_tiers at 1. rewrite Hm. cbn [bind].
  repeat skip_pattern. reflexivity.
Qed.

Lemma written_size_match (n : Z) :
  0 <= n -> re_match re_size ("size = " ++ str_int n) = Some (str_int n).
Proof.
  intros Hn. destruct (str_int_digits n Hn) as (Hne & Hd & _).
  unfold re_match.
  change re_size with (lit "size" ++ cat [ws; lit "="; ws; group [Plus Digit]])%list.
  change ("size = " ++ str_int n) with ("size" ++ " = " ++ str_int n).
  rewrite run_lit, starts_app, drop_app.
  cbn [cat List.concat ws lit group app run append accepts keep].
  change (is_space " ") with true. change (Ascii.eqb "=" "=") with true.
  rewrite !keep_false. rewrite <- (append_empty_r (str_int n)) at 1.
  apply (digits_group [] (str_int n) EmptyString); try assumption; reflexivity.
Qed.

Lemma written_size (n : Z) (st : pstate) :
  0 <= n < 10 ^ int_max_str_digits ->
  parse_line st ("size = " ++ str_int n) = Ok (upd (set_n_tiers (Some n)) st).
Proof.
  intros Hn. pose proof (written_size_match n (proj1 Hn)) as Hm.
  destruct (str_int_reads_back n Hn) as (_ & _ & Hint).
  unfold parse_line. do 5 skip_pattern.
  unfold on_size at 1. rewrite Hm, Hint. cbn [bind].
  repeat skip_pattern. reflexivity.
Qed.

(** The header the serializer writes, read by the parser: the four
    attributes written with the syntax the parser expects come back,
    the two bounds do not. *)
Lemma reread_header (o : TextGrid) (ft oc tv : string) (n : Z) (ps : pstate) :
  o.(file_type) = Some ft -> wordy ft = true ->
  o.(object_class) = Some oc -> wordy oc = true ->
  o.(tiers) = Some tv -> one_line tv = true ->
  o.(n_tiers) = Some n -> 0 <= n < 10 ^ int_max_str_digits ->
  parse_lines ps (header_lines o)
  = Ok (upd (fun b => set_n_tiers (Some n)
                        (set_tiers (Some tv)
                           (set_object_class (Some oc)
                              (set_file_type (Some ft) b)))) ps).
Proof.
  intros Hft Wft Hoc Woc Htv Wtv Hn Hn0. unfold header_lines.
  rewrite Hft, Hoc, Htv, Hn. cbn [fmt_str fmt_int parse_lines].
  rewrite written_file_type by exact Wft. cbn [bind].
  rewrite written_object_class by exact Woc. cbn [bind].
  rewrite written_blank_line. cbn [bind].
  rewrite written_header_xmin. cbn [bind].
  rewrite written_header_xmax. cbn [bind].
  rewrite written_tiers by exact Wtv. cbn [bind].
  rewrite written_size by exact Hn0. cbn [bind].
  rewrite written_item_head. reflexivity.
Qed.

(** ** The round trip of the annotation table *)

(** Writing an object with [to_textgrid] and reading the text again
    gives back the four columns and the attributes [file_type],
    [object_class], [tiers] and [n_tiers], and loses the two bounds,
    provided that: the two first attributes are words; the tier column
    is made of runs with pairwise distinct labels, no more runs than
    [n_tiers] declares; the four columns have the same length; no label,
    annotation or attribute holds a line boundary; the times print as
    digits, a dot, digits; [n_tiers] has at most 4300 digits; and the
    machine that reads has room for a list as long as the tier column,
    which is no longer than [sys.maxsize]. *)
Theorem written_text_reads_back :
  forall (o : TextGrid) (path ft oc tv : string) (n : Z)
         (rs : list (string * nat)),
    clean_object o = true ->
    o.(file_type) = Some ft -> wordy ft = true ->
    o.(object_class) = Some oc -> wordy oc = true ->
    o.(tiers) = Some tv ->
    o.(n_tiers) = Some n -> Z.of_nat (List.length rs) <= n ->
    n < 10 ^ int_max_str_digits ->
    o.(content_tier) = flat rs -> NoDup (map fst rs) ->
    Forall plain o.(content_start) -> Forall plain o.(content_end) ->
    List.length o.(content_tier) = List.length o.(content_start) ->
    List.length o.(content_tier) = List.length o.(content_end) ->
    List.length o.(content_tier) = List.length o.(content_annotation) ->
    Z.of_nat (List.length o.(content_tier)) <= sys_maxsize ->
    Z.of_nat (List.length o.(content_tier)) <= capacity ->
    exists d : TextGrid,
      parse_text (textgrid_text o) (blank path) = Ok d
      /\ cols d = cols o
      /\ d.(file_type) = o.(file_type) /\ d.(object_class) = o.(object_class)
      /\ d.(tiers) = o.(tiers) /\ d.(n_tiers) = o.(n_tiers)
      /\ d.(xmin) = None /\ d.(xmax) = None.
Proof.
  intros o path ft oc tv n rs Hc Hft Wft Hoc Woc Htv Hn Hle Hshort Hflat Hnd
         Hs He L1 L2 L3 Hfit Hroom.
  pose proof Hc as Hc'. unfold clean_object in Hc'.
  rewrite !andb_true_iff in Hc'. destruct Hc' as ((((_ & _) & Ctv) & Ct) & Ca).
  rewrite Htv in Ctv. cbn [clean_opt] in Ctv. apply clean_one_line in Ctv.
  assert (Hn0 : 0 <= n < 10 ^ int_max_str_digits) by lia.
  assert (Hlabels : map label (rows_of o) = flat rs)
    by (unfold rows_of; now rewrite zip4_labels).
  destruct (zip4_columns _ _ _ _ L1 L2 L3) as (Ms & Me & Ma).
  fold (rows_of o) in Ms, Me, Ma.
  unfold parse_text. rewrite (splitlines_textgrid_text _ Hc). unfold text_lines.
  rewrite parse_lines_app.
  rewrite (reread_header o ft oc tv n) by assumption. cbn [bind].
  rewrite (reread_body o n); try assumption.
  - cbn [bind]. eexists. split; [reflexivity|].
    rewrite reread_rows_self, Hlabels, Ms, Me, Ma.
    rewrite regroup_flat; try assumption.
    + unfold cols. cbn. rewrite Hflat, Hft, Hoc, Htv, Hn. now repeat split.
    + intros t k Hin. now apply (tier_size_of_run o rs).
    + intros t. cbn [start_state last_tier]. discriminate.
  - apply zip4_rows_ok; assumption.
  - reflexivity.
  - cbn [start_state tier_idx]. lia.
  - cbn [start_state tier_idx last_tier]. rewrite Hlabels, blocks_flat; try assumption.
    + lia.
    + discriminate.
  - now left.
Qed.

(** ** The depth of the indentation *)

Lemma indented_match_depth (w : string) (r : regex) (i1 i2 body : string) :
  first_is nonspace w = true ->
  is_empty i1 = false -> all_chars is_space i1 = true ->
  is_empty i2 = false -> all_chars is_space i2 = true ->
  first_is is_space body = false ->
  re_match (Plus Space :: lit w ++ r)%list (i1 ++ body)
  = re_match (Plus Space :: lit w ++ r)%list (i2 ++ body).
Proof.
  intros Hw E1 S1 E2 S2 Hb. unfold re_match.
  rewrite !run_indented by exact Hw.
  now rewrite !indented_app, !lstrip_app by assumption.
Qed.

Lemma first_space_app (indent rest : string) :
  is_empty indent = false -> all_chars is_space indent = true ->
  first_is is_space (indent ++ rest) = true.
Proof.
  destruct indent as [|c s]; [discriminate|]. cbn [append first_is all_chars].
  intros _ H. apply andb_true_iff in H. now destruct H.
Qed.

(** The parser looks at whether a line is indented, not at how far:
    two lines that differ in their leading white space only (tabs or
    blanks, one or many) are read alike. *)
Theorem indentation_depth_is_ignored :
  forall (i1 i2 body : string) (st : pstate),
    is_empty i1 = false -> all_chars is_space i1 = true ->
    is_empty i2 = false -> all_chars is_space i2 = true ->
    first_is is_space body = false ->
    parse_line st (i1 ++ body) = parse_line st (i2 ++ body).
Proof.
  intros i1 i2 body st E1 S1 E2 S2 Hb.
  rewrite !parse_line_space by now apply first_space_app.
  assert (H1 : re_match re_item (i1 ++ body) = re_match re_item (i2 ++ body))
    by now apply (indented_match_depth "item").
  assert (H2 : re_match re_name (i1 ++ body) = re_match re_name (i2 ++ body))
    by now apply (indented_match_depth "name").
  assert (H3 : re_match re_intervals (i1 ++ body) = re_match re_intervals (i2 ++ body))
    by now apply (indented_match_depth "intervals:").
  assert (H4 : re_match re_ixmin (i1 ++ body) = re_match re_ixmin (i2 ++ body))
    by now apply (indented_match_depth "xmin").
  assert (H5 : re_match re_ixmax (i1 ++ body) = re_match re_ixmax (i2 ++ body))
    by now apply (indented_match_depth "xmax").
  assert (H6 : re_match re_text (i1 ++ body) = re_match re_text (i2 ++ body))
    by now apply (indented_match_depth "text").
  unfold on_item, on_name, on_intervals, on_ixmin, on_ixmax, on_text.
  now rewrite H1, H2, H3, H4, H5, H6.
Qed.

(** ** Saving as TextGrid *)

(** [to_textgrid] writes nothing, whatever the object and the path: the
    extension [splitext] returns is empty or begins with a dot, the
    lists of lines 178 and 180 hold no such text, and line 183 raises. *)
Theorem to_textgrid_never_writes :
  forall (o : TextGrid) (path : string),
    (forall written, to_textgrid o path <> Ok written)
    /\ exists ext,
         to_textgrid o path = Raise (unsupported ext)
         /\ (ext = EmptyString \/ exists r, ext = String "." r).
Proof.
  intros o path. split.
  - intros written. rewrite to_textgrid_raises. discriminate.
  - exists (snd (splitext path)). split; [apply to_textgrid_raises|apply splitext_ext].
Qed.

End Properties.

(** * Worked examples *)

#[local] Existing Instance laptop.

(** ** Examples of the claims *)

(** The header declares [size = 2]; the ninth line is [item [3]]. *)
Lemma C3_three_items :
  splitlines three_items
  = (firstn 6 three_items_lines ++ "size = 2" :: ["item []:"] ++ ["    item [3]:"])%list
  /\ re_match re_size "size = 2" = Some "2"
  /\ re_match re_item "    item [3]:" = Some "3"
  /\ parse_text three_items (blank "a.TextGrid") = Raise (too_many_tiers 2 2).
Proof.
  split; [reflexivity|]. split; [reflexivity|]. split; [reflexivity|].
  assert (Hmid : forall l, In l ["item []:"] -> re_match re_size l = None).
  { intros l Hl. cbn [In] in Hl. destruct Hl as [<-|[]]. reflexivity. }
  assert (Hshort : digits_of "3" <= int_max_str_digits)
    by (vm_compute; discriminate).
  assert (E1 : splitlines three_items
               = (firstn 6 three_items_lines
                    ++ "size = 2" :: ["item []:"] ++ "    item [3]:" :: [])%list)
    by reflexivity.
  assert (E2 : re_match re_size "size = 2" = Some "2") by reflexivity.
  assert (E3 : parse_lines (mkP (blank "a.TextGrid") true None)
                 (firstn 6 three_items_lines ++ "size = 2" :: ["item []:"])
               = Ok (state_after three_items_lines)) by reflexivity.
  assert (E4 : re_match re_item "    item [3]:" = Some "3") by reflexivity.
  destruct (proj1 (C3_item_beyond_declared_count (M := laptop)
                     (blank "a.TextGrid") three_items (firstn 6 three_items_lines)
                     ["item []:"] [] "size = 2" "2" "    item [3]:" "3"
                     (state_after three_items_lines)
                     E1 E2 Hmid E3 E4) Hshort)
    as (n & N & Hn & HN & _ & Hraise & _).
  vm_compute in Hn, HN. injection Hn as <-. injection HN as <-.
  apply Hraise. lia.
Defined.

(** An [item] line on the fourth line, the [size] line after it. *)
Lemma C10_item_first :
  (blank "a.TextGrid").(n_tiers) = None
  /\ splitlines no_size = (no_size_lines ++ ["    item [1]:"; "size = 1"])%list
  /\ re_match re_item "    item [1]:" = Some "1"
  /\ parse_text no_size (blank "a.TextGrid") = Raise int_ge_None.
Proof.
  split; [reflexivity|]. split; [reflexivity|]. split; [reflexivity|].
  assert (Hpre : forall l, In l no_size_lines -> re_match re_size l = None).
  { intros l Hl. cbn [no_size_lines In] in Hl.
    destruct Hl as [<-|[<-|[<-|[]]]]; reflexivity. }
  assert (Hshort : digits_of "1" <= int_max_str_digits)
    by (vm_compute; discriminate).
  assert (E1 : splitlines no_size
               = (no_size_lines ++ "    item [1]:" :: ["size = 1"])%list)
    by reflexivity.
  assert (E2 : parse_lines (mkP (blank "a.TextGrid") true None) no_size_lines
               = Ok (state_after no_size_lines)) by reflexivity.
  assert (E3 : re_match re_item "    item [1]:" = Some "1") by reflexivity.
  exact (proj1 (proj1 (C10_item_before_size (M := laptop)
                         (blank "a.TextGrid") no_size no_size_lines ["size = 1"]
                         "    item [1]:" "1" (state_after no_size_lines)
                         eq_refl E1 Hpre E2 E3) Hshort)).
Defined.

(** The lines of one tier, read in the states [in_header] and
    [in_intervals]; a size above [sys.maxsize], and one above the
    capacity of the machine. *)
Lemma C8_phones_lines :
  (exists st',
     parse_line in_header "        intervals: size = 2" = Ok st'
     /\ cols st'.(self) = ([Some "phones"; Some "phones"], [], [], [])
     /\ st'.(tier_header) = false /\ st'.(tier_name) = Some "phones")
  /\ parse_line in_header "            xmin = 0.5" = Ok in_header
  /\ (exists st',
        parse_line in_intervals "            xmin = 0.5" = Ok st'
        /\ cols st'.(self) = ([], [f_0_5], [], []))
  /\ parse_line in_header "            xmax = 1.0" = Ok in_header
  /\ (exists st',
        parse_line in_intervals "            xmax = 1.0" = Ok st'
        /\ cols st'.(self) = ([], [], [f_1_0], []))
  /\ parse_line in_header ("            text = " ++ q "k") = Ok in_header
  /\ (exists st',
        parse_line in_intervals ("            text = " ++ q "k") = Ok st'
        /\ cols st'.(self) = ([], [], [], ["k"]))
  /\ parse_line in_header "        intervals: size = 9223372036854775808"
     = Raise index_overflow
  /\ parse_line in_header "        intervals: size = 1073741825" = Raise MemoryError
  /\ (forall st2,
        parse_lines in_intervals
          [ "    item [2]:"; "        name = " ++ q "words";
            "        xmin = 0.0"; "        xmax = 1.0" ] = Ok st2 ->
        st2.(tier_header) = true /\ cols st2.(self) = cols in_intervals.(self)).
Proof.
  split.
  { destruct (proj2 (proj1 (C8_interval_lines (M := laptop)
                              in_header "        intervals: size = 2" "2") eq_refl)
                ltac:(vm_compute; discriminate))
      as (N & HN & _ & _ & _ & H).
    vm_compute in HN. injection HN as <-.
    destruct (H ltac:(vm_compute; discriminate) ltac:(vm_compute; discriminate))
      as (st' & Hst & Hcols & _ & _ & Hflag & Hname).
    exists st'. split; [exact Hst|]. split; [exact Hcols|].
    split; [exact Hflag|exact Hname]. }
  split.
  { exact (proj1 (proj1 (proj2 (C8_interval_lines (M := laptop)
                                  in_header "            xmin = 0.5" "0.5"))
                    eq_refl) eq_refl). }
  split.
  { destruct (proj2 (proj2 (proj1 (proj2 (C8_interval_lines (M := laptop)
                                  in_intervals "            xmin = 0.5" "0.5"))
                    eq_refl) eq_refl) f_0_5 ltac:(vm_compute; reflexivity))
      as (st' & Hst & Hcols & _).
    exists st'. split; [exact Hst|exact Hcols]. }
  split.
  { exact (proj1 (proj1 (proj2 (proj2 (C8_interval_lines (M := laptop)
                                  in_header "            xmax = 1.0" "1.0")))
                    eq_refl) eq_refl). }
  split.
  { destruct (proj2 (proj2 (proj1 (proj2 (proj2 (C8_interval_lines (M := laptop)
                                  in_intervals "            xmax = 1.0" "1.0")))
                    eq_refl) eq_refl) f_1_0 ltac:(vm_compute; reflexivity))
      as (st' & Hst & Hcols & _).
    exists st'. split; [exact Hst|exact Hcols]. }
  split.
  { exact (proj1 (proj1 (proj2 (proj2 (proj2 (C8_interval_lines (M := laptop)
                                  in_header ("            text = " ++ q "k") "k"))))
                    eq_refl) eq_refl). }
  split.
  { destruct (proj2 (proj1 (proj2 (proj2 (proj2 (C8_interval_lines (M := laptop)
                                  in_intervals ("            text = " ++ q "k") "k"))))
                    eq_refl) eq_refl)
      as (st' & Hst & Hcols & _).
    exists st'. split; [exact Hst|exact Hcols]. }
  split.
  { destruct (proj2 (proj1 (C8_interval_lines (M := laptop)
                              in_header "        intervals: size = 9223372036854775808"
                              "9223372036854775808") eq_refl)
                ltac:(vm_compute; discriminate))
      as (N & HN & _ & H & _).
    vm_compute in HN. injection HN as <-. apply H. vm_compute. reflexivity. }
  split.
  { destruct (proj2 (proj1 (C8_interval_lines (M := laptop)
                              in_header "        intervals: size = 1073741825"
                              "1073741825") eq_refl)
                ltac:(vm_compute; discriminate))
      as (N & HN & _ & _ & H & _).
    vm_compute in HN. injection HN as <-.
    apply H; [vm_compute; discriminate|vm_compute; reflexivity]. }
  intros st2 H2.
  assert (E1 : re_match re_item "    item [2]:" = Some "2") by reflexivity.
  assert (E2 : parse_line in_intervals "    item [2]:"
               = Ok (mkP in_intervals.(self) true (Some "phones")))
    by reflexivity.
  refine (proj2 (proj2 (proj2 (proj2
            (C8_interval_lines (M := laptop) in_intervals "    item [2]:" "2")))) E1
            (mkP in_intervals.(self) true (Some "phones"))
            [ "        name = " ++ q "words"; "        xmin = 0.0";
              "        xmax = 1.0" ] st2 E2 _ H2).
  intros l Hl. cbn [In] in Hl.
  destruct Hl as [<-|[<-|[<-|[]]]]; reflexivity.
Defined.

(** [xmin = 0] as an interval line and as a header line: read from the
    header, [xmin = 0] and [xmax = 2] leave both bounds unset, where the
    same lines with a fractional part set them. *)
Lemma C6_whole_number_lines :
  re_match re_ixmin "            xmin = 0" = Some "0"
  /\ re_match re_ixmax "            xmax = 0" = Some "0"
  /\ py_float "0" = Ok f_0_0
  /\ (exists st',
        parse_line in_intervals "            xmin = 0" = Ok st'
        /\ cols st'.(self) = ([], [f_0_0], [], []))
  /\ re_match re_xmin "xmin = 0" = None
  /\ parse_line in_intervals "xmin = 0" = Ok in_intervals
  /\ re_match re_xmin "xmin = 0.5" = Some "0.5"
  /\ (exists o,
        parse_text (unlines ["xmin = 0"; "xmax = 2"]) (blank "a.TextGrid") = Ok o
        /\ o.(xmin) = None /\ o.(xmax) = None)
  /\ (exists o,
        parse_text (unlines ["xmin = 0.0"; "xmax = 1.0"]) (blank "a.TextGrid") = Ok o
        /\ o.(xmin) = Some f_0_0 /\ o.(xmax) = Some f_1_0).
Proof.
  pose proof (C6_fraction_optional_in_intervals_only (M := laptop)
                "            " "0" in_intervals eq_refl eq_refl eq_refl eq_refl)
    as H.
  cbv zeta in H.
  destruct H as ((H1 & H2 & H3 & H4) & (H5 & _ & H7 & _) & H9).
  split; [exact H1|]. split; [exact H2|]. split; [exact H3|].
  split; [exact (proj1 (H4 eq_refl))|]. split; [exact H5|].
  split; [exact H7|]. split; [exact (proj1 (H9 "5" eq_refl eq_refl))|].
  split; eexists; (split; [vm_compute; reflexivity|split; reflexivity]).
Defined.

(** Columns of lengths 3, 1, 2 and 3: one interval block is built, under
    a tier block whose size counts the two labels [a] of the tier
    column; and the method raises. *)
Lemma C9_ragged_columns :
  shortest_column ragged = 1%nat
  /\ textgrid_text ragged = ragged_text
  /\ filter block_value (splitlines (textgrid_text ragged))
     = [ tabs 4 "xmin = 0.0"; tabs 4 "xmax = 0.5"; tabs 4 ("text = " ++ q "x") ]
  /\ List.length (filter block_head (splitlines (textgrid_text ragged))) = 1%nat
  /\ to_textgrid ragged "out.TextGrid" = Raise (unsupported ".TextGrid").
Proof.
  destruct (C9_lockstep_truncation ragged) as (_ & _ & H3 & _ & H5).
  destruct (H3 eq_refl) as [Hv Hh].
  split; [reflexivity|]. split; [vm_compute; reflexivity|].
  split; [rewrite Hv; vm_compute; reflexivity|].
  split; [exact Hh|]. exact (proj1 (H5 "out.TextGrid")).
Defined.

(** The example rows, and rows whose label [a] returns after [b]: both
    tier blocks of [a] carry the size 2. *)
Lemma C5_example_and_scattered :
  cols example_object = example_columns
  /\ textgrid_text example_object = example_text
  /\ (emit_row scattered (start_state scattered) (Some "a", f_0_0, f_0_5, "x")).(text)
     = header_text scattered
       ++ tier_text scattered 1 (Some "a") 2 ++ interval_text 1 f_0_0 f_0_5 "x"
  /\ textgrid_text scattered
     = header_text scattered
       ++ tier_text scattered 1 (Some "a") 2 ++ interval_text 1 f_0_0 f_0_5 "x"
       ++ tier_text scattered 2 (Some "b") 1 ++ interval_text 1 f_0_0 f_1_0 "y"
       ++ tier_text scattered 3 (Some "a") 2 ++ interval_text 1 f_0_5 f_1_0 "z".
Proof.
  split; [reflexivity|]. split.
  { rewrite (proj1 C5_tier_blocks example_object eq_refl). reflexivity. }
  split.
  { exact (proj1 (proj2 C5_tier_blocks scattered []
                    [(Some "b", f_0_0, f_1_0, "y"); (Some "a", f_0_5, f_1_0, "z")]
                    (Some "a") f_0_0 f_0_5 "x" eq_refl eq_refl eq_refl eq_refl)). }
  pose proof (proj1 (proj2 C5_tier_blocks scattered
                [(Some "a", f_0_0, f_0_5, "x"); (Some "b", f_0_0, f_1_0, "y")] []
                (Some "a") f_0_5 f_1_0 "z" eq_refl eq_refl eq_refl eq_refl)) as H.
  vm_compute in H. vm_compute. exact H.
Defined.

(** The sample file: the object read has the bounds 0.0 and 1.0; the
    object read from its serialization has none, while the other header
    fields and the four columns are the same. *)
Lemma C1_sample_round_trip :
  clean_object (blank "sample.TextGrid") = true
  /\ exists d0 d1 : TextGrid,
       parse_text sample_textgrid (blank "sample.TextGrid") = Ok d0
       /\ parse_text (textgrid_text d0) (blank "sample.TextGrid") = Ok d1
       /\ d0.(xmin) = Some f_0_0 /\ d0.(xmax) = Some f_1_0
       /\ d1.(xmin) = None /\ d1.(xmax) = None
       /\ d1.(file_type) = d0.(file_type)
       /\ d1.(object_class) = d0.(object_class)
       /\ d1.(tiers) = d0.(tiers)
       /\ d1.(n_tiers) = d0.(n_tiers)
       /\ cols d1 = cols d0
       /\ cols d0 = example_columns.
Proof.
  split; [reflexivity|].
  destruct (parse_text sample_textgrid (blank "sample.TextGrid")) as [d0|e] eqn:E0;
    [|vm_compute in E0; discriminate E0].
  destruct (parse_text (textgrid_text d0) (blank "sample.TextGrid")) as [d1|e] eqn:E1;
    [|vm_compute in E0; injection E0 as <-; vm_compute in E1; discriminate E1].
  exists d0, d1.
  destruct (C1_round_trip_loses_bounds (M := laptop)
              sample_textgrid "sample.TextGrid" (blank "sample.TextGrid") d0 d1
              eq_refl E0 E1) as (Hmin & Hmax & _).
  split; [reflexivity|]. split; [exact E1|].
  vm_compute in E0. injection E0 as <-.
  vm_compute in E1. injection E1 as <-.
  split; [reflexivity|]. split; [reflexivity|].
  split; [exact Hmin|]. split; [exact Hmax|]. repeat split.
Defined.

(** ** Examples of the further properties *)


(** A [size] line of one digit, and one of 4301 digits. *)
Lemma header_line_is_safe_example :
  (exists st', parse_line in_intervals "size = 7" = Ok st' /\ same_tier in_intervals st')
  /\ parse_line in_intervals ("size = " ++ long_number)
     = Raise (int_too_long long_number).
Proof.
  split.
  - apply (proj2 (header_line_is_safe (M := laptop) in_intervals "size = 7" eq_refl)).
    intros g Hg. vm_compute in Hg. injection Hg as <-. vm_compute. discriminate.
  - apply (proj1 (header_line_is_safe (M := laptop) in_intervals ("size = " ++ long_number)
                    eq_refl) long_number).
    + vm_compute. reflexivity.
    + vm_compute. reflexivity.
Defined.

(** A bound met after the first tier name. *)
Lemma bounds_frozen_example :
  parse_lines in_intervals ["xmin = 3.5"; "xmax = 4.5"] = Ok in_intervals
  /\ in_intervals.(tier_name) <> None
  /\ in_intervals.(self).(xmin) = None
  /\ in_intervals.(self).(xmax) = None.
Proof.
  assert (H : parse_lines in_intervals ["xmin = 3.5"; "xmax = 4.5"] = Ok in_intervals)
    by (vm_compute; reflexivity).
  split; [exact H|].
  destruct (bounds_frozen_after_first_name (M := laptop)
              ["xmin = 3.5"; "xmax = 4.5"] in_intervals in_intervals
              ltac:(discriminate) H) as (Hn & Hmin & Hmax).
  split; [exact Hn|]. split; [exact Hmin|exact Hmax].
Defined.

(** [0.5] followed by a unit, and a number that is no number. *)
Lemma interval_number_example :
  re_match re_ixmin "    xmin = 0.5 s" = Some "0.5"
  /\ parse_line in_header "    xmin = 0.5 s" = Ok in_header
  /\ parse_line in_intervals "    xmin = abc" = Raise (float_refused EmptyString).
Proof.
  assert (Hc : is_empty "." = true -> is_empty "5" = true) by discriminate.
  pose proof (interval_number_is_a_prefix (M := laptop)
                "    " "0" "." "5" " s" in_header
                eq_refl eq_refl eq_refl eq_refl eq_refl Hc eq_refl) as H.
  cbv zeta in H. destruct H as (H1 & _ & H3 & _).
  split; [exact H1|]. split; [exact (H3 eq_refl)|].
  pose proof (interval_number_is_a_prefix (M := laptop)
                "    " EmptyString EmptyString EmptyString "abc" in_intervals
                eq_refl eq_refl eq_refl eq_refl eq_refl (fun _ => eq_refl) eq_refl) as H.
  cbv zeta in H. destruct H as (_ & _ & _ & _ & H5 & _).
  exact (H5 eq_refl eq_refl).
Defined.

(** A text with quotes in it, and a comment after the closing quote. *)
Lemma quoted_text_example :
  re_match re_text
    ("    " ++ "text = " ++ quote ++ ("say " ++ quote ++ "hi") ++ quote ++ " !")
  = Some ("say " ++ quote ++ "hi").
Proof.
  exact (proj1 (quoted_text_runs_to_the_last_quote (M := laptop)
                  "    " ("say " ++ quote ++ "hi") " !" in_intervals
                  eq_refl eq_refl eq_refl eq_refl)).
Defined.

(** A tab and eight blanks before [item [1]]. *)
Lemma indentation_example :
  parse_line in_intervals (tab ++ "item [1]")
  = parse_line in_intervals ("        " ++ "item [1]").
Proof.
  apply (indentation_depth_is_ignored (M := laptop) tab "        " "item [1]" in_intervals);
    reflexivity.
Defined.

(** The example object, written and read again. *)
Lemma written_text_reads_back_example :
  exists d : TextGrid,
    parse_text (textgrid_text example_object) (blank "b.TextGrid") = Ok d
    /\ cols d = cols example_object
    /\ d.(file_type) = example_object.(file_type)
    /\ d.(object_class) = example_object.(object_class)
    /\ d.(tiers) = example_object.(tiers)
    /\ d.(n_tiers) = example_object.(n_tiers)
    /\ d.(xmin) = None /\ d.(xmax) = None.
Proof.
  assert (Hnd : NoDup (map fst [("phones", 1%nat); ("words", O)])).
  { constructor; [intros [H|[]]; discriminate H|].
    constructor; [intros []|constructor]. }
  assert (Hs : Forall plain example_object.(content_start)).
  { repeat constructor;
      first [ exists "0", "0"; vm_compute; repeat split; reflexivity
            | exists "0", "5"; vm_compute; repeat split; reflexivity ]. }
  assert (He : Forall plain example_object.(content_end)).
  { repeat constructor;
      first [ exists "0", "5"; vm_compute; repeat split; reflexivity
            | exists "1", "0"; vm_compute; repeat split; reflexivity ]. }
  assert (Hn : 2 < 10 ^ int_max_str_digits)
    by (apply (Z.le_lt_trans _ sys_maxsize);
        [vm_compute; discriminate|exact maxsize_short]).
  exact (written_text_reads_back (M := laptop) example_object "b.TextGrid"
           "ooTextFile" "TextGrid" "exists" 2
           [("phones", 1%nat); ("words", O)]
           eq_refl eq_refl eq_refl eq_refl eq_refl eq_refl eq_refl
           ltac:(vm_compute; discriminate) Hn eq_refl Hnd Hs He
           eq_refl eq_refl eq_refl
           ltac:(vm_compute; discriminate) ltac:(vm_compute; discriminate)).
Defined.
